(** * Industrial_analysis: name resolution, table loading, querying and
    statistics, embedded from [src/tools/*.py].

    The Python code is translated function by function.  Python values are
    an inductive type, pandas tables are records of a schema and rows,
    numbers are IEEE binary64 floats (Rocq's primitive floats, which is
    what Python's [float] and numpy's [float64] are), exceptions are an
    error monad, and the loader's dictionary cache, the object store and
    the disk accesses are explicit state.  Calls to [logger] have no effect
    on any value and are left out. *)

From Stdlib Require Import ZArith String Ascii List Bool Floats Uint63 Lia.
From stdpp Require Import gmap strings list.

Set Warnings "-register-all,-inexact-float".
Import ListNotations.

Local Open Scope Z_scope.
Local Open Scope string_scope.

(* ===================================================================== *)
(** ** Python values, strings and exceptions *)
(* ===================================================================== *)

Module Py.

(** The texts of the f-strings the code raises or returns, kept
    structured.  The Chinese text is given next to each constructor. *)
Inductive msg : Type :=
| MsgFileMissing (path : string)          (* 数据文件 {path} 不存在 *)
| MsgReadFailed                           (* 读取数据文件失败: {e} *)
| MsgNoEncoding (path : string)           (* 无法使用任何编码读取文件: {path} *)
| MsgUnsupportedFormat (name : string)    (* 不支持的文件格式: {name} *)
| MsgColumnMissing (col : string)         (* 列不存在: {col} *)
| MsgColumnsMissing (cols : list string)  (* 列不存在: {missing_cols} *)
| MsgNoValidData                          (* 没有有效数据 *)
| MsgNoDataInPeriods                      (* 指定时期内没有有效数据 *)
| MsgTooFewPoints                         (* 有效数据点不足 *)
| MsgUnsupportedPeriod (p : string)       (* 不支持的时间周期: {period} *)
| MsgUnsupportedMethod (m : string)       (* 不支持的异常值检测方法: {method} *)
| MsgDateFormat (col : string)            (* 无法解析日期列 {col} 的格式 *)
| MsgNoTimeColumn (col : string)          (* 无法找到时间列: {col} *)
| MsgLibrary (what : string).             (* a message produced by pandas *)

(** Python objects that analysis payloads are built from.  Dictionaries
    keep insertion order, hence association lists; [PMsg] is the string an
    f-string evaluates to. *)
Inductive pyval : Type :=
| PNone
| PBool (b : bool)
| PInt (z : Z)
| PFloat (f : float)
| PStr (s : string)
| PMsg (m : msg)
| PList (l : list pyval)
| PTuple (l : list pyval)
| PDict (d : list (pyval * pyval))
| PModule (name : string).

Inductive exn : Type :=
| FileNotFoundError (path : string)
| ValueError (m : msg)
| KeyError (key : string)
| TypeError
| AttributeError
| ZeroDivisionError
| UnicodeDecodeError.

(** The outcome of a call: a value, or an exception that leaves the
    function. *)
Inductive result (A : Type) : Type :=
| Return (a : A)
| Raise (e : exn).
Arguments Return {A} a.
Arguments Raise {A} e.

Definition rbind {A B} (r : result A) (k : A -> result B) : result B :=
  match r with
  | Return a => k a
  | Raise e => Raise e
  end.

(** [str.lower()] on text held as its UTF-8 bytes: the letters A-Z are
    folded, every other byte is kept.  This is [str.lower()] on the
    strings that [plain_case] below accepts; Python also folds the cased
    letters outside ASCII (É, Ω, ...), so what is stated about lower-cased
    names is stated for [plain_case] names. *)
Definition lower_ascii (c : ascii) : ascii :=
  let n := nat_of_ascii c in
  if ((65 <=? n)%nat && (n <=? 90)%nat)%bool then ascii_of_nat (n + 32) else c.

Fixpoint lower (s : string) : string :=
  match s with
  | EmptyString => EmptyString
  | String c s' => String (lower_ascii c) (lower s')
  end.

(** A byte [10xxxxxx], which continues a character in UTF-8. *)
Definition is_continuation (c : ascii) : bool :=
  let n := nat_of_ascii c in ((128 <=? n)%nat && (n <=? 191)%nat)%bool.

(** The names without cased letters beyond ASCII that the statements
    cover: well-formed UTF-8 in which every character is ASCII or lies
    in U+3000..U+9FFF (bytes E3..E9 followed by two continuation bytes:
    CJK punctuation, kana and ideographs), none of which [str.lower()]
    changes. *)
Fixpoint plain_case (s : string) : bool :=
  match s with
  | EmptyString => true
  | String c s1 =>
      let n := nat_of_ascii c in
      if (n <? 128)%nat then plain_case s1
      else if ((227 <=? n)%nat && (n <=? 233)%nat)%bool then
        match s1 with
        | String c2 (String c3 s3) =>
            (is_continuation c2 && is_continuation c3 && plain_case s3)%bool
        | _ => false
        end
      else false
  end.

(** [needle in hay] on strings. *)
Fixpoint contains (needle hay : string) : bool :=
  if String.prefix needle hay then true
  else match hay with
       | EmptyString => false
       | String _ hay' => contains needle hay'
       end.

(** [s.endswith(suffix)]. *)
Definition endswith (s suffix : string) : bool :=
  let n := String.length s in
  let m := String.length suffix in
  ((m <=? n)%nat && String.eqb (String.substring (n - m) m s) suffix)%bool.

(** [x in l] on a list of strings. *)
Definition mem (x : string) (l : list string) : bool :=
  existsb (String.eqb x) l.

(** Python's [a / b] on integers: true division, raising on a zero
    divisor. *)
Definition float_of_Z (z : Z) : float :=
  if (z <? 0)%Z then PrimFloat.opp (PrimFloat.of_uint63 (Uint63.of_Z (- z)))
  else PrimFloat.of_uint63 (Uint63.of_Z z).

Definition truediv (a b : Z) : result float :=
  if (b =? 0)%Z then Raise ZeroDivisionError
  else Return (PrimFloat.div (float_of_Z a) (float_of_Z b)).

Definition len {A} (l : list A) : Z := Z.of_nat (length l).

(** State and exceptions: a call runs from a state to an outcome and the
    state it leaves, also when it raises. *)
Definition stateful (S A : Type) : Type := S -> result A * S.

Definition ret {S A} (a : A) : stateful S A := fun s => (Return a, s).

Definition raise {S A} (e : exn) : stateful S A := fun s => (Raise e, s).

Definition bind {S A B} (m : stateful S A) (k : A -> stateful S B)
  : stateful S B :=
  fun s => match m s with
           | (Return a, s') => k a s'
           | (Raise e, s') => (Raise e, s')
           end.

Definition get_state {S} : stateful S S := fun s => (Return s, s).

Definition put_state {S} (s' : S) : stateful S unit := fun _ => (Return tt, s').

(** A pure computation that may raise, run inside a stateful one. *)
Definition lift {S A} (r : result A) : stateful S A := fun s => (r, s).

(** [try: m  except: handler] with a bare [except]. *)
Definition try_except {S A} (m handler : stateful S A) : stateful S A :=
  fun s => match m s with
           | (Return a, s') => (Return a, s')
           | (Raise _, s') => handler s'
           end.

Notation "'do' x <- m ; k" := (bind m (fun x => k))
  (at level 10, x name, m at level 100, k at level 200).
Notation "'run' m ; k" := (bind m (fun _ => k))
  (at level 10, m at level 100, k at level 200).
Notation "'let!' x <- r ; k" := (rbind r (fun x => k))
  (at level 10, x name, r at level 100, k at level 200).

End Py.
Export Py.

(* ===================================================================== *)
(** ** pandas tables *)
(* ===================================================================== *)

Module Pandas.

(** A cell.  Numeric cells are floats (an integer column holds integral
    floats), and a missing number is NaN, as in pandas; a missing
    timestamp is [NaT].  Timestamps are nanoseconds since 1970-01-01. *)
Inductive cell : Type :=
| Num (f : float)
| Str (s : string)
| Ts (t : Z)
| NaT.

Inductive dtype : Type := DtFloat | DtInt | DtObject | DtDatetime.

(** A table: the ordered, named, typed columns and the rows, each row
    holding one cell per column.  Row labels (the index) play no part in
    the code and are left out. *)
Record DataFrame : Type := mkDF {
  schema : list (string * dtype);
  rows : list (list cell)
}.

Definition columns (df : DataFrame) : list string := map fst (schema df).

Definition shape (df : DataFrame) : nat * nat :=
  (length (rows df), length (schema df)).

(** Position of a column label: the first column of that name. *)
Fixpoint col_index (c : string) (cols : list string) : option nat :=
  match cols with
  | [] => None
  | c' :: rest =>
      if String.eqb c c' then Some 0%nat
      else option_map S (col_index c rest)
  end.

Definition cell_at (i : nat) (r : list cell) : cell := nth i r NaT.

(** [df[c]] as the list of its cells; [None] stands for the [KeyError]. *)
Definition get_col (df : DataFrame) (c : string) : option (list cell) :=
  option_map (fun i => map (cell_at i) (rows df)) (col_index c (columns df)).

Definition col_dtype (df : DataFrame) (c : string) : option dtype :=
  option_map (fun i => snd (nth i (schema df) (c, DtObject)))
             (col_index c (columns df)).

Definition is_nan (f : float) : bool := negb (PrimFloat.eqb f f).

Definition isna (c : cell) : bool :=
  match c with
  | Num f => is_nan f
  | NaT => true
  | _ => false
  end.

(** [series.dropna()]. *)
Definition dropna (s : list cell) : list cell :=
  List.filter (fun c => negb (isna c)) s.

(** The positions of the labels that are present. *)
Fixpoint positions (cols present : list string) : list nat :=
  match cols with
  | [] => []
  | c :: rest =>
      match col_index c present with
      | Some i => i :: positions rest present
      | None => positions rest present
      end
  end.

(** [df[cols]] for a list of labels that are all present. *)
Definition select (df : DataFrame) (cols : list string) : DataFrame :=
  let idx := positions cols (columns df) in
  mkDF (map (fun i => nth i (schema df) ("", DtObject)) idx)
       (map (fun r => map (fun i => cell_at i r) idx) (rows df)).

(** [df[mask]] with the mask computed row by row. *)
Definition filter_rows (p : list cell -> bool) (df : DataFrame) : DataFrame :=
  mkDF (schema df) (List.filter p (rows df)).

(** [df.head(n)]: the first [n] rows, or all but the last [-n]. *)
Definition head (n : Z) (df : DataFrame) : DataFrame :=
  if (0 <=? n)%Z then mkDF (schema df) (take (Z.to_nat n) (rows df))
  else mkDF (schema df)
            (take (length (rows df) - Z.to_nat (- n))%nat (rows df)).

(** A series assigned to a column is aligned with the rows of the table:
    a row the series has no value for gets a missing value, and values
    beyond the last row are dropped. *)
Fixpoint align (rs : list (list cell)) (values : list cell) : list cell :=
  match rs, values with
  | [], _ => []
  | _ :: rs', [] => Num nan :: align rs' []
  | _ :: rs', v :: values' => v :: align rs' values'
  end.

Fixpoint zip_rows (f : list cell -> cell -> list cell)
         (rs : list (list cell)) (vs : list cell) : list (list cell) :=
  match rs, vs with
  | r :: rs', v :: vs' => f r v :: zip_rows f rs' vs'
  | _, _ => []
  end.

(** [df[c] = values]: overwrite the column when the label exists, append
    a new last column otherwise. *)
Definition set_col (df : DataFrame) (c : string) (dt : dtype)
           (values : list cell) : DataFrame :=
  let values := align (rows df) values in
  match col_index c (columns df) with
  | Some i =>
      mkDF (<[i := (c, dt)]> (schema df))
           (zip_rows (fun r v => <[i := v]> r) (rows df) values)
  | None =>
      mkDF (schema df ++ [(c, dt)])%list
           (zip_rows (fun r v => (r ++ [v])%list) (rows df) values)
  end.

(** A table is rectangular: every row has one cell per column. *)
Definition well_formed (df : DataFrame) : Prop :=
  Forall (fun r => length r = length (schema df)) (rows df).

End Pandas.
Export Pandas.

(* ===================================================================== *)
(** ** [MappedDataLoader] ([src/tools/mapped_data_loader.py]) *)
(* ===================================================================== *)

Module Loader.

Inductive encoding : Type := UTF8 | GBK | GB2312.

(** Keyword arguments handed through to [pd.read_csv] / [pd.read_excel]. *)
Definition kwargs : Type := list (string * pyval).

(** A snapshot of the data root.  [fs_exists p] is
    [(data_root_path / p).exists()]; [fs_listdir] lists the names in the
    data root in directory-listing order; the two readers give what pandas
    returns or raises for a path (and an encoding). *)
Record FileSystem : Type := {
  fs_exists : string -> bool;
  fs_listdir : list string;
  fs_read_csv : string -> encoding -> kwargs -> result DataFrame;
  fs_read_excel : string -> kwargs -> result DataFrame
}.

(** Every access to the disk the loader makes, in the order made. *)
Inductive io_event : Type :=
| IoExists (path : string)
| IoGlob (pattern : string)
| IoReadCsv (path : string) (enc : encoding)
| IoReadExcel (path : string).

Definition is_read (ev : io_event) : bool :=
  match ev with
  | IoReadCsv _ _ | IoReadExcel _ => true
  | _ => false
  end.

(** One entry of [config/data_mapping.yaml]. *)
Record alias_entry : Type := {
  actual_file : string;
  description : option string
}.

(** Python objects have identity: a table lives in the object store and
    the cache holds references to it. *)
Definition ref : Type := nat.

Record State : Type := mkState {
  file_mapping : gmap string alias_entry;   (* self.file_mapping *)
  data_cache : gmap string ref;             (* self.data_cache *)
  heap : list DataFrame;                    (* the tables created so far *)
  io_log : list io_event                    (* the disk accesses so far *)
}.

Definition add_log (evs : list io_event) (s : State) : State :=
  mkState (file_mapping s) (data_cache s) (heap s) (io_log s ++ evs)%list.

Definition set_cache (c : gmap string ref) (s : State) : State :=
  mkState (file_mapping s) c (heap s) (io_log s).

Definition set_heap (h : list DataFrame) (s : State) : State :=
  mkState (file_mapping s) (data_cache s) h (io_log s).

Definition M : Type -> Type := stateful State.

Section WithFileSystem.

Variable fs : FileSystem.

(** [path.exists()] *)
Definition path_exists (p : string) : M bool :=
  fun s => (Return (fs_exists fs p), add_log [IoExists p] s).

(** [data_root_path.glob("*.csv")]: the names ending in [.csv], in
    directory-listing order. *)
Definition glob_csv : M (list string) :=
  fun s => (Return (List.filter (fun f => endswith f ".csv") (fs_listdir fs)),
            add_log [IoGlob "*.csv"] s).

(** The [for file_path in ...glob("*.csv")] loop of [_resolve_file_name]:
    the first name that contains the logical name, both lower-cased. *)
Fixpoint first_containing (logical_name : string) (files : list string)
  : option string :=
  match files with
  | [] => None
  | file :: rest =>
      if contains (lower logical_name) (lower file) then Some file
      else first_containing logical_name rest
  end.

Definition _resolve_file_name (logical_name : string) : M string :=
  do s <- get_state;
  match file_mapping s !! logical_name with
  | Some entry => ret (actual_file entry)
  | None =>
      do found <- path_exists logical_name;
      if found then ret logical_name
      else
        do files <- glob_csv;
        match first_containing logical_name files with
        | Some file => ret file
        | None => ret logical_name
        end
  end.

(** The [for encoding in encodings] loop of [load_data]: [None] is
    [df is None] after the loop. *)
Fixpoint read_csv_any (file_path : string) (kw : kwargs)
         (encodings : list encoding) : M (option DataFrame) :=
  match encodings with
  | [] => ret None
  | enc :: rest =>
      fun s =>
        let s1 := add_log [IoReadCsv file_path enc] s in
        match fs_read_csv fs file_path enc kw with
        | Return df => (Return (Some df), s1)
        | Raise UnicodeDecodeError => read_csv_any file_path kw rest s1
        | Raise e => (Raise e, s1)
        end
  end.

Definition read_excel (file_path : string) (kw : kwargs) : M DataFrame :=
  fun s => (fs_read_excel fs file_path kw, add_log [IoReadExcel file_path] s).

(** A freshly read table becomes a new object. *)
Definition new_object (df : DataFrame) : M ref :=
  fun s => (Return (length (heap s)), set_heap (heap s ++ [df])%list s).

(** [self.data_cache[file_name] = df] *)
Definition cache_store (file_name : string) (r : ref) : M unit :=
  fun s => (Return tt, set_cache (<[file_name := r]> (data_cache s)) s).

Definition load_data (file_name : string) (kw : kwargs) : M ref :=
  do actual_file_name <- _resolve_file_name file_name;
  let file_path := actual_file_name in
  do s <- get_state;
  match data_cache s !! file_name with
  | Some r => ret r
  | None =>
      do found <- path_exists file_path;
      if negb found then raise (FileNotFoundError file_path)
      else
        do df <-
          (if endswith file_name ".csv" || endswith actual_file_name ".csv"
           then
             do o <- read_csv_any file_path kw [UTF8; GBK; GB2312];
             match o with
             | Some df => ret df
             | None => raise (ValueError (MsgNoEncoding file_path))
             end
           else if endswith file_name ".xlsx" || endswith file_name ".xls"
                   || endswith actual_file_name ".xlsx"
                   || endswith actual_file_name ".xls"
           then read_excel file_path kw
           else raise (ValueError (MsgUnsupportedFormat file_name)));
        do r <- new_object df;
        run cache_store file_name r;
        ret r
  end.

End WithFileSystem.


End Loader.
Export Loader.

(* ===================================================================== *)
(** ** Reductions of a numeric column *)
(* ===================================================================== *)

Module Series.

Local Open Scope float_scope.

(** The numbers of a column; anything but a number makes the numeric
    reductions of pandas raise [TypeError]. *)
Fixpoint as_floats (s : list cell) : result (list float) :=
  match s with
  | [] => Return []
  | Num f :: rest => let! fs <- as_floats rest; Return (f :: fs)
  | _ :: _ => Raise TypeError
  end.

Definition float_of_nat (n : nat) : float := float_of_Z (Z.of_nat n).

(** Sums run left to right.  numpy and pandas may associate a sum
    differently, which can change the last bits when partial sums are not
    exactly representable. *)
Definition fsum (xs : list float) : float := fold_left PrimFloat.add xs 0.

(** [series.mean()]; NaN on an empty series. *)
Definition mean (xs : list float) : float :=
  match xs with
  | [] => nan
  | _ => fsum xs / float_of_nat (length xs)
  end.

(** [series.std()], with pandas' default [ddof=1]; NaN below two values. *)
Definition var (xs : list float) : float :=
  match xs with
  | [] | [_] => nan
  | _ =>
      let m := mean xs in
      fsum (map (fun x => (x - m) * (x - m)) xs)
      / float_of_nat (length xs - 1)
  end.

Definition std (xs : list float) : float := PrimFloat.sqrt (var xs).

Fixpoint insert_sorted (x : float) (l : list float) : list float :=
  match l with
  | [] => [x]
  | y :: l' => if PrimFloat.leb x y then x :: l else y :: insert_sorted x l'
  end.

Definition sort_floats (xs : list float) : list float :=
  fold_right insert_sorted [] xs.

Definition fmin (xs : list float) : float :=
  match xs with
  | [] => nan
  | x :: rest => fold_left (fun a b => if PrimFloat.ltb b a then b else a) rest x
  end.

Definition fmax (xs : list float) : float :=
  match xs with
  | [] => nan
  | x :: rest => fold_left (fun a b => if PrimFloat.ltb a b then b else a) rest x
  end.

(** The largest [j <= k] with [j <= x], or 0: the floor of a position
    within a series of [k + 1] values. *)
Fixpoint floor_below (x : float) (k : nat) : nat :=
  match k with
  | O => O
  | S k' => if PrimFloat.leb (float_of_nat k) x then k else floor_below x k'
  end.

(** numpy's linear interpolation between neighbours. *)
Definition lerp (a b t : float) : float :=
  let diff := b - a in
  if PrimFloat.leb 0.5 t then b - diff * (1 - t) else a + diff * t.

(** [series.quantile(q)] with the default linear interpolation; NaN on an
    empty series. *)
Definition quantile (xs : list float) (q : float) : float :=
  match sort_floats xs with
  | [] => nan
  | sorted =>
      let last := (length sorted - 1)%nat in
      let position := float_of_nat last * q in
      let lo := floor_below position last in
      let hi := Nat.min (lo + 1) last in
      lerp (nth lo sorted nan) (nth hi sorted nan)
           (position - float_of_nat lo)
  end.

Definition median (xs : list float) : float := quantile xs 0.5.

End Series.

(* ===================================================================== *)
(** ** [DataQuery] ([src/tools/mapped_data_loader.py]) *)
(* ===================================================================== *)

Module Query.

(** One filter: a dictionary of operator keys, or a bare value compared
    for equality. *)
Inductive condition : Type :=
| CondDict (d : list (string * pyval))
| CondValue (v : pyval).

Definition dict_get {V} (k : string) (d : list (string * V)) : option V :=
  option_map snd (find (fun kv => String.eqb k (fst kv)) d).

(** Element-wise [==] of a cell and a Python value. *)
Definition cell_eq (c : cell) (v : pyval) : bool :=
  match c, v with
  | Num f, PFloat g => PrimFloat.eqb f g
  | Num f, PInt z => PrimFloat.eqb f (float_of_Z z)
  | Str s, PStr t => String.eqb s t
  | Ts t, PInt u => (t =? u)%Z
  | _, _ => false
  end.

Inductive order_op : Type := OpGt | OpLt | OpGe | OpLe.

Definition float_order (op : order_op) (a b : float) : bool :=
  match op with
  | OpGt => PrimFloat.ltb b a
  | OpLt => PrimFloat.ltb a b
  | OpGe => PrimFloat.leb b a
  | OpLe => PrimFloat.leb a b
  end.

Definition Z_order (op : order_op) (a b : Z) : bool :=
  match op with
  | OpGt => (b <? a)%Z
  | OpLt => (a <? b)%Z
  | OpGe => (b <=? a)%Z
  | OpLe => (a <=? b)%Z
  end.

Definition string_order (op : order_op) (a b : string) : bool :=
  match op, String.compare a b with
  | OpGt, Gt | OpLt, Lt => true
  | OpGe, (Gt | Eq) | OpLe, (Lt | Eq) => true
  | _, _ => false
  end.

(** Element-wise [>], [<], [>=], [<=]: numbers with numbers, strings with
    strings, timestamps with timestamps (given in nanoseconds); a missing
    timestamp compares false; other mixes raise [TypeError]. *)
Definition cell_order (op : order_op) (c : cell) (v : pyval) : result bool :=
  match c, v with
  | Num f, PFloat g => Return (float_order op f g)
  | Num f, PInt z => Return (float_order op f (float_of_Z z))
  | Str s, PStr t => Return (string_order op s t)
  | Ts t, PInt u => Return (Z_order op t u)
  | NaT, PInt _ => Return false
  | _, _ => Raise TypeError
  end.

Fixpoint map_result {A B} (f : A -> result B) (l : list A) : result (list B) :=
  match l with
  | [] => Return []
  | a :: rest =>
      let! b <- f a;
      let! bs <- map_result f rest;
      Return (b :: bs)
  end.

(** [df[mask]] for a boolean series aligned with the rows. *)
Fixpoint mask_rows (rs : list (list cell)) (mask : list bool)
  : list (list cell) :=
  match rs, mask with
  | r :: rs', b :: mask' =>
      if b then r :: mask_rows rs' mask' else mask_rows rs' mask'
  | _, _ => []
  end.

Definition where_ (df : DataFrame) (mask : list bool) : DataFrame :=
  mkDF (schema df) (mask_rows (rows df) mask).

(** [series.str.contains(pat, na=False)]: only a text column has [.str];
    cells that are not text count as missing, hence false.  The pattern is
    taken literally. *)
Definition str_contains (dt : dtype) (s : list cell) (pat : pyval)
  : result (list bool) :=
  match dt, pat with
  | DtObject, PStr p =>
      Return (map (fun c => match c with
                            | Str t => contains p t
                            | _ => false
                            end) s)
  | DtObject, _ => Raise TypeError
  | _, _ => Raise AttributeError
  end.

(** [series.isin(values)] *)
Definition isin (s : list cell) (values : pyval) : result (list bool) :=
  match values with
  | PList vs | PTuple vs => Return (map (fun c => existsb (cell_eq c) vs) s)
  | _ => Raise TypeError
  end.

(** The [if 'eq' in condition ... elif ...] chain of [query_data] for a
    column that exists: the mask of the first operator key present, or no
    mask when none of the eight keys is. *)
Definition condition_mask (dt : dtype) (s : list cell) (cond : condition)
  : result (option (list bool)) :=
  match cond with
  | CondDict d =>
      match dict_get "eq" d, dict_get "ne" d, dict_get "gt" d,
            dict_get "lt" d, dict_get "gte" d, dict_get "lte" d,
            dict_get "in" d, dict_get "contains" d with
      | Some v, _, _, _, _, _, _, _ =>
          Return (Some (map (fun c => cell_eq c v) s))
      | None, Some v, _, _, _, _, _, _ =>
          Return (Some (map (fun c => negb (cell_eq c v)) s))
      | None, None, Some v, _, _, _, _, _ =>
          let! m <- map_result (fun c => cell_order OpGt c v) s; Return (Some m)
      | None, None, None, Some v, _, _, _, _ =>
          let! m <- map_result (fun c => cell_order OpLt c v) s; Return (Some m)
      | None, None, None, None, Some v, _, _, _ =>
          let! m <- map_result (fun c => cell_order OpGe c v) s; Return (Some m)
      | None, None, None, None, None, Some v, _, _ =>
          let! m <- map_result (fun c => cell_order OpLe c v) s; Return (Some m)
      | None, None, None, None, None, None, Some v, _ =>
          let! m <- isin s v; Return (Some m)
      | None, None, None, None, None, None, None, Some v =>
          let! m <- str_contains dt s v; Return (Some m)
      | None, None, None, None, None, None, None, None => Return None
      end
  | CondValue v => Return (Some (map (fun c => cell_eq c v) s))
  end.

(** The [for col, condition in filters.items()] loop. *)
Fixpoint apply_filters (df : DataFrame) (filters : list (string * condition))
  : result DataFrame :=
  match filters with
  | [] => Return df
  | (col, cond) :: rest =>
      match get_col df col, col_dtype df col with
      | Some s, Some dt =>
          let! m <- condition_mask dt s cond;
          match m with
          | Some mask => apply_filters (where_ df mask) rest
          | None => apply_filters df rest
          end
      | _, _ => apply_filters df rest      (* column missing: skipped *)
      end
  end.

(** The [if columns:] block: keep the requested columns that exist; when
    none of them exists the table is left as it is. *)
Definition project (df : DataFrame) (cols : option (list string)) : DataFrame :=
  match cols with
  | None | Some [] => df
  | Some cols =>
      let available_columns :=
        List.filter (fun col => mem col (columns df)) cols in
      match available_columns with
      | [] => df
      | _ => select df available_columns
      end
  end.

(** The [if limit:] block: [None] and [0] are both no limit. *)
Definition apply_limit (df : DataFrame) (limit : option Z) : DataFrame :=
  match limit with
  | None => df
  | Some n => if (n =? 0)%Z then df else head n df
  end.

(** [query_data] once the table is loaded. *)
Definition query_table (df : DataFrame)
           (filters : option (list (string * condition)))
           (cols : option (list string)) (limit : option Z)
  : result DataFrame :=
  let df := project df cols in
  let! df <- match filters with
             | None => Return df
             | Some fl => apply_filters df fl
             end;
  Return (apply_limit df limit).

(** [self.data_cache[...]] hands out the object a reference points to. *)
Definition deref (r : ref) : M DataFrame :=
  fun s => match heap s !! r with
           | Some df => (Return df, s)
           | None => (Raise (KeyError "object"), s)
           end.

Definition query_data (fs : FileSystem) (file_name : string)
           (filters : option (list (string * condition)))
           (cols : option (list string)) (limit : option Z)
  : M DataFrame :=
  do r <- load_data fs file_name [];
  do df <- deref r;
  lift (query_table df filters cols limit).

(** The projection as section 4.3 of the specification words it: requested
    columns that are absent are dropped, so that nothing is left when all
    of them are absent. *)
Definition project_as_specified (df : DataFrame) (cols : list string)
  : DataFrame :=
  select df (List.filter (fun col => mem col (columns df)) cols).

End Query.
Export Query.

(* ===================================================================== *)
(** ** [DataQuery.get_data_summary] ([src/tools/data_query.py]) *)
(* ===================================================================== *)

Module Summary.

(** [DataAnalyzer] is constructed over a [data_query] and every method
    of it starts with [self.data_query.get_data_summary(file_name)], of
    which it reads ["status"], then ["error"] or ["data"]: the dictionary
    of [DataQuery.get_data_summary] in [data_query.py], reduced here to
    those entries. *)
Inductive data_result : Type :=
| StatusError (error : msg)
| StatusSuccess (data : DataFrame).

(** The file is read anew at every call, with pandas' default encoding;
    whatever the reading raises is turned into an error entry. *)
Definition get_data_summary (fs : FileSystem) (file_name : string)
  : data_result :=
  let file_path := file_name in
  if negb (fs_exists fs file_path) then StatusError (MsgFileMissing file_path)
  else match fs_read_csv fs file_path UTF8 [] with
       | Return df => StatusSuccess df
       | Raise _ => StatusError MsgReadFailed
       end.

End Summary.
Export Summary.

(* ===================================================================== *)
(** ** Calendar fields of a timestamp *)
(* ===================================================================== *)

Module Calendar.

Definition ns_per_day : Z := 86400 * 1000000000.

(** Year and month of the proleptic Gregorian calendar for a count of
    days since 1970-01-01. *)
Definition civil_of_days (days : Z) : Z * Z :=
  let z := days + 719468 in
  let era := z / 146097 in
  let doe := z - era * 146097 in
  let yoe := (doe - doe / 1460 + doe / 36524 - doe / 146096) / 365 in
  let doy := doe - (365 * yoe + yoe / 4 - yoe / 100) in
  let mp := (5 * doy + 2) / 153 in
  let m := if (mp <? 10)%Z then mp + 3 else mp - 9 in
  (yoe + era * 400 + (if (m <=? 2)%Z then 1 else 0), m).

Definition year_of (t : Z) : Z := fst (civil_of_days (t / ns_per_day)).
Definition month_of (t : Z) : Z := snd (civil_of_days (t / ns_per_day)).
Definition quarter_of (t : Z) : Z := (month_of t - 1) / 3 + 1.

(** [series.dt.year] and the like: a number per timestamp, NaN for a
    missing one. *)
Definition dt_field (field : Z -> Z) (s : list cell) : list cell :=
  map (fun c => match c with
                | Ts t => Num (float_of_Z (field t))
                | _ => Num nan
                end) s.

Definition dt_field_dtype (s : list cell) : dtype :=
  if existsb isna s then DtFloat else DtInt.

End Calendar.
Export Calendar.

(* ===================================================================== *)
(** ** [DataAnalyzer] ([src/tools/data_analyzer.py]) *)
(* ===================================================================== *)

Module Analyzer.

Import Series.

Inductive date_format : Type :=
| FmtSlash      (* format='%Y/%m/%d' *)
| FmtDash       (* format='%Y-%m-%d' *)
| FmtISO8601    (* format='ISO8601' *)
| FmtMixed      (* format='mixed' *)
| FmtInfer.     (* no format given *)

(** What the analyzer asks of pandas, numpy and scipy beyond the
    reductions modelled above.  The analyzer is embedded over any such
    library. *)
Record Library : Type := {
  (* pd.to_datetime(series, format=...), which raises on a value it
     cannot read *)
  to_datetime : date_format -> list cell -> result (list cell);
  (* pd.to_datetime(series, errors='coerce'): unreadable values become NaT *)
  to_datetime_coerce : list cell -> list cell;
  (* the timestamp a datetime column is compared with when the other
     operand is this string *)
  timestamp_of_string : string -> result Z;
  (* df.sort_values(col), whose default sorting kind is quicksort *)
  sort_values : string -> DataFrame -> DataFrame;
  (* np.polyfit(x, y, 1): slope and intercept *)
  polyfit : list float -> list float -> result (float * float);
  (* series.rolling(window=w).mean() *)
  rolling_mean : Z -> list float -> result (list float);
  (* scipy.stats.skew, kurtosis, normaltest (p-value), ttest_ind *)
  skew : list float -> float;
  kurtosis : list float -> float;
  normaltest : list float -> float;
  ttest_ind : list float -> list float -> float * float;
  (* DataFrame.corr() of numeric columns, as a matrix *)
  corr : list (list float) -> list (list float)
}.

(** The analyzer works on the table object it got from
    [get_data_summary]: the state is that object, and [df[c] = v] changes
    it in place. *)
Definition T : Type -> Type := stateful DataFrame.

(** [df[c]]: [KeyError] when there is no such column. *)
Definition getitem (c : string) : T (list cell) :=
  fun df => match get_col df c with
            | Some s => (Return s, df)
            | None => (Raise (KeyError c), df)
            end.

(** [df[c] = values] *)
Definition setitem (c : string) (dt : dtype) (values : list cell) : T unit :=
  fun df => (Return tt, set_col df c dt values).

(** [pd.api.types.is_datetime64_any_dtype(df[c])] *)
Definition is_datetime (c : string) : T bool :=
  fun df => match col_dtype df c with
            | Some DtDatetime => (Return true, df)
            | Some _ => (Return false, df)
            | None => (Raise (KeyError c), df)
            end.

Definition field (k : string) (v : pyval) : pyval * pyval := (PStr k, v).

Definition error_payload (m : msg) : pyval := PDict [field "error" (PMsg m)].

(** [d[k] = v] on a dictionary. *)
Fixpoint dict_set (k : string) (v : pyval) (d : list (pyval * pyval))
  : list (pyval * pyval) :=
  match d with
  | [] => [field k v]
  | (PStr k', v') :: rest =>
      if String.eqb k k' then (PStr k', v) :: rest
      else (PStr k', v') :: dict_set k v rest
  | kv :: rest => kv :: dict_set k v rest
  end.

(** [series[mask]] *)
Fixpoint mask_rows_values (values : list cell) (mask : list bool) : list cell :=
  match values, mask with
  | v :: values', b :: mask' =>
      if b then v :: mask_rows_values values' mask'
      else mask_rows_values values' mask'
  | _, _ => []
  end.

Definition arange (n : nat) : list float := map float_of_nat (seq 0 n).

Definition fabs (x : float) : float := PrimFloat.abs x.

Section WithLibrary.

Variable lib : Library.

(** [df[time_col] = pd.to_datetime(df[time_col], format=...)] *)
Definition convert_time (time_col : string) (fmt : date_format) : T unit :=
  do s <- getitem time_col;
  do parsed <- lift (to_datetime lib fmt s);
  setitem time_col DtDatetime parsed.


(** *** [analyze_trend] *)

(** The nested [try: ... except:] around the four formats. *)
Definition parse_time_trend (time_col : string) : T unit :=
  do already <- is_datetime time_col;
  if already then ret tt
  else
    try_except (convert_time time_col FmtSlash)
      (try_except (convert_time time_col FmtDash)
         (try_except (convert_time time_col FmtISO8601)
            (convert_time time_col FmtMixed))).

(** [df[[time_col, col]].dropna()[col]]: the values of [col] in the rows
    where neither it nor the time is missing. *)
Definition valid_values (df : DataFrame) (time_col col : string) : list cell :=
  match col_index time_col (columns df), col_index col (columns df) with
  | Some i, Some j =>
      map (cell_at j)
          (List.filter (fun r => negb (isna (cell_at i r))
                                 && negb (isna (cell_at j r))) (rows df))
  | _, _ => []
  end.

Definition direction (slope : float) : string :=
  if PrimFloat.ltb 0 slope then "上升"
  else if PrimFloat.ltb slope 0 then "下降" else "平稳".

Definition sq_diff (a b : float) : float := ((a - b) * (a - b))%float.

Fixpoint zip_with {A B C} (f : A -> B -> C) (l1 : list A) (l2 : list B)
  : list C :=
  match l1, l2 with
  | a :: l1', b :: l2' => f a b :: zip_with f l1' l2'
  | _, _ => []
  end.

(** The body of the loop for one column with at least two valid points:
    the entry stored in [results], or [None] when the method is neither
    of the two and nothing is stored. *)
Definition trend_of (valid : list cell) (method : string)
  : result (option pyval) :=
  let x := arange (length valid) in
  if String.eqb method "linear" then
    let! y <- as_floats valid;
    let! coeffs <- polyfit lib x y;
    let slope := fst coeffs in
    let trend := map (fun xi => (slope * xi + snd coeffs)%float) x in
    let y_mean := mean y in
    let ss_tot := fsum (map (fun yi => sq_diff yi y_mean) y) in
    let ss_res := fsum (zip_with sq_diff y trend) in
    let r_squared :=
      if negb (PrimFloat.eqb ss_tot 0) then (1 - ss_res / ss_tot)%float
      else 0%float in
    Return (Some (PDict [
      field "trend_type" (PStr "linear");
      field "slope" (PFloat slope);
      field "intercept" (PFloat (snd coeffs));
      field "r_squared"
            (if negb (PrimFloat.eqb ss_tot 0) then PFloat r_squared else PInt 0);
      field "direction" (PStr (direction slope));
      field "trend_strength"
            (PStr (if PrimFloat.ltb 0.7 (fabs r_squared) then "强"
                   else if PrimFloat.ltb 0.3 (fabs r_squared) then "中"
                   else "弱"))]))
  else if String.eqb method "moving_average" then
    let window := Z.min 12 (len valid / 3) in
    let! y <- as_floats valid;
    let! moving_avg <- rolling_mean lib window y;
    let smoothed := List.filter (fun v => negb (is_nan v)) moving_avg in
    let! coeffs <- polyfit lib (arange (length smoothed)) smoothed;
    let ma_slope := fst coeffs in
    Return (Some (PDict [
      field "trend_type" (PStr "moving_average");
      field "window_size" (PInt window);
      field "slope" (PFloat ma_slope);
      field "direction" (PStr (direction ma_slope))]))
  else Return None.

(** The [for col in value_cols] loop, over the sorted table. *)
Fixpoint trend_loop (df : DataFrame) (time_col : string)
         (value_cols : list string) (method : string)
         (results : list (pyval * pyval)) : result (list (pyval * pyval)) :=
  match value_cols with
  | [] => Return results
  | col :: rest =>
      if negb (mem col (columns df))
      then trend_loop df time_col rest method results
      else
        let valid_data := valid_values df time_col col in
        if (len valid_data <? 2)%Z
        then trend_loop df time_col rest method
               (dict_set col (error_payload MsgTooFewPoints) results)
        else
          let! entry <- trend_of valid_data method;
          match entry with
          | Some v => trend_loop df time_col rest method (dict_set col v results)
          | None => trend_loop df time_col rest method results
          end
  end.

Definition analyze_trend_body (time_col : string) (value_cols : list string)
           (method : string) : T pyval :=
  run parse_time_trend time_col;
  do df <- get_state;
  let df := sort_values lib time_col df in
  do results <- lift (trend_loop df time_col value_cols method []);
  ret (PDict results).

(** *** [analyze_seasonality] *)

Definition parse_time_seasonality (time_col : string) : T unit :=
  do already <- is_datetime time_col;
  if already then ret tt
  else
    try_except (convert_time time_col FmtSlash)
      (try_except (convert_time time_col FmtDash)
         (try_except (convert_time time_col FmtInfer)
            (raise (ValueError (MsgDateFormat time_col))))).

(** [df['period'] = df[time_col].dt.<field>] *)
Definition set_period (time_col : string) (fld : Z -> Z) : T unit :=
  do times <- getitem time_col;
  setitem "period" (dt_field_dtype times) (dt_field fld times).

Definition extract_period (time_col period : string) : T unit :=
  if String.eqb period "year" then set_period time_col year_of
  else if String.eqb period "quarter" then set_period time_col quarter_of
  else if String.eqb period "month" then set_period time_col month_of
  else raise (ValueError (MsgUnsupportedPeriod period)).

(** The group keys of [groupby]: the distinct keys that are not missing,
    ascending. *)
Fixpoint dedup_sorted (l : list float) : list float :=
  match l with
  | a :: (b :: _) as rest =>
      if PrimFloat.eqb a b then dedup_sorted rest else a :: dedup_sorted rest
  | _ => l
  end.

Definition group_keys (keys : list cell) : list float :=
  dedup_sorted (sort_floats
    (flat_map (fun c => match c with
                        | Num f => if is_nan f then [] else [f]
                        | _ => []
                        end) keys)).

Definition key_is (k : float) (c : cell) : bool :=
  match c with
  | Num f => PrimFloat.eqb f k
  | _ => false
  end.

(** The values of one group, missing ones skipped. *)
Definition group_values (keys values : list cell) (k : float) : list cell :=
  dropna (mask_rows_values values (map (key_is k) keys)).

(** One row of [groupby('period')[value_col].agg(['mean','std','min','max'])]. *)
Definition agg_group (keys values : list cell) (k : float)
  : result (float * (float * float * float * float)) :=
  let! xs <- as_floats (group_values keys values k);
  Return (k, (mean xs, std xs, fmin xs, fmax xs)).

Definition stat_dict (grouped : list (float * (float * float * float * float)))
           (pick : float * float * float * float -> float) : pyval :=
  PDict (map (fun g => (PFloat (fst g), PFloat (pick (snd g)))) grouped).

Definition analyze_seasonality_body (time_col value_col period : string)
  : T pyval :=
  run parse_time_seasonality time_col;
  run extract_period time_col period;
  do keys <- getitem "period";
  do values <- getitem value_col;
  do grouped <- lift (map_result (agg_group keys values) (group_keys keys));
  let cv := List.filter (fun v => negb (is_nan v))
              (map (fun g => match snd g with
                             | (m, s, _, _) => (s / m)%float
                             end) grouped) in
  let seasonality_strength :=
    if negb (PrimFloat.eqb (mean cv) 0) then (std cv / mean cv)%float
    else 0%float in
  ret (PDict [
    field "period_type" (PStr period);
    field "period_stats" (PDict [
      field "mean" (stat_dict grouped (fun '(m, _, _, _) => m));
      field "std" (stat_dict grouped (fun '(_, s, _, _) => s));
      field "min" (stat_dict grouped (fun '(_, _, lo, _) => lo));
      field "max" (stat_dict grouped (fun '(_, _, _, hi) => hi))]);
    field "seasonality_strength"
          (if negb (PrimFloat.eqb (mean cv) 0) then PFloat seasonality_strength
           else PInt 0);
    field "seasonality_level"
          (PStr (if PrimFloat.ltb 0.5 seasonality_strength then "强"
                 else if PrimFloat.ltb 0.2 seasonality_strength then "中"
                 else "弱"))]).


(** *** [compare_periods] *)

Definition in_range (lo hi : Z) (c : cell) : bool :=
  match c with
  | Ts t => ((lo <=? t)%Z && (t <=? hi)%Z)%bool
  | _ => false
  end.

(** [df[(df[time_col] >= start) & (df[time_col] <= end)][value_col].dropna()] *)
Definition period_data (time_col value_col : string) (range : string * string)
  : T (list cell) :=
  do times <- getitem time_col;
  do lo <- lift (timestamp_of_string lib (fst range));
  do hi <- lift (timestamp_of_string lib (snd range));
  do values <- getitem value_col;
  ret (dropna (mask_rows_values values (map (in_range lo hi) times))).

Definition period_stats (xs : list float) : pyval :=
  PDict [field "mean" (PFloat (mean xs));
         field "median" (PFloat (median xs));
         field "std" (PFloat (std xs));
         field "min" (PFloat (fmin xs));
         field "max" (PFloat (fmax xs))].

Definition range_tuple (range : string * string) : pyval :=
  PTuple [PStr (fst range); PStr (snd range)].

Definition compare_periods_body (time_col value_col : string)
           (period1 period2 : string * string) : T pyval :=
  do already <- is_datetime time_col;
  run (if already then ret tt else convert_time time_col FmtInfer);
  do data1 <- period_data time_col value_col period1;
  do data2 <- period_data time_col value_col period2;
  if ((len data1 =? 0)%Z || (len data2 =? 0)%Z)%bool
  then ret (error_payload MsgNoDataInPeriods)
  else
    do xs1 <- lift (as_floats data1);
    do xs2 <- lift (as_floats data2);
    let stats1 := period_stats xs1 in
    let stats2 := period_stats xs2 in
    let mean_change :=
      if negb (PrimFloat.eqb (mean xs1) 0)
      then PFloat ((mean xs2 - mean xs1) / mean xs1)%float
      else PInt 0 in
    let t_test :=
      if ((2 <? len data1)%Z && (2 <? len data2)%Z)%bool then
        let '(t_stat, p_value) := ttest_ind lib xs1 xs2 in
        PDict [field "t_statistic" (PFloat t_stat);
               field "p_value" (PFloat p_value);
               field "significant_difference"
                     (PBool (PrimFloat.ltb p_value 0.05))]
      else PNone in
    ret (PDict [
      field "period1" (PDict [field "range" (range_tuple period1);
                              field "stats" stats1]);
      field "period2" (PDict [field "range" (range_tuple period2);
                              field "stats" stats2]);
      field "mean_change_rate" mean_change;
      field "t_test" t_test]).

(** *** [analyze_distribution] *)

(** A value used as a condition: [None] and [False] are false. *)
Definition truthy (v : pyval) : bool :=
  match v with
  | PNone | PBool false => false
  | _ => true
  end.

(** [d[k]] on a dictionary value. *)
Definition subscript (v : pyval) (k : string) : pyval :=
  match v with
  | PDict d =>
      match find (fun kv => match fst kv with
                            | PStr k' => String.eqb k k'
                            | _ => false
                            end) d with
      | Some kv => snd kv
      | None => PNone
      end
  | _ => PNone
  end.

(** The local name [stats] is bound twice in the source: first to the
    dictionary of descriptive statistics, then, by
    [from scipy import stats], to the module.  The two [let stats] below
    are those two bindings, in that order. *)
Definition analyze_distribution_body (column : string) : T pyval :=
  do df <- get_state;
  if negb (mem column (columns df))
  then ret (error_payload (MsgColumnMissing column))
  else
    do series <- getitem column;
    let data := dropna series in
    if (len data =? 0)%Z then ret (error_payload MsgNoValidData)
    else
      do xs <- lift (as_floats data);
      let stats := PDict [field "count" (PInt (len data));
                          field "mean" (PFloat (mean xs));
                          field "median" (PFloat (median xs));
                          field "std" (PFloat (std xs));
                          field "min" (PFloat (fmin xs));
                          field "max" (PFloat (fmax xs))] in
      let stats := PModule "scipy.stats" in
      let skewness := skew lib xs in
      let kurtosis := kurtosis lib xs in
      let normality_test :=
        if (8 <=? len data)%Z then
          let p_value := normaltest lib xs in
          PDict [field "p_value" (PFloat p_value);
                 field "is_normal" (PBool (PrimFloat.ltb 0.05 p_value))]
        else PNone in
      ret (PDict [
        field "stats" stats;
        field "skewness" (PFloat skewness);
        field "kurtosis" (PFloat kurtosis);
        field "distribution_type"
              (PStr (if (truthy normality_test
                         && truthy (subscript normality_test "is_normal"))%bool
                     then "正态分布" else "非正态分布"));
        field "normality_test" normality_test]).

(** *** [generate_correlation_matrix] *)

Definition is_numeric (dt : dtype) : bool :=
  match dt with
  | DtFloat | DtInt => true
  | _ => false
  end.

(** [df.select_dtypes(include=[np.number]).columns.tolist()] *)
Definition numeric_columns (df : DataFrame) : list string :=
  map fst (List.filter (fun c => is_numeric (snd c)) (schema df)).

(** The two nested [for] loops over the upper triangle. *)
Definition strong_pairs (labels : list string) (matrix : list (list float))
  : list pyval :=
  let n := length labels in
  flat_map (fun i =>
    flat_map (fun j =>
      let corr_val := nth j (nth i matrix []) nan in
      if PrimFloat.ltb 0.7 (fabs corr_val) then
        [PDict [field "var1" (PStr (nth i labels ""));
                field "var2" (PStr (nth j labels ""));
                field "correlation" (PFloat corr_val);
                field "strength"
                      (PStr (if PrimFloat.ltb 0.7 corr_val
                             then "强正相关" else "强负相关"))]]
      else [])
      (seq (S i) (n - S i)))
    (seq 0 n).

Definition matrix_dict (labels : list string) (matrix : list (list float))
  : pyval :=
  PDict (map (fun j =>
    field (nth j labels "")
          (PDict (map (fun i =>
             field (nth i labels "") (PFloat (nth j (nth i matrix []) nan)))
             (seq 0 (length labels)))))
    (seq 0 (length labels))).

Definition generate_correlation_matrix_body (cols : option (list string))
  : T pyval :=
  do df <- get_state;
  let cols := match cols with
              | None => numeric_columns df
              | Some cols => cols
              end in
  let missing_cols :=
    List.filter (fun col => negb (mem col (columns df))) cols in
  match missing_cols with
  | _ :: _ => ret (error_payload (MsgColumnsMissing missing_cols))
  | [] =>
      do series <- lift (map_result
                           (fun col => match get_col df col with
                                       | Some s => as_floats s
                                       | None => Raise (KeyError col)
                                       end) cols);
      let corr_matrix := corr lib series in
      ret (PDict [
        field "correlation_matrix" (matrix_dict cols corr_matrix);
        field "strong_correlations" (PList (strong_pairs cols corr_matrix));
        field "columns" (PList (map PStr cols))])
  end.

(** *** [detect_outliers] *)

Definition num_list (xs : list float) : pyval := PList (map PFloat xs).

Definition detect_outliers_body (column method : string) : T pyval :=
  do df <- get_state;
  if negb (mem column (columns df))
  then ret (error_payload (MsgColumnMissing column))
  else
    do series <- getitem column;
    let data := dropna series in
    if String.eqb method "iqr" then
      do xs <- lift (as_floats data);
      let Q1 := quantile xs 0.25 in
      let Q3 := quantile xs 0.75 in
      let IQR := (Q3 - Q1)%float in
      let lower_bound := (Q1 - 1.5 * IQR)%float in
      let upper_bound := (Q3 + 1.5 * IQR)%float in
      let outliers :=
        List.filter (fun x => (PrimFloat.ltb x lower_bound
                               || PrimFloat.ltb upper_bound x)%bool) xs in
      do ratio <- lift (truediv (len outliers) (len data));
      ret (PDict [
        field "method" (PStr "IQR");
        field "lower_bound" (PFloat lower_bound);
        field "upper_bound" (PFloat upper_bound);
        field "outliers" (num_list outliers);
        field "outlier_count" (PInt (len outliers));
        field "outlier_percentage" (PFloat (ratio * 100)%float)])
    else if String.eqb method "zscore" then
      do xs <- lift (as_floats data);
      let m := mean xs in
      let sd := std xs in
      let outliers :=
        List.filter (fun x => PrimFloat.ltb 3 (fabs ((x - m) / sd)%float)) xs in
      do ratio <- lift (truediv (len outliers) (len data));
      ret (PDict [
        field "method" (PStr "Z-score");
        field "threshold" (PInt 3);
        field "outliers" (num_list outliers);
        field "outlier_count" (PInt (len outliers));
        field "outlier_percentage" (PFloat (ratio * 100)%float)])
    else ret (error_payload (MsgUnsupportedMethod method)).

(** *** The methods themselves: the table comes from [get_data_summary] *)

Variable fs : FileSystem.

Definition with_table (file_name : string) (body : T pyval) : result pyval :=
  match get_data_summary fs file_name with
  | StatusError error => Return (error_payload error)
  | StatusSuccess df => fst (body df)
  end.

Definition analyze_trend (file_name time_col : string)
           (value_cols : list string) (method : string) : result pyval :=
  with_table file_name (analyze_trend_body time_col value_cols method).

Definition analyze_seasonality (file_name time_col value_col period : string)
  : result pyval :=
  with_table file_name (analyze_seasonality_body time_col value_col period).

Definition compare_periods (file_name time_col value_col : string)
           (period1 period2 : string * string) : result pyval :=
  with_table file_name (compare_periods_body time_col value_col period1 period2).

Definition analyze_distribution (file_name column : string) : result pyval :=
  with_table file_name (analyze_distribution_body column).

Definition generate_correlation_matrix (file_name : string)
           (cols : option (list string)) : result pyval :=
  with_table file_name (generate_correlation_matrix_body cols).

Definition detect_outliers (file_name column method : string) : result pyval :=
  with_table file_name (detect_outliers_body column method).

End WithLibrary.

End Analyzer.
Export Analyzer.

(* ===================================================================== *)
(** ** [DataQuery.get_time_series_data] ([src/tools/mapped_data_loader.py]) *)
(* ===================================================================== *)

Module TimeSeries.

Definition time_keywords : list string := ["date"; "时间"; "日期"; "time"].

(** [obj[...] = ...] on the object a reference points to. *)
Definition update_object (r : ref) (df : DataFrame) : M unit :=
  fun s => (Return tt, set_heap (<[r := df]> (heap s)) s).

(** [df[df[time_col] >= bound]] and [<=]; a missing timestamp compares
    false. *)
Definition keep_from (i : nat) (bound : Z) (df : DataFrame) : DataFrame :=
  filter_rows (fun r => match cell_at i r with
                        | Ts t => (bound <=? t)%Z
                        | _ => false
                        end) df.

Definition keep_until (i : nat) (bound : Z) (df : DataFrame) : DataFrame :=
  filter_rows (fun r => match cell_at i r with
                        | Ts t => (t <=? bound)%Z
                        | _ => false
                        end) df.

(** [if bound:] on an optional string: [None] and the empty string are no
    bound. *)
Definition given (bound : option string) : option string :=
  match bound with
  | Some "" | None => None
  | Some b => Some b
  end.

Section WithLibrary.

Variable lib : Library.
Variable fs : FileSystem.

Definition get_time_series_data (file_name time_col : string)
           (value_cols : list string) (start_date end_date : option string)
  : M DataFrame :=
  do r <- load_data fs file_name [];
  do df <- deref r;
  do time_col <-
    (if negb (mem time_col (columns df)) then
       match List.filter
               (fun col => existsb (fun keyword => contains keyword (lower col))
                                   time_keywords)
               (columns df) with
       | possible :: _ => ret possible
       | [] => raise (ValueError (MsgNoTimeColumn time_col))
       end
     else ret time_col);
  (* the conversion is assigned into the cached table itself *)
  run (match col_dtype df time_col, get_col df time_col with
       | Some DtDatetime, _ => ret tt
       | _, Some s =>
           update_object r
             (set_col df time_col DtDatetime (to_datetime_coerce lib s))
       | _, None => raise (KeyError time_col)
       end);
  do df <- deref r;
  let i := default 0%nat (col_index time_col (columns df)) in
  do df <- match given start_date with
           | Some b => do t <- lift (timestamp_of_string lib b);
                       ret (keep_from i t df)
           | None => ret df
           end;
  do df <- match given end_date with
           | Some b => do t <- lift (timestamp_of_string lib b);
                       ret (keep_until i t df)
           | None => ret df
           end;
  let df := sort_values lib time_col df in
  let available_value_cols :=
    List.filter (fun col => mem col (columns df)) value_cols in
  match available_value_cols with
  | [] => ret (select df [time_col])
  | _ => ret (select df (time_col :: available_value_cols))
  end.

End WithLibrary.

End TimeSeries.
Export TimeSeries.

(* ===================================================================== *)
(** ** [MappedDataLoader.list_available_files] and [get_data_info] *)
(* ===================================================================== *)

Module Listing.

(** One entry of ["mapped_files"]. *)
Record mapped_file : Type := {
  mf_actual_file : string;
  mf_exists : bool;
  mf_description : string
}.

(** The dictionary of [list_available_files], as the pair of its two
    entries ["actual_files"] and ["mapped_files"]. *)
Definition list_available_files (fs : FileSystem)
  : M (list string * gmap string mapped_file) :=
  do actual_files <- glob_csv fs;
  do s <- get_state;
  let mapped_files :=
    (fun config =>
       {| mf_actual_file := actual_file config;
          mf_exists := mem (actual_file config) actual_files;
          mf_description := default "" (description config) |})
    <$> file_mapping s in
  ret (actual_files, mapped_files).

(** The dictionary of [get_data_info]. *)
Record data_info : Type := {
  info_shape : nat * nat;
  info_columns : list string;
  info_dtypes : list (string * dtype);
  info_null_counts : list (string * nat);
  info_memory_usage : Z
}.

Definition null_counts (df : DataFrame) : list (string * nat) :=
  map (fun c => (c, match get_col df c with
                    | Some s => length (List.filter isna s)
                    | None => 0%nat
                    end)) (columns df).

Section WithMemory.

(** [df.memory_usage(deep=True).sum()], a number pandas computes from the
    layout of the table in memory. *)
Variable memory_usage : DataFrame -> Z.
Variable fs : FileSystem.

Definition get_data_info (file_name : string) : M data_info :=
  do s <- get_state;
  run (match data_cache s !! file_name with
       | None => run load_data fs file_name []; ret tt
       | Some _ => ret tt
       end);
  do s <- get_state;
  match data_cache s !! file_name with
  | None => raise (KeyError file_name)
  | Some r =>
      do df <- deref r;
      ret {| info_shape := shape df;
             info_columns := columns df;
             info_dtypes := schema df;
             info_null_counts := null_counts df;
             info_memory_usage := memory_usage df |}
  end.

End WithMemory.

End Listing.
Export Listing.

(* ===================================================================== *)
(** ** [DataLoader] and its [DataQuery] ([src/tools/data_loader.py]) *)
(* ===================================================================== *)

(** The loader without alias table: the name is the file, a CSV file is
    read as UTF-8 only.  It shares the state of the loader above; the
    alias table plays no part. *)
Module DataLoader.

Definition read_csv_utf8 (fs : FileSystem) (file_path : string) (kw : kwargs)
  : M DataFrame :=
  fun s => (fs_read_csv fs file_path UTF8 kw,
            add_log [IoReadCsv file_path UTF8] s).

Definition load_data (fs : FileSystem) (file_name : string) (kw : kwargs)
  : M ref :=
  let file_path := file_name in
  do s <- get_state;
  match data_cache s !! file_name with
  | Some r => ret r
  | None =>
      do found <- path_exists fs file_path;
      if negb found then raise (FileNotFoundError file_path)
      else
        do df <-
          (if endswith file_name ".csv" then read_csv_utf8 fs file_path kw
           else if endswith file_name ".xlsx" || endswith file_name ".xls"
           then read_excel fs file_path kw
           else raise (ValueError (MsgUnsupportedFormat file_name)));
        do r <- new_object df;
        run cache_store file_name r;
        ret r
  end.

(** [df[columns]]: [KeyError] when a label is missing. *)
Definition getitem_columns (df : DataFrame) (cols : list string)
  : result DataFrame :=
  match List.filter (fun col => negb (mem col (columns df))) cols with
  | [] => Return (select df cols)
  | missing :: _ => Raise (KeyError missing)
  end.

(** Whether the [if ... elif ...] chain of a condition looks at the
    column at all. *)
Definition reads_column (cond : condition) : bool :=
  match cond with
  | CondDict d =>
      existsb (fun k => match dict_get k d with
                        | Some _ => true
                        | None => false
                        end)
              ["eq"; "ne"; "gt"; "lt"; "gte"; "lte"; "in"; "contains"]
  | CondValue _ => true
  end.

(** The filter loop of this [query_data]: it does not check that the
    column exists, so [df[col]] raises [KeyError] when a branch reads a
    missing column. *)
Fixpoint apply_filters (df : DataFrame) (filters : list (string * condition))
  : result DataFrame :=
  match filters with
  | [] => Return df
  | (col, cond) :: rest =>
      if reads_column cond then
        match get_col df col, col_dtype df col with
        | Some s, Some dt =>
            let! m <- condition_mask dt s cond;
            match m with
            | Some mask => apply_filters (where_ df mask) rest
            | None => apply_filters df rest
            end
        | _, _ => Raise (KeyError col)
        end
      else apply_filters df rest
  end.

Definition query_table (df : DataFrame)
           (filters : option (list (string * condition)))
           (cols : option (list string)) (limit : option Z)
  : result DataFrame :=
  let! df <- match cols with
             | None | Some [] => Return df
             | Some cols => getitem_columns df cols
             end;
  let! df <- match filters with
             | None => Return df
             | Some fl => apply_filters df fl
             end;
  Return (apply_limit df limit).

Definition query_data (fs : FileSystem) (file_name : string)
           (filters : option (list (string * condition)))
           (cols : option (list string)) (limit : option Z)
  : M DataFrame :=
  do r <- load_data fs file_name [];
  do df <- deref r;
  lift (query_table df filters cols limit).

End DataLoader.

(* ===================================================================== *)
(** ** [DataQuery._find_high_correlations] ([mapped_data_loader.py]) *)
(* ===================================================================== *)

Module Correlation.

(** The two nested loops over the upper triangle of a correlation matrix
    given by its labels and its rows. *)
Definition _find_high_correlations (labels : list string)
           (matrix : list (list float)) (threshold : float) : list pyval :=
  let n := length labels in
  flat_map (fun i =>
    flat_map (fun j =>
      let corr_val := nth j (nth i matrix []) nan in
      if PrimFloat.leb threshold (fabs corr_val) then
        [PDict [field "var1" (PStr (nth i labels ""));
                field "var2" (PStr (nth j labels ""));
                field "correlation" (PFloat corr_val)]]
      else [])
      (seq (S i) (n - S i)))
    (seq 0 n).

(** A pair of [strong_correlations] without its ["strength"] entry. *)
Definition without_strength (pair : pyval) : pyval :=
  match pair with
  | PDict [v1; v2; c; _] => PDict [v1; v2; c]
  | _ => pair
  end.

End Correlation.
Export Correlation.

(* ===================================================================== *)
(** ** [DataQuery.compute_financial_ratios] ([mapped_data_loader.py]) *)
(* ===================================================================== *)

Module Ratios.

(** A row as [iterrows] yields it: the cells under their column labels.
    The labels are taken to be distinct, as [read_csv] makes them; under
    a repeated label [row[c]] is a Series, not a cell. *)
Fixpoint row_of (cols : list string) (r : list cell) : list (string * cell) :=
  match cols, r with
  | c :: cols', v :: r' => (c, v) :: row_of cols' r'
  | _, _ => []
  end.

(** [row[c]] and [definition[k]]: [KeyError] on a missing key. *)
Definition lookup_key {V} (k : string) (d : list (string * V)) : result V :=
  match dict_get k d with
  | Some v => Return v
  | None => Raise (KeyError k)
  end.

(** [denominator == 0] *)
Definition is_zero (c : cell) : bool :=
  match c with
  | Num f => PrimFloat.eqb f 0
  | _ => false
  end.

(** [numerator / denominator] on the values of a row: Python numbers
    raise [ZeroDivisionError] on a zero divisor (numpy scalars give an
    infinity or NaN instead); [NaT] over a number is [NaT] and over
    [NaT] is NaN; a string or a timestamp in either place, and a number
    over [NaT], raise [TypeError]. *)
Definition divide (a b : cell) : result cell :=
  match a, b with
  | Num x, Num y =>
      if PrimFloat.eqb y 0 then Raise ZeroDivisionError
      else Return (Num (x / y)%float)
  | NaT, Num _ => Return NaT
  | NaT, NaT => Return (Num nan)
  | _, _ => Raise TypeError
  end.

(** The [try: ... except KeyError:] block that computes one ratio. *)
Definition ratio_of (row : list (string * cell))
           (definition : list (string * string)) : result cell :=
  match
    (let! numerator_col <- lookup_key "numerator" definition;
     let! numerator <- lookup_key numerator_col row;
     let! denominator_col <- lookup_key "denominator" definition;
     let! denominator <- lookup_key denominator_col row;
     if is_zero denominator then Return (Num nan)
     else divide numerator denominator)
  with
  | Raise (KeyError _) => Return (Num nan)
  | outcome => outcome
  end.

(** [d[k] = v] on a dictionary with string keys. *)
Fixpoint assoc_set {V} (k : string) (v : V) (d : list (string * V))
  : list (string * V) :=
  match d with
  | [] => [(k, v)]
  | (k', v') :: rest =>
      if String.eqb k k' then (k', v) :: rest
      else (k', v') :: assoc_set k v rest
  end.

(** The [for ratio_name, definition in ratio_definitions.items()] loop. *)
Fixpoint ratios_of (row : list (string * cell))
         (ratio_definitions : list (string * list (string * string)))
         (ratios : list (string * cell)) : result (list (string * cell)) :=
  match ratio_definitions with
  | [] => Return ratios
  | (ratio_name, definition) :: rest =>
      let! value <- ratio_of row definition;
      ratios_of row rest (assoc_set ratio_name value ratios)
  end.

(** [{company_col: company, period_col: row[period_col], **ratios}] *)
Definition result_row (company_col period_col : string) (company : cell)
           (row : list (string * cell)) (ratios : list (string * cell))
  : result (list (string * cell)) :=
  let! period <- lookup_key period_col row;
  Return (fold_left (fun d kv => assoc_set (fst kv) (snd kv) d) ratios
                    (assoc_set period_col period [(company_col, company)])).

Section WithGroupby.

(** [df.groupby(col)] as the loop sees it: the keys with the rows of
    their groups, or the [KeyError] for a missing column. *)
Variable groupby : string -> DataFrame -> result (list (cell * list (list cell))).

(** The [for _, row in group.iterrows()] loop. *)
Fixpoint rows_of_group (cols : list string) (company_col period_col : string)
         (ratio_definitions : list (string * list (string * string)))
         (company : cell) (group : list (list cell))
  : result (list (list (string * cell))) :=
  match group with
  | [] => Return []
  | r :: rest =>
      let row := row_of cols r in
      let! ratios <- ratios_of row ratio_definitions [];
      let! record <- result_row company_col period_col company row ratios;
      let! records <- rows_of_group cols company_col period_col
                        ratio_definitions company rest;
      Return (record :: records)
  end.

(** The [for company, group in df.groupby(company_col)] loop. *)
Fixpoint records_of_groups (cols : list string)
         (company_col period_col : string)
         (ratio_definitions : list (string * list (string * string)))
         (groups : list (cell * list (list cell)))
  : result (list (list (string * cell))) :=
  match groups with
  | [] => Return []
  | (company, group) :: rest =>
      let! records <- rows_of_group cols company_col period_col
                        ratio_definitions company group;
      let! others <- records_of_groups cols company_col period_col
                       ratio_definitions rest;
      Return (records ++ others)%list
  end.

(** [compute_financial_ratios] up to its last line: the list [results]
    that [pd.DataFrame(results)] then tabulates. *)
Definition compute_financial_ratios (fs : FileSystem)
           (file_name company_col period_col : string)
           (ratio_definitions : list (string * list (string * string)))
  : M (list (list (string * cell))) :=
  do r <- load_data fs file_name [];
  do df <- deref r;
  do groups <- lift (groupby company_col df);
  lift (records_of_groups (columns df) company_col period_col
          ratio_definitions groups).

End WithGroupby.

End Ratios.
Export Ratios.

(* ===================================================================== *)
(** ** [load_env_variables] ([src/utils/helpers.py]) *)
(* ===================================================================== *)

Module Env.

(** The white space [str.strip()] removes, on text held as its UTF-8
    bytes.  Among the ASCII characters: U+0009..U+000D, U+001C..U+001F
    and the space. *)
Definition is_space (c : ascii) : bool :=
  let n := nat_of_ascii c in
  (((9 <=? n) && (n <=? 13)) || ((28 <=? n) && (n <=? 32)))%nat%bool.

(** In two bytes: U+0085 (C2 85) and U+00A0 (C2 A0). *)
Definition is_space2 (c1 c2 : ascii) : bool :=
  let a := nat_of_ascii c1 in
  let b := nat_of_ascii c2 in
  ((a =? 194) && ((b =? 133) || (b =? 160)))%nat%bool.

(** In three bytes: U+1680 (E1 9A 80), U+2000..U+200A (E2 80 80..8A),
    U+2028, U+2029, U+202F (E2 80 A8, A9, AF), U+205F (E2 81 9F) and
    U+3000 (E3 80 80). *)
Definition is_space3 (c1 c2 c3 : ascii) : bool :=
  let a := nat_of_ascii c1 in
  let b := nat_of_ascii c2 in
  let c := nat_of_ascii c3 in
  (((a =? 225) && (b =? 154) && (c =? 128))
   || ((a =? 226) && (b =? 128)
       && (((128 <=? c) && (c <=? 138)) || (c =? 168) || (c =? 169)
           || (c =? 175)))
   || ((a =? 226) && (b =? 129) && (c =? 159))
   || ((a =? 227) && (b =? 128) && (c =? 128)))%nat%bool.

(** Dropping the white space at the front; [two] and [three] recognise
    the characters of two and three bytes in the order the bytes come. *)
Fixpoint strip_front (two : ascii -> ascii -> bool)
         (three : ascii -> ascii -> ascii -> bool) (s : string) : string :=
  match s with
  | EmptyString => EmptyString
  | String c1 s1 =>
      if is_space c1 then strip_front two three s1
      else
        match s1 with
        | EmptyString => s
        | String c2 s2 =>
            if two c1 c2 then strip_front two three s2
            else
              match s2 with
              | EmptyString => s
              | String c3 s3 =>
                  if three c1 c2 c3 then strip_front two three s3 else s
              end
        end
  end.

Definition lstrip (s : string) : string := strip_front is_space2 is_space3 s.

Fixpoint rev_string (s : string) (acc : string) : string :=
  match s with
  | EmptyString => acc
  | String c s' => rev_string s' (String c acc)
  end.

(** From the end the bytes of a character come last byte first. *)
Definition rstrip (s : string) : string :=
  rev_string
    (strip_front (fun c2 c1 => is_space2 c1 c2)
                 (fun c3 c2 c1 => is_space3 c1 c2 c3)
                 (rev_string s EmptyString))
    EmptyString.

Definition strip (s : string) : string := rstrip (lstrip s).

(** [line.split('=', 1)]: the parts before and after the first [=], or
    [None] when there is none and the list has a single element. *)
Fixpoint split_once (s : string) : option (string * string) :=
  match s with
  | EmptyString => None
  | String c s' =>
      if Ascii.eqb c "="%char then Some (EmptyString, s')
      else option_map (fun kv => (String c (fst kv), snd kv)) (split_once s')
  end.

Definition is_comment (line : string) : bool := String.prefix "#" line.

(** [os.environ[key] = value] raises [ValueError] for an empty name and
    for a name or a value that holds a null character. *)
Definition has_nul (s : string) : bool :=
  contains (String "000"%char EmptyString) s.

Definition legal_assignment (key value : string) : bool :=
  (negb (String.eqb key "") && negb (has_nul key) && negb (has_nul value))%bool.

(** The variables of the process and the dictionary being built. *)
Record env_state : Type := mkEnv {
  environ : gmap string string;
  env_vars : gmap string string
}.

(** The body of [for line in f], on the lines read so far; [None] is an
    exception, which leaves the loop. *)
Fixpoint read_lines (lines : list string) (st : env_state)
  : option env_state * gmap string string :=
  match lines with
  | [] => (Some st, environ st)
  | line :: rest =>
      let line := strip line in
      if (negb (String.eqb line "") && negb (is_comment line))%bool then
        match split_once line with
        | None => (None, environ st)
        | Some (key, value) =>
            let key := strip key in
            let value := strip value in
            let vars := <[key := value]> (env_vars st) in
            if legal_assignment key value
            then read_lines rest (mkEnv (<[key := value]> (environ st)) vars)
            else (None, environ st)
        end
      else read_lines rest st
  end.

(** [load_env_variables] on a file that can be read: [file] is [None]
    when the file does not exist, its lines otherwise.  The result is the
    dictionary returned and the variables of the process afterwards. *)
Definition load_env_variables (file : option (list string))
           (os_environ : gmap string string)
  : gmap string string * gmap string string :=
  match file with
  | None => (∅, os_environ)
  | Some lines =>
      match read_lines lines (mkEnv os_environ ∅) with
      | (Some st, env) => (env_vars st, env)
      | (None, env) => (∅, env)
      end
  end.

End Env.

(* ===================================================================== *)
(** ** [AnalysisCoordinator.load_data] ([src/coordinator.py]) *)
(* ===================================================================== *)

Module Coordinator.

Definition default_data_files : list string :=
  ["宏观经济数据.csv"; "汽车行业上市公司数据.csv"; "新能源汽车产销数据.csv";
   "充电基础设施数据.csv"; "电池技术数据.csv"; "政策法规数据.csv"].

(** One entry of [load_results]. *)
Inductive load_status : Type :=
| LoadSuccess (shape : nat * nat) (columns : list string)
| LoadError (error : exn).

(** The body of the [try:]: the load, the entry, and the log line, whose
    f-string resolves the name once more. *)
Definition load_one (fs : FileSystem) (file_name : string) : M load_status :=
  do r <- load_data fs file_name [];
  do data <- deref r;
  run _resolve_file_name fs file_name;
  ret (LoadSuccess (shape data) (columns data)).

(** The [for file_name in data_files] loop with its [except Exception]. *)
Fixpoint load_each (fs : FileSystem) (data_files : list string)
         (load_results : gmap string load_status)
  : M (gmap string load_status) :=
  match data_files with
  | [] => ret load_results
  | file_name :: rest =>
      fun s =>
        match load_one fs file_name s with
        | (Return status, s') =>
            load_each fs rest (<[file_name := status]> load_results) s'
        | (Raise e, s') =>
            load_each fs rest (<[file_name := LoadError e]> load_results) s'
        end
  end.

Definition load_data (fs : FileSystem) (data_files : option (list string))
  : M (gmap string load_status) :=
  load_each fs (default default_data_files data_files) ∅.

End Coordinator.

(* ===================================================================== *)
(** ** A small library instance and concrete inputs *)
(* ===================================================================== *)

(** The theorems on the analyzer hold for every [Library].  To run the
    analyzer on concrete tables one instance is given here: dates in the
    two fixed formats, a stable sort, least squares by the normal
    equations, moments.  The p-values of the two tests need the
    chi-squared and t distributions and are NaN in this instance. *)
Module Plain.

Import Series.

Definition digit (c : ascii) : option Z :=
  let n := nat_of_ascii c in
  if ((48 <=? n)%nat && (n <=? 57)%nat)%bool then Some (Z.of_nat (n - 48))
  else None.

Fixpoint digits (s : string) (acc : Z) : option Z :=
  match s with
  | EmptyString => Some acc
  | String c s' =>
      match digit c with
      | Some d => digits s' (10 * acc + d)
      | None => None
      end
  end.

Definition number (s : string) : option Z :=
  match s with
  | EmptyString => None
  | _ => digits s 0
  end.

Fixpoint split (sep : ascii) (s : string) : list string :=
  match s with
  | EmptyString => [EmptyString]
  | String c s' =>
      if Ascii.eqb c sep then EmptyString :: split sep s'
      else match split sep s' with
           | part :: parts => String c part :: parts
           | [] => [String c EmptyString]
           end
  end.

Definition days_of_civil (y m d : Z) : Z :=
  let y := if (m <=? 2)%Z then y - 1 else y in
  let era := y / 400 in
  let yoe := y - era * 400 in
  let doy := (153 * (if (2 <? m)%Z then m - 3 else m + 9) + 2) / 5 + d - 1 in
  let doe := yoe * 365 + yoe / 4 - yoe / 100 + doy in
  era * 146097 + doe - 719468.

(** A date written year, month, day with the given separator. *)
Definition parse_date (sep : ascii) (s : string) : option Z :=
  match map number (split sep s) with
  | [Some y; Some m; Some d] =>
      if ((1 <=? m)%Z && (m <=? 12)%Z && (1 <=? d)%Z && (d <=? 31)%Z)%bool
      then Some (days_of_civil y m d * ns_per_day)
      else None
  | _ => None
  end.

Definition parse_with (fmt : date_format) (s : string) : option Z :=
  match fmt with
  | FmtSlash => parse_date "/" s
  | FmtDash => parse_date "-" s
  | _ => match parse_date "-" s with
         | Some t => Some t
         | None => parse_date "/" s
         end
  end.

Definition to_datetime (fmt : date_format) (s : list cell)
  : result (list cell) :=
  map_result (fun c => match c with
                       | Str text =>
                           match parse_with fmt text with
                           | Some t => Return (Ts t)
                           | None => Raise (ValueError (MsgLibrary "time data"))
                           end
                       | Ts t => Return (Ts t)
                       | NaT => Return NaT
                       | Num f => if is_nan f then Return NaT
                                  else Raise (ValueError (MsgLibrary "time data"))
                       end) s.

Definition to_datetime_coerce (s : list cell) : list cell :=
  map (fun c => match c with
                | Str text =>
                    match parse_with FmtInfer text with
                    | Some t => Ts t
                    | None => NaT
                    end
                | Ts t => Ts t
                | _ => NaT
                end) s.

Definition timestamp_of_string (s : string) : result Z :=
  match parse_with FmtInfer s with
  | Some t => Return t
  | None => Raise (ValueError (MsgLibrary "time data"))
  end.

(** Rows in ascending order of a timestamp column, missing timestamps
    last, ties in their original order. *)
Definition before (i : nat) (r1 r2 : list cell) : bool :=
  match cell_at i r1, cell_at i r2 with
  | Ts a, Ts b => (a <=? b)%Z
  | Ts _, _ => true
  | _, Ts _ => false
  | _, _ => true
  end.

Fixpoint insert_row (i : nat) (r : list cell) (sorted : list (list cell))
  : list (list cell) :=
  match sorted with
  | [] => [r]
  | r' :: rest =>
      if before i r r' then r :: sorted else r' :: insert_row i r rest
  end.

Definition sort_values (col : string) (df : DataFrame) : DataFrame :=
  match col_index col (columns df) with
  | Some i => mkDF (schema df) (fold_right (insert_row i) [] (rows df))
  | None => df
  end.

(** The same with ties in the reverse of their original order: also a
    sort into ascending order. *)
Definition strictly_before (i : nat) (r1 r2 : list cell) : bool :=
  match cell_at i r1, cell_at i r2 with
  | Ts a, Ts b => (a <? b)%Z
  | Ts _, _ => true
  | _, _ => false
  end.

Fixpoint insert_row_after (i : nat) (r : list cell) (sorted : list (list cell))
  : list (list cell) :=
  match sorted with
  | [] => [r]
  | r' :: rest =>
      if strictly_before i r r' then r :: sorted
      else r' :: insert_row_after i r rest
  end.

Definition sort_values_reversing (col : string) (df : DataFrame) : DataFrame :=
  match col_index col (columns df) with
  | Some i => mkDF (schema df) (fold_right (insert_row_after i) [] (rows df))
  | None => df
  end.

Local Open Scope float_scope.

Definition polyfit (x y : list float) : result (float * float) :=
  match x with
  | [] => Raise TypeError
  | _ =>
      let n := float_of_nat (length x) in
      let sx := fsum x in
      let sy := fsum y in
      let sxx := fsum (map (fun a => a * a) x) in
      let sxy := fsum (zip_with PrimFloat.mul x y) in
      let slope := (n * sxy - sx * sy) / (n * sxx - sx * sx) in
      Return (slope, (sy - slope * sx) / n)
  end.

Fixpoint windows (w : nat) (seen : list float) (ys : list float)
  : list float :=
  match ys with
  | [] => []
  | y :: rest =>
      let seen := (seen ++ [y])%list in
      (if ((0 <? w)%nat && (w <=? length seen)%nat)%bool
       then mean (skipn (length seen - w) seen) else nan)
      :: windows w seen rest
  end.

Definition rolling_mean (w : Z) (ys : list float) : result (list float) :=
  if (w <? 0)%Z then Raise (ValueError (MsgLibrary "window"))
  else Return (windows (Z.to_nat w) [] ys).

Definition moment (k : nat) (xs : list float) : float :=
  let m := mean xs in
  mean (map (fun x => fold_right PrimFloat.mul 1 (repeat (x - m) k)) xs).

Definition skew (xs : list float) : float :=
  moment 3 xs / (moment 2 xs * PrimFloat.sqrt (moment 2 xs)).

Definition kurtosis (xs : list float) : float :=
  moment 4 xs / (moment 2 xs * moment 2 xs) - 3.

Definition normaltest (xs : list float) : float := nan.

Definition ttest_ind (xs ys : list float) : float * float :=
  let n1 := float_of_nat (length xs) in
  let n2 := float_of_nat (length ys) in
  let pooled := ((n1 - 1) * var xs + (n2 - 1) * var ys) / (n1 + n2 - 2) in
  ((mean xs - mean ys) / PrimFloat.sqrt (pooled * (1 / n1 + 1 / n2)), nan).

Definition pearson (xs ys : list float) : float :=
  let mx := mean xs in
  let my := mean ys in
  fsum (zip_with (fun a b => (a - mx) * (b - my)) xs ys)
  / PrimFloat.sqrt (fsum (map (fun a => sq_diff a mx) xs)
                    * fsum (map (fun b => sq_diff b my) ys)).

Definition corr (cols : list (list float)) : list (list float) :=
  map (fun xs => map (pearson xs) cols) cols.

Definition lib : Library :=
  {| Analyzer.to_datetime := to_datetime;
     Analyzer.to_datetime_coerce := to_datetime_coerce;
     Analyzer.timestamp_of_string := timestamp_of_string;
     Analyzer.sort_values := sort_values;
     Analyzer.polyfit := polyfit;
     Analyzer.rolling_mean := rolling_mean;
     Analyzer.skew := skew;
     Analyzer.kurtosis := kurtosis;
     Analyzer.normaltest := normaltest;
     Analyzer.ttest_ind := ttest_ind;
     Analyzer.corr := corr |}.

Definition lib_reversing : Library :=
  {| Analyzer.to_datetime := to_datetime;
     Analyzer.to_datetime_coerce := to_datetime_coerce;
     Analyzer.timestamp_of_string := timestamp_of_string;
     Analyzer.sort_values := sort_values_reversing;
     Analyzer.polyfit := polyfit;
     Analyzer.rolling_mean := rolling_mean;
     Analyzer.skew := skew;
     Analyzer.kurtosis := kurtosis;
     Analyzer.normaltest := normaltest;
     Analyzer.ttest_ind := ttest_ind;
     Analyzer.corr := corr |}.

End Plain.

Module Fixtures.

Definition table_xy : DataFrame :=
  mkDF [("x", DtInt); ("y", DtFloat)]
       [[Num 1; Num 0.5]; [Num 2; Num 1.5]; [Num 3; Num 2.5]]%float.

(** Monthly sales as [pd.read_csv] gives them: the dates are text. *)
Definition table_sales : DataFrame :=
  mkDF [("date", DtObject); ("v", DtInt)]
       [[Str "2023-01-15"; Num 10]; [Str "2023-02-15"; Num 12];
        [Str "2024-01-15"; Num 20]; [Str "2024-02-15"; Num 26]]%float.

(** The column of section 8 of the specification. *)
Definition table_outlier : DataFrame :=
  mkDF [("x", DtInt)] [[Num 1]; [Num 2]; [Num 3]; [Num 4]; [Num 100]]%float.

(** A column with no value at all. *)
Definition table_blank : DataFrame :=
  mkDF [("id", DtInt); ("x", DtFloat)]
       [[Num 1; Num nan]; [Num 2; Num nan]]%float.

(** Two readings on the same day. *)
Definition table_ties : DataFrame :=
  mkDF [("date", DtObject); ("v", DtInt)]
       [[Str "2023-03-01"; Num 3]; [Str "2023-01-15"; Num 1];
        [Str "2023-01-15"; Num 2]]%float.

(** A data root given by its listing: a name exists when it is listed,
    and [read] says what reading a listed file yields. *)
Definition dir (listing : list string)
           (read : string -> encoding -> result DataFrame) : FileSystem :=
  {| fs_exists := fun p => mem p listing;
     fs_listdir := listing;
     fs_read_csv := fun p enc _ =>
       if mem p listing then read p enc else Raise (FileNotFoundError p);
     fs_read_excel := fun p _ =>
       if mem p listing then read p UTF8 else Raise (FileNotFoundError p) |}.

Definition fs_sales : FileSystem :=
  dir ["notes.txt"; "old_stock.csv"; "Sales_2020.csv"; "sales_2021.csv"]
      (fun _ _ => Return table_xy).

Definition fs_workbook : FileSystem :=
  dir ["Sales_2020.xlsx"] (fun _ _ => Return table_xy).

(** A file saved in GBK: decoding it as UTF-8 fails. *)
Definition fs_gbk : FileSystem :=
  dir ["a.csv"]
      (fun _ enc => match enc with
                    | UTF8 => Raise UnicodeDecodeError
                    | _ => Return table_xy
                    end).

(** A data root with one file per table above. *)
Definition fs_tables : FileSystem :=
  dir ["xy.csv"; "sales.csv"; "outlier.csv"; "blank.csv"; "ties.csv"]
      (fun p _ =>
         if String.eqb p "xy.csv" then Return table_xy
         else if String.eqb p "ties.csv" then Return table_ties
         else if String.eqb p "sales.csv" then Return table_sales
         else if String.eqb p "outlier.csv" then Return table_outlier
         else Return table_blank).

(** A loader just constructed, with an empty alias table. *)
Definition fresh : State := mkState ∅ ∅ [] [].

(** A loader whose cache already holds the logical name [sales]. *)
Definition warm : State := mkState ∅ {["sales" := 0%nat]} [table_xy] [].

End Fixtures.

(** Further concrete inputs. *)
Module Samples.

(** A file that is not text in any of the three encodings. *)
Definition fs_binary : FileSystem :=
  Fixtures.dir ["blob.csv"] (fun _ _ => Raise UnicodeDecodeError).

(** An alias table with one entry, for a file saved in GBK. *)
Definition aliased : State :=
  mkState {["sales" := {| actual_file := "a.csv";
                          description := Some "monthly sales" |}]}
          ∅ [] [].

(** An alias for a workbook that is in the data root. *)
Definition workbook_alias : State :=
  mkState {["sales" := {| actual_file := "Sales_2020.xlsx";
                          description := None |}]}
          ∅ [] [].

(** U+3000, the ideographic space, in UTF-8. *)
Definition ideographic_space : string :=
  String "227"%char (String "128"%char (String "128"%char EmptyString)).

End Samples.

(* ===================================================================== *)
(** ** Vocabulary of the statements *)
(* ===================================================================== *)

(** What a resolution returns and which disk accesses it makes; it reads
    no file and changes nothing but the access log. *)
Definition resolved (fs : FileSystem) (mapping : gmap string alias_entry)
           (logical_name : string) : string * list io_event :=
  match mapping !! logical_name with
  | Some entry => (actual_file entry, [])
  | None =>
      if fs_exists fs logical_name
      then (logical_name, [IoExists logical_name])
      else (match first_containing logical_name
                    (List.filter (fun f => endswith f ".csv") (fs_listdir fs)) with
            | Some file => file
            | None => logical_name
            end, [IoExists logical_name; IoGlob "*.csv"])
  end.

Definition count_reads (evs : list io_event) : nat :=
  length (List.filter (fun ev => is_read ev) evs).

Definition no_reads (evs : list io_event) : Prop :=
  forallb (fun ev => negb (is_read ev)) evs = true.

(** The descriptive statistics the specification places under ["stats"]. *)
Definition descriptive_stats (xs : list float) : pyval :=
  PDict [field "count" (PInt (len xs));
         field "mean" (PFloat (Series.mean xs));
         field "median" (PFloat (Series.median xs));
         field "std" (PFloat (Series.std xs));
         field "min" (PFloat (Series.fmin xs));
         field "max" (PFloat (Series.fmax xs))].


(** [df'] is [df] with, at most, the column [time_col] overwritten by
    parsed timestamps; nothing is overwritten when the column already is
    of a datetime type. *)
Definition reparsed (time_col : string) (df df' : DataFrame) : Prop :=
  df' = df \/
  exists i parsed,
    col_index time_col (columns df) = Some i /\
    col_dtype df time_col <> Some DtDatetime /\
    df' = set_col df time_col DtDatetime parsed.

(** [df'] has the columns and the number of rows of [df], and the cells
    of [df] in every column but [c]. *)
Definition same_but (c : string) (df df' : DataFrame) : Prop :=
  columns df' = columns df /\
  length (rows df') = length (rows df) /\
  forall c', c' <> c -> get_col df' c' = get_col df c'.

(** Every reference the cache holds points to an object of the store. *)
Definition cache_valid (s : State) : Prop :=
  forall name r, data_cache s !! name = Some r -> (r < length (heap s))%nat.

(** [l1] is the beginning of [l2]. *)
Definition starts_with {A} (l1 l2 : list A) : Prop :=
  exists rest, l2 = (l1 ++ rest)%list.

(** The candidates for the time column when the requested one is
    missing. *)
Definition possible_time_cols (df : DataFrame) : list string :=
  List.filter (fun col => existsb (fun keyword => contains keyword (lower col))
                                  time_keywords)
              (columns df).


(** An entry of the coordinator's [load_results] agrees with the loader:
    a success entry for a name comes with a cached table of that shape
    and those columns. *)
Definition loaded_as (s : State) (file_name : string)
           (status : Coordinator.load_status) : Prop :=
  match status with
  | Coordinator.LoadSuccess sh cols =>
      exists r df, data_cache s !! file_name = Some r /\
                   heap s !! r = Some df /\
                   shape df = sh /\ columns df = cols
  | Coordinator.LoadError _ => True
  end.

(* ===================================================================== *)
(** * Properties *)
(* ===================================================================== *)

(** ** Column labels *)

Lemma col_index_mem c cols i :
  col_index c cols = Some i -> mem c cols = true.
Proof.
  revert i. induction cols as [|c' rest IH]; simpl; [discriminate|].
  intros i. destruct (String.eqb c c'); [done|].
  destruct (col_index c rest) as [j|]; [|discriminate].
  intros _. simpl. by apply (IH j).
Qed.

Lemma mem_col_index c cols :
  mem c cols = true -> exists i, col_index c cols = Some i.
Proof.
  induction cols as [|c' rest IH]; simpl; [discriminate|].
  destruct (String.eqb c c'); simpl; [by exists 0%nat|].
  intros Hin. destruct (IH Hin) as [i ->]. by exists (S i).
Qed.

Lemma get_col_mem df c s : get_col df c = Some s -> mem c (columns df) = true.
Proof.
  unfold get_col. destruct (col_index c (columns df)) as [i|] eqn:Hi;
    [|discriminate].
  intros _. by apply (col_index_mem _ _ i).
Qed.


Lemma col_index_nth c cols i :
  col_index c cols = Some i -> nth i cols "" = c /\ (i < length cols)%nat.
Proof.
  revert i. induction cols as [|c' rest IH]; simpl; [discriminate|].
  intros i. destruct (String.eqb c c') eqn:Heq.
  - intros [= <-]. apply String.eqb_eq in Heq. split; [done | lia].
  - destruct (col_index c rest) as [j|]; [|discriminate].
    intros [= <-]. destruct (IH j eq_refl). split; [done | lia].
Qed.

Lemma col_index_app_other c c' cols :
  c' <> c -> col_index c' (cols ++ [c]) = col_index c' cols.
Proof.
  intros Hne. induction cols as [|c0 rest IH]; simpl.
  - by rewrite (proj2 (String.eqb_neq c' c) Hne).
  - destruct (String.eqb c' c0); [done|]. by rewrite IH.
Qed.

(** ** Assigning a column *)

Lemma length_align rs values : length (align rs values) = length rs.
Proof.
  revert values. induction rs as [|r rs IH]; intros [|v values]; simpl;
    by rewrite ?IH.
Qed.

Lemma length_zip_rows f rs vs :
  length vs = length rs -> length (zip_rows f rs vs) = length rs.
Proof.
  revert vs. induction rs as [|r rs IH]; intros [|v vs]; simpl; try done.
  intros [= Hlen]. by rewrite IH.
Qed.

Lemma set_col_rows df c dt values :
  length (rows (set_col df c dt values)) = length (rows df).
Proof.
  unfold set_col. destruct (col_index c (columns df)); simpl;
    apply length_zip_rows, length_align.
Qed.

Lemma map_fst_insert (l : list (string * dtype)) i c dt :
  nth i (map fst l) "" = c -> (i < length l)%nat ->
  map fst (<[i := (c, dt)]> l) = map fst l.
Proof.
  revert i. induction l as [|[c0 dt0] l IH]; intros [|i]; simpl; try lia.
  - by intros ->.
  - intros Hnth Hlt. f_equal. apply IH; [done | lia].
Qed.

Lemma set_col_columns_present df c dt values i :
  col_index c (columns df) = Some i ->
  columns (set_col df c dt values) = columns df.
Proof.
  intros Hi. unfold set_col. rewrite Hi. unfold columns at 1; simpl.
  destruct (col_index_nth _ _ _ Hi) as [Hnth Hlt].
  unfold columns in *. rewrite length_map in Hlt. by apply map_fst_insert.
Qed.

Lemma set_col_columns_absent df c dt values :
  col_index c (columns df) = None ->
  columns (set_col df c dt values) = (columns df ++ [c])%list.
Proof.
  intros Hi. unfold set_col. rewrite Hi. unfold columns; simpl.
  by rewrite map_app.
Qed.

Lemma nth_insert_other (r : list cell) i j v :
  i <> j -> cell_at j (<[i := v]> r) = cell_at j r.
Proof.
  unfold cell_at. revert i j.
  induction r as [|x r IH]; intros [|i] [|j] Hne; simpl; try done.
  apply IH. congruence.
Qed.

Lemma zip_rows_other_cells f j rs vs :
  (forall r v, In r rs -> cell_at j (f r v) = cell_at j r) ->
  length vs = length rs ->
  map (cell_at j) (zip_rows f rs vs) = map (cell_at j) rs.
Proof.
  revert vs. induction rs as [|r rs IH]; intros [|v vs] Hf; simpl; try done.
  intros [= Hlen]. rewrite Hf by (by left). f_equal.
  apply IH; [|done]. intros r' v' Hin. apply Hf. by right.
Qed.

Lemma set_col_other_present df c dt values i c' :
  col_index c (columns df) = Some i -> c' <> c ->
  get_col (set_col df c dt values) c' = get_col df c'.
Proof.
  intros Hi Hne. unfold get_col.
  rewrite (set_col_columns_present _ _ _ _ _ Hi).
  destruct (col_index c' (columns df)) as [j|] eqn:Hj; [|done]. simpl.
  f_equal. unfold set_col. rewrite Hi. simpl.
  apply zip_rows_other_cells; [|apply length_align].
  intros r v _. apply nth_insert_other. intros ->.
  destruct (col_index_nth _ _ _ Hi) as [H1 _].
  destruct (col_index_nth _ _ _ Hj) as [H2 _]. congruence.
Qed.

Lemma set_col_other_absent df c dt values c' :
  well_formed df ->
  col_index c (columns df) = None -> c' <> c ->
  get_col (set_col df c dt values) c' = get_col df c'.
Proof.
  intros Hwf Hi Hne. unfold get_col.
  rewrite (set_col_columns_absent _ _ _ _ Hi), (col_index_app_other _ _ _ Hne).
  destruct (col_index c' (columns df)) as [j|] eqn:Hj; [|done]. simpl.
  f_equal. unfold set_col. rewrite Hi. simpl.
  apply zip_rows_other_cells; [|apply length_align].
  intros r v Hin. unfold cell_at. apply app_nth1.
  destruct (col_index_nth _ _ _ Hj) as [_ Hlt].
  unfold columns in Hlt. rewrite length_map in Hlt.
  unfold well_formed in Hwf. rewrite List.Forall_forall in Hwf.
  by rewrite (Hwf r Hin).
Qed.

Lemma set_col_other df c dt values c' :
  well_formed df -> c' <> c ->
  get_col (set_col df c dt values) c' = get_col df c'.
Proof.
  intros Hwf Hne. destruct (col_index c (columns df)) as [i|] eqn:Hi.
  - by apply (set_col_other_present _ _ _ _ i).
  - by apply set_col_other_absent.
Qed.

Lemma zip_rows_Forall (P : list cell -> Prop) f rs vs :
  (forall r v, In r rs -> P (f r v)) -> Forall P (zip_rows f rs vs).
Proof.
  revert vs. induction rs as [|r rs IH]; intros [|v vs] Hf; simpl;
    try constructor.
  - apply Hf. by left.
  - apply IH. intros r' v' Hin. apply Hf. by right.
Qed.

Lemma set_col_well_formed df c dt values :
  well_formed df -> well_formed (set_col df c dt values).
Proof.
  unfold well_formed. rewrite List.Forall_forall. intros Hwf.
  unfold set_col. destruct (col_index c (columns df)) as [i|]; simpl;
    apply zip_rows_Forall; intros r v Hin.
  - rewrite !length_insert. by apply Hwf.
  - rewrite !length_app. simpl. by rewrite (Hwf r Hin).
Qed.

(** ** Name resolution *)

Lemma first_containing_found logical_name files file :
  first_containing logical_name files = Some file ->
  exists before after,
    files = (before ++ file :: after)%list /\
    contains (lower logical_name) (lower file) = true /\
    Forall (fun f => contains (lower logical_name) (lower f) = false) before.
Proof.
  induction files as [|f rest IH]; simpl; [discriminate|].
  destruct (contains (lower logical_name) (lower f)) eqn:Hc.
  - intros [= <-]. exists [], rest. auto.
  - intros Hrest. destruct (IH Hrest) as (before & after & -> & Hin & Hall).
    exists (f :: before), after. repeat split; auto.
Qed.

Lemma first_containing_none logical_name files :
  first_containing logical_name files = None ->
  Forall (fun f => contains (lower logical_name) (lower f) = false) files.
Proof.
  induction files as [|f rest IH]; simpl; [constructor|].
  destruct (contains (lower logical_name) (lower f)) eqn:Hc; [discriminate|].
  intros Hrest. constructor; auto.
Qed.

Lemma resolve_runs fs logical_name s :
  _resolve_file_name fs logical_name s =
  (Return (fst (resolved fs (file_mapping s) logical_name)),
   add_log (snd (resolved fs (file_mapping s) logical_name)) s).
Proof.
  unfold _resolve_file_name, resolved, bind, get_state, path_exists, glob_csv, ret.
  destruct s as [fm dc h lg]; simpl.
  destruct (fm !! logical_name) as [entry|]; simpl.
  - unfold add_log; simpl. by rewrite app_nil_r.
  - destruct (fs_exists fs logical_name); simpl; [done|].
    unfold add_log; simpl. rewrite <- app_assoc; simpl.
    by destruct (first_containing _ _).
Qed.

Lemma resolved_no_read fs mapping logical_name :
  forallb (fun ev => negb (is_read ev)) (snd (resolved fs mapping logical_name)) = true.
Proof.
  unfold resolved. destruct (mapping !! logical_name); [done|].
  by destruct (fs_exists fs logical_name).
Qed.





(** The names the coordinator loads by default are among the names the
    statement covers. *)
Lemma default_data_files_plain_case :
  Forall (fun f => plain_case f = true) Coordinator.default_data_files.
Proof. repeat constructor. Qed.


(** ** Loading and the cache *)

Lemma count_reads_app evs1 evs2 :
  count_reads (evs1 ++ evs2) = (count_reads evs1 + count_reads evs2)%nat.
Proof. unfold count_reads. by rewrite List.filter_app, length_app. Qed.

Lemma no_reads_count evs : no_reads evs -> count_reads evs = 0%nat.
Proof.
  unfold no_reads, count_reads. induction evs as [|ev evs IH]; simpl; [done|].
  intros [Hev Hevs]%andb_prop.
  destruct (is_read ev); simpl in *; [done|]. auto.
Qed.

Lemma add_log_add_log evs1 evs2 s :
  add_log evs2 (add_log evs1 s) = add_log (evs1 ++ evs2) s.
Proof. unfold add_log; simpl. by rewrite app_assoc. Qed.

(** A load of a cached name: the resolution runs, then the cached reference
    is returned. *)
Lemma load_data_hit fs file_name kw s r :
  data_cache s !! file_name = Some r ->
  load_data fs file_name kw s
  = (Return r, add_log (snd (resolved fs (file_mapping s) file_name)) s).
Proof.
  intros Hhit. unfold load_data, bind. rewrite resolve_runs.
  unfold get_state; simpl. by rewrite Hhit.
Qed.

(** The encoding loop reads the file once per encoding it tries. *)
Lemma read_csv_any_log fs file_path kw encodings s o s' :
  read_csv_any fs file_path kw encodings s = (o, s') ->
  exists evs, s' = add_log evs s /\
              (count_reads evs <= length encodings)%nat /\
              (forall df, o = Return (Some df) -> (1 <= count_reads evs)%nat).
Proof.
  revert s. induction encodings as [|enc rest IH]; intros s; simpl.
  - intros [= <- <-]. exists []. split; [|split; [done|done]].
    unfold add_log. destruct s; simpl. by rewrite app_nil_r.
  - destruct (fs_read_csv fs file_path enc kw) as [df|e] eqn:Hread.
    + intros [= <- <-]. exists [IoReadCsv file_path enc].
      split; [done|]. split; [cbv; lia | intros; cbv; lia].
    + assert (Hstop : e <> UnicodeDecodeError ->
                      (o, s') = (Raise e, add_log [IoReadCsv file_path enc] s) ->
                      exists evs, s' = add_log evs s /\
                        (count_reads evs <= S (length rest))%nat /\
                        (forall df, o = Return (Some df) ->
                                    (1 <= count_reads evs)%nat)).
      { intros _ [= -> ->]. exists [IoReadCsv file_path enc].
        split; [done|]. split; [cbv; lia | done]. }
      destruct e; try (intros Heq; apply Hstop; [done | by rewrite Heq]).
      intros Hrest. destruct (IH _ Hrest) as (evs & -> & Hle & Hge).
      exists (IoReadCsv file_path enc :: evs).
      split; [by rewrite add_log_add_log|].
      change (IoReadCsv file_path enc :: evs)
        with ([IoReadCsv file_path enc] ++ evs)%list.
      rewrite count_reads_app.
      change (count_reads [IoReadCsv file_path enc]) with 1%nat.
      split; [simpl; lia|]. intros df Hdf. lia.
Qed.

(** A load of a name that is not cached, when it succeeds: one new table
    is created, stored under the logical name, and the file was read
    between one and three times. *)
Local Opaque read_csv_any.

Lemma load_data_miss fs file_name kw s r s1 :
  data_cache s !! file_name = None ->
  load_data fs file_name kw s = (Return r, s1) ->
  exists df evs,
    s1 = mkState (file_mapping s) (<[file_name := r]> (data_cache s))
                 (heap s ++ [df]) (io_log s ++ evs) /\
    r = length (heap s) /\
    (1 <= count_reads evs <= 3)%nat.
Proof.
  intros Hmiss. unfold load_data, bind. rewrite resolve_runs.
  set (actual := fst (resolved fs (file_mapping s) file_name)).
  set (evs0 := snd (resolved fs (file_mapping s) file_name)).
  assert (Hevs0 : count_reads evs0 = 0%nat)
    by apply no_reads_count, resolved_no_read.
  unfold get_state; simpl. rewrite Hmiss.
  unfold path_exists; simpl.
  destruct (fs_exists fs actual); simpl; [|discriminate].
  destruct (endswith file_name ".csv" || endswith actual ".csv").
  - destruct (read_csv_any fs actual kw [UTF8; GBK; GB2312]
                (add_log [IoExists actual] (add_log evs0 s)))
      as [[[df|]|e] s2] eqn:Hread; simpl; try discriminate.
    destruct (read_csv_any_log _ _ _ _ _ _ _ Hread) as (evs & -> & Hle & Hge).
    specialize (Hge df eq_refl). simpl in Hle.
    unfold new_object, cache_store, ret; simpl.
    intros [= <- <-]. exists df, (evs0 ++ [IoExists actual] ++ evs)%list.
    split; [|split; [done|]].
    + unfold set_cache, set_heap, add_log; simpl.
      by rewrite <- !app_assoc.
    + rewrite !count_reads_app, Hevs0.
      change (count_reads [IoExists actual]) with 0%nat. lia.
  - destruct (endswith file_name ".xlsx" || endswith file_name ".xls"
              || endswith actual ".xlsx" || endswith actual ".xls");
      simpl; [|discriminate].
    unfold read_excel.
    destruct (fs_read_excel fs actual kw) as [df|e]; simpl; [|discriminate].
    unfold new_object, cache_store, ret; simpl.
    intros [= <- <-].
    exists df, (evs0 ++ [IoExists actual] ++ [IoReadExcel actual])%list.
    split; [|split; [done|]].
    + unfold set_cache, set_heap, add_log; simpl.
      by rewrite <- !app_assoc.
    + rewrite !count_reads_app, Hevs0.
      change (count_reads [IoExists actual]) with 0%nat.
      change (count_reads [IoReadExcel actual]) with 1%nat. lia.
Qed.

Local Transparent read_csv_any.

(** C6 (amended): when a load of a logical name succeeds, the table is in
    the cache under that logical name and no other key has changed; the
    load itself read the file at most three times (once per encoding
    tried); and a second load of the same name, with nothing done to the
    cache in between, returns the same reference, reads no file and leaves
    the cache and the object store as they are. *)
Theorem load_data_twice fs file_name kw kw' s r s1 :
  load_data fs file_name kw s = (Return r, s1) ->
  data_cache s1 !! file_name = Some r /\
  (forall key, key <> file_name -> data_cache s1 !! key = data_cache s !! key) /\
  (exists evs, io_log s1 = (io_log s ++ evs)%list /\ (count_reads evs <= 3)%nat) /\
  (exists evs, load_data fs file_name kw' s1 = (Return r, add_log evs s1) /\
               no_reads evs).
Proof.
  intros Hload.
  assert (Hcached : data_cache s1 !! file_name = Some r /\
            (forall key, key <> file_name ->
                         data_cache s1 !! key = data_cache s !! key) /\
            (exists evs, io_log s1 = (io_log s ++ evs)%list /\
                         (count_reads evs <= 3)%nat)).
  { destruct (data_cache s !! file_name) as [r0|] eqn:Hc.
    - rewrite (load_data_hit _ _ _ _ _ Hc) in Hload.
      injection Hload as <- <-. simpl. split; [done|]. split; [done|].
      eexists. split; [done|].
      rewrite no_reads_count; [lia | apply resolved_no_read].
    - destruct (load_data_miss _ _ _ _ _ _ Hc Hload) as (df & evs & -> & _ & Hn).
      simpl. split; [apply lookup_insert_eq|].
      split; [intros key Hkey; by apply lookup_insert_ne|].
      exists evs. split; [done | lia]. }
  destruct Hcached as (Hc1 & Hother & Hlog). repeat split; try done.
  eexists. split; [apply (load_data_hit _ _ _ _ _ Hc1)|].
  apply resolved_no_read.
Qed.

Lemma load_data_twice_witness :
  exists evs,
    load_data Fixtures.fs_gbk "a.csv" [] (snd (load_data Fixtures.fs_gbk "a.csv" [] Fixtures.fresh))
    = (Return 0%nat,
       add_log evs (snd (load_data Fixtures.fs_gbk "a.csv" [] Fixtures.fresh))) /\
    no_reads evs.
Proof.
  exact (proj2 (proj2 (proj2
    (load_data_twice Fixtures.fs_gbk "a.csv" [] [] Fixtures.fresh 0%nat
       (snd (load_data Fixtures.fs_gbk "a.csv" [] Fixtures.fresh)) eq_refl)))).
Defined.

(** C6 as stated fails: the file is in GBK, the first load reads it once
    as UTF-8, which fails, and once more as GBK; two loads have read the
    file twice. *)
Lemma load_data_reads_per_encoding :
  let s1 := snd (load_data Fixtures.fs_gbk "a.csv" [] Fixtures.fresh) in
  let s2 := snd (load_data Fixtures.fs_gbk "a.csv" [] s1) in
  io_log s2 = [IoExists "a.csv"; IoExists "a.csv";
               IoReadCsv "a.csv" UTF8; IoReadCsv "a.csv" GBK;
               IoExists "a.csv"] /\
  count_reads (io_log s2) = 2%nat /\
  ~ (count_reads (io_log s2) <= 1)%nat.
Proof. repeat split. vm_compute. lia. Qed.

(** C7 (amended): a load of a cached logical name returns the cached
    reference whatever the file system holds, reads no file and leaves the
    cache and the object store as they are; the resolution still runs
    first: nothing on disk is touched when the name is in the alias table,
    otherwise the existence of the name in the data root is checked and,
    when it does not exist, the data root is scanned. *)
Theorem load_data_cache_hit fs file_name kw s r :
  data_cache s !! file_name = Some r ->
  exists evs,
    load_data fs file_name kw s = (Return r, add_log evs s) /\
    no_reads evs /\
    (is_Some (file_mapping s !! file_name) -> evs = []) /\
    (file_mapping s !! file_name = None ->
     evs = IoExists file_name ::
           (if fs_exists fs file_name then [] else [IoGlob "*.csv"])).
Proof.
  intros Hhit. eexists. split; [apply (load_data_hit _ _ _ _ _ Hhit)|].
  split; [apply resolved_no_read|]. unfold resolved. split.
  - intros [entry ->]. done.
  - intros ->. by destruct (fs_exists fs file_name).
Qed.

Lemma load_data_cache_hit_witness :
  exists evs,
    load_data Fixtures.fs_sales "sales" [] Fixtures.warm
    = (Return 0%nat, add_log evs Fixtures.warm) /\ no_reads evs.
Proof.
  destruct (load_data_cache_hit Fixtures.fs_sales "sales" [] Fixtures.warm 0%nat eq_refl)
    as (evs & Hrun & Hno & _).
  exists evs. split; [exact Hrun | exact Hno].
Defined.

(** C7 as stated fails: on a cache hit the code has already checked
    whether the name exists in the data root and scanned the data root. *)
Lemma load_data_hit_touches_disk :
  load_data Fixtures.fs_sales "sales" [] Fixtures.warm
  = (Return 0%nat,
     add_log [IoExists "sales"; IoGlob "*.csv"] Fixtures.warm).
Proof. reflexivity. Qed.

(** ** Column projection *)

Lemma filter_present_all (cols present : list string) :
  Forall (fun c => mem c present = true)
         (List.filter (fun c => mem c present) cols).
Proof.
  induction cols as [|c rest IH]; simpl; [constructor|].
  destruct (mem c present) eqn:Hc; [constructor|]; done.
Qed.

Lemma filter_present_none (cols present : list string) :
  Forall (fun c => mem c present = false) cols ->
  List.filter (fun c => mem c present) cols = [].
Proof.
  induction 1 as [|c rest Hc _ IH]; simpl; [done|]. by rewrite Hc.
Qed.

Lemma filter_present_some (cols present : list string) :
  Exists (fun c => mem c present = true) cols ->
  List.filter (fun c => mem c present) cols <> [].
Proof.
  induction 1 as [c rest Hc | c rest _ IH]; simpl.
  - by rewrite Hc.
  - by destruct (mem c present).
Qed.

(** The positions [select] looks up, when every label is present. *)
Lemma positions_present (cols present : list string) :
  Forall (fun c => mem c present = true) cols ->
  exists idx,
    positions cols present = idx /\
    Forall2 (fun c i => col_index c present = Some i) cols idx.
Proof.
  induction 1 as [|c rest Hc _ (idx & Hidx & Hall)].
  - exists []. split; [done | constructor].
  - destruct (mem_col_index _ _ Hc) as [i Hi].
    exists (i :: idx). split; [|by constructor].
    simpl. by rewrite Hi, Hidx.
Qed.

Lemma select_columns df cols :
  Forall (fun c => mem c (columns df) = true) cols ->
  columns (select df cols) = cols.
Proof.
  intros Hall. destruct (positions_present _ _ Hall) as (idx & Hidx & Hpos).
  unfold select, columns at 1. simpl. rewrite Hidx, map_map.
  clear Hidx Hall. induction Hpos as [|c i rest idx Hi _ IH]; simpl; [done|].
  rewrite IH. f_equal.
  destruct (col_index_nth _ _ _ Hi) as [Hnth _]. unfold columns in Hnth.
  rewrite <- Hnth. by rewrite <- (map_nth fst).
Qed.

Lemma select_rows df cols : length (rows (select df cols)) = length (rows df).
Proof. unfold select; simpl. by rewrite length_map. Qed.

Lemma select_get_col df cols c :
  Forall (fun c => mem c (columns df) = true) cols ->
  mem c cols = true ->
  get_col (select df cols) c = get_col df c.
Proof.
  intros Hall Hin. unfold get_col at 1. rewrite (select_columns _ _ Hall).
  destruct (positions_present _ _ Hall) as (idx & Hidx & Hpos).
  destruct (mem_col_index _ _ Hin) as [j Hj]. rewrite Hj. simpl.
  assert (Hi : exists i, col_index c (columns df) = Some i /\
                         nth j idx 0%nat = i /\ (j < length idx)%nat).
  { clear Hidx Hall Hin. revert j Hj.
    induction Hpos as [|c' i rest idx Hi _ IH]; simpl; [discriminate|].
    intros j. destruct (String.eqb c c') eqn:Heq.
    - apply String.eqb_eq in Heq. subst c'. intros [= <-].
      exists i. repeat split; [done | lia].
    - destruct (col_index c rest) as [j'|]; [|discriminate].
      intros [= <-]. destruct (IH j' eq_refl) as (i' & ? & ? & ?).
      exists i'. repeat split; [done | done | lia]. }
  destruct Hi as (i & Hi & Hnth & Hlt).
  unfold get_col. rewrite Hi. simpl. f_equal.
  unfold select; simpl. rewrite Hidx, map_map.
  apply map_ext. intros r. unfold cell_at at 1.
  rewrite (nth_indep _ NaT (cell_at 0 r)) by (by rewrite length_map).
  by rewrite (map_nth (fun i => cell_at i r)), Hnth.
Qed.

(** C2 (amended): a query with a projection never fails at the
    projection, whatever filters and limit follow; when none of the requested columns is in the table the
    projection is skipped and the table keeps all its columns and rows;
    when some are, exactly those are kept, in the order requested, with
    every row and the cells they had. *)
Theorem query_projection df cols :
  query_table df None (Some cols) None = Return (project df (Some cols)) /\
  (forall filters limit,
      query_table df filters (Some cols) limit
      = query_table (project df (Some cols)) filters None limit) /\
  (Forall (fun c => mem c (columns df) = false) cols ->
   project df (Some cols) = df) /\
  (Exists (fun c => mem c (columns df) = true) cols ->
   columns (project df (Some cols))
   = List.filter (fun c => mem c (columns df)) cols /\
   length (rows (project df (Some cols))) = length (rows df) /\
   forall c, mem c cols = true -> mem c (columns df) = true ->
             get_col (project df (Some cols)) c = get_col df c).
Proof.
  split; [reflexivity|]. split; [reflexivity|]. split.
  - intros Hnone. unfold project. destruct cols as [|c rest]; [done|].
    by rewrite (filter_present_none _ _ Hnone).
  - intros Hsome.
    assert (Hproj : project df (Some cols)
                    = select df (List.filter (fun c => mem c (columns df)) cols)).
    { unfold project. destruct cols as [|c rest]; [by inversion Hsome|].
      pose proof (filter_present_some _ _ Hsome) as Hne.
      by destruct (List.filter _ (c :: rest)). }
    rewrite Hproj. pose proof (filter_present_all cols (columns df)) as Hall.
    split; [by apply select_columns|]. split; [apply select_rows|].
    intros c Hreq Hhas. apply select_get_col; [done|].
    unfold mem. apply existsb_exists. unfold mem in Hreq.
    apply existsb_exists in Hreq as (c' & Hin & Heq).
    exists c'. split; [|done]. apply filter_In. split; [done|].
    apply String.eqb_eq in Heq. by subst c'.
Qed.

Lemma query_projection_witness :
  columns (project Fixtures.table_xy (Some ["y"; "z"])) = ["y"] /\
  project Fixtures.table_xy (Some ["z"]) = Fixtures.table_xy.
Proof.
  destruct (query_projection Fixtures.table_xy ["y"; "z"]) as (_ & _ & _ & Hsome).
  destruct (query_projection Fixtures.table_xy ["z"]) as (_ & _ & Hnone & _).
  split.
  - apply Hsome. apply Exists_cons_hd. reflexivity.
  - apply Hnone. repeat constructor.
Defined.

(** C2 as stated fails: the only requested column is absent; the stated
    result has no column, the code returns the table with both. *)
Lemma projection_of_absent_columns :
  shape (project_as_specified Fixtures.table_xy ["z"]) = (3, 0)%nat /\
  query_table Fixtures.table_xy None (Some ["z"]) None
  = Return Fixtures.table_xy /\
  shape Fixtures.table_xy = (3, 2)%nat.
Proof. repeat split. Qed.

(** ** Time slices *)

(** The order of a time slice is the order [sort_values] gives.  Both
    libraries below sort into ascending order of the dates; rows of equal
    date come out in their original order with one and reversed with the
    other, and so does the slice. *)
Lemma time_slice_follows_sort :
  fst (get_time_series_data Plain.lib Fixtures.fs_tables
         "ties.csv" "date" ["v"] None None Fixtures.fresh)
  = Return (mkDF [("date", DtDatetime); ("v", DtInt)]
                 [[Ts 1673740800000000000; Num 1];
                  [Ts 1673740800000000000; Num 2];
                  [Ts 1677628800000000000; Num 3]]%float) /\
  fst (get_time_series_data Plain.lib_reversing Fixtures.fs_tables
         "ties.csv" "date" ["v"] None None Fixtures.fresh)
  = Return (mkDF [("date", DtDatetime); ("v", DtInt)]
                 [[Ts 1673740800000000000; Num 2];
                  [Ts 1673740800000000000; Num 1];
                  [Ts 1677628800000000000; Num 3]]%float).
Proof. split; vm_compute; reflexivity. Qed.

(** The conversion of the time column is written into the cached table:
    after a time slice the cache holds timestamps where the file had
    text. *)
Lemma time_slice_converts_cached_table :
  let s := snd (get_time_series_data Plain.lib Fixtures.fs_tables
                  "ties.csv" "date" ["v"] None None Fixtures.fresh) in
  data_cache s !! "ties.csv" = Some 0%nat /\
  (heap s !! 0%nat) ≫= (fun df => col_dtype df "date") = Some DtDatetime.
Proof. vm_compute. split; reflexivity. Qed.

(** ** The statistics engine *)

(** The start of [detect_outliers] on a table that has the column. *)
Lemma detect_outliers_body_column column method df s :
  get_col df column = Some s ->
  detect_outliers_body column method df =
  (if String.eqb method "iqr" then
     do xs <- lift (Series.as_floats (dropna s));
     let Q1 := Series.quantile xs 0.25 in
     let Q3 := Series.quantile xs 0.75 in
     let IQR := (Q3 - Q1)%float in
     let lower_bound := (Q1 - 1.5 * IQR)%float in
     let upper_bound := (Q3 + 1.5 * IQR)%float in
     let outliers :=
       List.filter (fun x => (PrimFloat.ltb x lower_bound
                              || PrimFloat.ltb upper_bound x)%bool) xs in
     do ratio <- lift (truediv (len outliers) (len (dropna s)));
     ret (PDict [
       field "method" (PStr "IQR");
       field "lower_bound" (PFloat lower_bound);
       field "upper_bound" (PFloat upper_bound);
       field "outliers" (num_list outliers);
       field "outlier_count" (PInt (len outliers));
       field "outlier_percentage" (PFloat (ratio * 100)%float)])
   else if String.eqb method "zscore" then
     do xs <- lift (Series.as_floats (dropna s));
     let m := Series.mean xs in
     let sd := Series.std xs in
     let outliers :=
       List.filter (fun x => PrimFloat.ltb 3 (fabs ((x - m) / sd)%float)) xs in
     do ratio <- lift (truediv (len outliers) (len (dropna s)));
     ret (PDict [
       field "method" (PStr "Z-score");
       field "threshold" (PInt 3);
       field "outliers" (num_list outliers);
       field "outlier_count" (PInt (len outliers));
       field "outlier_percentage" (PFloat (ratio * 100)%float)])
   else ret (error_payload (MsgUnsupportedMethod method))) df.
Proof.
  intros Hcol. unfold detect_outliers_body, bind, get_state, getitem.
  cbv beta iota. rewrite (get_col_mem _ _ _ Hcol). cbv beta iota delta [negb].
  by rewrite Hcol.
Qed.

(** C8: on a column holding exactly 1, 2, 3, 4, 100 the IQR method has the
    bounds -1 and 7 and flags exactly 100, which is 1 value and 20 percent
    of the column; the z-score method flags nothing, 0 values and 0
    percent.  Both report the values, their count and the percentage. *)
Theorem detect_outliers_1_2_3_4_100 fs file_name df column :
  get_data_summary fs file_name = StatusSuccess df ->
  get_col df column = Some [Num 1; Num 2; Num 3; Num 4; Num 100]%float ->
  detect_outliers fs file_name column "iqr"
  = Return (PDict [field "method" (PStr "IQR");
                   field "lower_bound" (PFloat (-1));
                   field "upper_bound" (PFloat 7);
                   field "outliers" (PList [PFloat 100]);
                   field "outlier_count" (PInt 1);
                   field "outlier_percentage" (PFloat 20)]) /\
  detect_outliers fs file_name column "zscore"
  = Return (PDict [field "method" (PStr "Z-score");
                   field "threshold" (PInt 3);
                   field "outliers" (PList []);
                   field "outlier_count" (PInt 0);
                   field "outlier_percentage" (PFloat 0)]).
Proof.
  intros Hload Hcol. unfold detect_outliers, with_table. rewrite Hload.
  rewrite !(detect_outliers_body_column _ _ _ _ Hcol).
  split; vm_compute; reflexivity.
Qed.

Lemma detect_outliers_1_2_3_4_100_witness :
  detect_outliers Fixtures.fs_tables "outlier.csv" "x" "iqr"
  = Return (PDict [field "method" (PStr "IQR");
                   field "lower_bound" (PFloat (-1));
                   field "upper_bound" (PFloat 7);
                   field "outliers" (PList [PFloat 100]);
                   field "outlier_count" (PInt 1);
                   field "outlier_percentage" (PFloat 20)]).
Proof.
  exact (proj1 (detect_outliers_1_2_3_4_100 Fixtures.fs_tables "outlier.csv"
                  Fixtures.table_outlier "x" eq_refl eq_refl)).
Defined.

(** C10: when the column exists and holds no value, both methods divide
    the number of outliers by the number of values, which is zero; the
    call raises [ZeroDivisionError] and returns no payload. *)
Theorem detect_outliers_empty_sample fs file_name df column s method :
  get_data_summary fs file_name = StatusSuccess df ->
  get_col df column = Some s ->
  dropna s = [] ->
  method = "iqr" \/ method = "zscore" ->
  detect_outliers fs file_name column method = Raise ZeroDivisionError.
Proof.
  intros Hload Hcol Hempty Hmethod. unfold detect_outliers, with_table.
  rewrite Hload, (detect_outliers_body_column _ _ _ _ Hcol), Hempty.
  destruct Hmethod as [-> | ->]; reflexivity.
Qed.

Lemma detect_outliers_empty_sample_witness :
  detect_outliers Fixtures.fs_tables "blank.csv" "x" "iqr"
  = Raise ZeroDivisionError /\
  detect_outliers Fixtures.fs_tables "blank.csv" "x" "zscore"
  = Raise ZeroDivisionError.
Proof.
  split.
  - exact (detect_outliers_empty_sample Fixtures.fs_tables "blank.csv"
             Fixtures.table_blank "x" [Num nan; Num nan] "iqr"
             eq_refl eq_refl eq_refl (or_introl eq_refl)).
  - exact (detect_outliers_empty_sample Fixtures.fs_tables "blank.csv"
             Fixtures.table_blank "x" [Num nan; Num nan] "zscore"
             eq_refl eq_refl eq_refl (or_intror eq_refl)).
Defined.

(** C1 (the code departs from it): on a column with at least one value
    [analyze_distribution] returns a payload with skewness, kurtosis and a
    normality test that is present exactly from 8 values on and normal
    exactly when the p-value exceeds 0.05, but the ["stats"] entry is the
    module [scipy.stats], which [from scipy import stats] has bound to the
    name [stats] after the dictionary of descriptive statistics was. *)
Theorem analyze_distribution_stats_entry lib fs file_name df column s xs :
  get_data_summary fs file_name = StatusSuccess df ->
  get_col df column = Some s ->
  dropna s <> [] ->
  Series.as_floats (dropna s) = Return xs ->
  analyze_distribution lib fs file_name column
  = Return (PDict [
      field "stats" (PModule "scipy.stats");
      field "skewness" (PFloat (skew lib xs));
      field "kurtosis" (PFloat (kurtosis lib xs));
      field "distribution_type"
            (PStr (if ((8 <=? len (dropna s))%Z
                       && PrimFloat.ltb 0.05 (normaltest lib xs))%bool
                   then "正态分布" else "非正态分布"));
      field "normality_test"
            (if (8 <=? len (dropna s))%Z
             then PDict [field "p_value" (PFloat (normaltest lib xs));
                         field "is_normal"
                               (PBool (PrimFloat.ltb 0.05 (normaltest lib xs)))]
             else PNone)]).
Proof.
  intros Hload Hcol Hsome Hxs. unfold analyze_distribution, with_table.
  rewrite Hload. unfold analyze_distribution_body, bind, get_state, getitem.
  cbv beta iota. rewrite (get_col_mem _ _ _ Hcol). cbv beta iota delta [negb].
  rewrite Hcol. cbv beta iota.
  assert (Hlen : (len (dropna s) =? 0)%Z = false).
  { apply Z.eqb_neq. unfold len. destruct (dropna s); [done | simpl; lia]. }
  rewrite Hlen. unfold lift. rewrite Hxs. unfold ret, fst.
  destruct (8 <=? len (dropna s))%Z; [|reflexivity].
  simpl. by destruct (PrimFloat.ltb 0.05 (normaltest lib xs)).
Qed.

Lemma analyze_distribution_stats_entry_witness :
  analyze_distribution Plain.lib Fixtures.fs_tables "xy.csv" "y"
  = Return (PDict [
      field "stats" (PModule "scipy.stats");
      field "skewness" (PFloat 0);
      field "kurtosis" (PFloat (-1.5));
      field "distribution_type" (PStr "非正态分布");
      field "normality_test" PNone]).
Proof.
  exact (analyze_distribution_stats_entry Plain.lib Fixtures.fs_tables
           "xy.csv" Fixtures.table_xy "y" [Num 0.5; Num 1.5; Num 2.5]%float
           [0.5; 1.5; 2.5]%float eq_refl eq_refl
           ltac:(discriminate) eq_refl).
Defined.

(** On the table [xy] the entry is the module and not the mapping. *)
Lemma analyze_distribution_stats_not_mapping :
  exists v,
    analyze_distribution Plain.lib Fixtures.fs_tables "xy.csv" "y" = Return v /\
    subscript v "stats" = PModule "scipy.stats" /\
    subscript v "stats" <> descriptive_stats [0.5; 1.5; 2.5]%float.
Proof.
  eexists. split; [vm_compute; reflexivity|].
  split; [reflexivity | discriminate].
Qed.

(** ** Unsupported parameters *)

Lemma eqb_differs a b : a <> b -> String.eqb a b = false.
Proof. intros Hne. by apply String.eqb_neq. Qed.

Lemma detect_outliers_body_unsupported column method df :
  method <> "iqr" -> method <> "zscore" ->
  exists m, detect_outliers_body column method df = (Return (error_payload m), df).
Proof.
  intros Hiqr Hz. unfold detect_outliers_body, bind, get_state, getitem.
  cbv beta iota. destruct (mem column (columns df)) eqn:Hmem; simpl.
  - destruct (mem_col_index _ _ Hmem) as [i Hi].
    unfold get_col. rewrite Hi. simpl.
    rewrite (eqb_differs _ _ Hiqr), (eqb_differs _ _ Hz). by eexists.
  - by eexists.
Qed.

(** C4 (amended): [detect_outliers] with a method other than [iqr] and
    [zscore] returns a failure payload and never raises, and when the table
    loads and has the column the payload names the unsupported method;
    [analyze_seasonality] with a period other than [year], [quarter] and
    [month] returns no payload once the table has loaded: it raises, and
    when the time column is, or has been parsed as, datetime what it raises
    is the [ValueError] for the unsupported period. *)
Theorem unsupported_parameter lib fs file_name :
  (forall column method,
      method <> "iqr" -> method <> "zscore" ->
      exists m, detect_outliers fs file_name column method
                = Return (error_payload m)) /\
  (forall df column method,
      method <> "iqr" -> method <> "zscore" ->
      get_data_summary fs file_name = StatusSuccess df ->
      mem column (columns df) = true ->
      detect_outliers fs file_name column method
      = Return (error_payload (MsgUnsupportedMethod method))) /\
  (forall df time_col value_col period,
      period <> "year" -> period <> "quarter" -> period <> "month" ->
      get_data_summary fs file_name = StatusSuccess df ->
      exists e, analyze_seasonality lib fs file_name time_col value_col period
                = Raise e) /\
  (forall df df' time_col value_col period,
      period <> "year" -> period <> "quarter" -> period <> "month" ->
      get_data_summary fs file_name = StatusSuccess df ->
      parse_time_seasonality lib time_col df = (Return tt, df') ->
      analyze_seasonality lib fs file_name time_col value_col period
      = Raise (ValueError (MsgUnsupportedPeriod period))).
Proof.
  repeat split.
  - intros column method Hiqr Hz. unfold detect_outliers, with_table.
    destruct (get_data_summary fs file_name) as [error|df]; [by eexists|].
    destruct (detect_outliers_body_unsupported column method df Hiqr Hz)
      as [m ->]. by exists m.
  - intros df column method Hiqr Hz Hload Hmem.
    unfold detect_outliers, with_table. rewrite Hload.
    destruct (mem_col_index _ _ Hmem) as [i Hi].
    rewrite (detect_outliers_body_column column method df
               (map (cell_at i) (rows df))).
    + by rewrite (eqb_differs _ _ Hiqr), (eqb_differs _ _ Hz).
    + unfold get_col. by rewrite Hi.
  - intros df time_col value_col period Hy Hq Hm Hload.
    unfold analyze_seasonality, with_table. rewrite Hload.
    unfold analyze_seasonality_body, bind at 1.
    destruct (parse_time_seasonality lib time_col df) as [[[]|e] df'];
      [|by exists e].
    unfold bind at 1, extract_period.
    rewrite (eqb_differs _ _ Hy), (eqb_differs _ _ Hq), (eqb_differs _ _ Hm).
    by eexists.
  - intros df df' time_col value_col period Hy Hq Hm Hload Hparse.
    unfold analyze_seasonality, with_table. rewrite Hload.
    unfold analyze_seasonality_body, bind at 1. rewrite Hparse.
    unfold bind at 1, extract_period.
    by rewrite (eqb_differs _ _ Hy), (eqb_differs _ _ Hq), (eqb_differs _ _ Hm).
Qed.

Lemma unsupported_parameter_witness :
  detect_outliers Fixtures.fs_tables "xy.csv" "x" "mad"
  = Return (error_payload (MsgUnsupportedMethod "mad")) /\
  analyze_seasonality Plain.lib Fixtures.fs_tables "sales.csv" "date" "v" "week"
  = Raise (ValueError (MsgUnsupportedPeriod "week")).
Proof.
  destruct (unsupported_parameter Plain.lib Fixtures.fs_tables "xy.csv")
    as (_ & Hmethod & _).
  destruct (unsupported_parameter Plain.lib Fixtures.fs_tables "sales.csv")
    as (_ & _ & _ & Hperiod).
  split.
  - apply (Hmethod Fixtures.table_xy "x" "mad");
      [discriminate | discriminate | reflexivity | reflexivity].
  - apply (Hperiod Fixtures.table_sales
             (snd (parse_time_seasonality Plain.lib "date" Fixtures.table_sales))
             "date" "v" "week");
      [discriminate | discriminate | discriminate | reflexivity | reflexivity].
Defined.

(** C4 as stated fails: with the period [week] the caller of
    [analyze_seasonality] gets an exception, not a failure payload. *)
Lemma analyze_seasonality_raises :
  analyze_seasonality Plain.lib Fixtures.fs_tables "sales.csv" "date" "v" "week"
  = Raise (ValueError (MsgUnsupportedPeriod "week")) /\
  forall payload,
    analyze_seasonality Plain.lib Fixtures.fs_tables "sales.csv" "date" "v" "week"
    <> Return payload.
Proof. split; [reflexivity | discriminate]. Qed.

(** ** What the analyses do to the table *)

Lemma reparsed_same_but time_col df df' :
  reparsed time_col df df' ->
  same_but time_col df df' /\
  (col_dtype df time_col = Some DtDatetime -> df' = df) /\
  (well_formed df -> well_formed df').
Proof.
  intros [-> | (i & parsed & Hi & Hdt & ->)].
  - repeat split; auto.
  - repeat split.
    + by apply (set_col_columns_present _ _ _ _ i).
    + apply set_col_rows.
    + intros c' Hne. by apply (set_col_other_present _ _ _ _ i).
    + intros Hdatetime. by destruct Hdt.
    + apply set_col_well_formed.
Qed.

Lemma convert_time_outcome lib time_col fmt df :
  (exists e, convert_time lib time_col fmt df = (Raise e, df)) \/
  (exists i parsed,
      col_index time_col (columns df) = Some i /\
      convert_time lib time_col fmt df
      = (Return tt, set_col df time_col DtDatetime parsed)).
Proof.
  unfold convert_time, bind, getitem, get_col, lift, setitem.
  destruct (col_index time_col (columns df)) as [i|]; simpl; [|left; by eexists].
  destruct (to_datetime lib fmt _) as [parsed|e]; [|left; by eexists].
  right. by exists i, parsed.
Qed.

Lemma try_convert_reparsed lib time_col fmt handler df :
  col_dtype df time_col <> Some DtDatetime ->
  reparsed time_col df (snd (handler df)) ->
  reparsed time_col df
           (snd (try_except (convert_time lib time_col fmt) handler df)).
Proof.
  intros Hdt Hhandler. unfold try_except.
  destruct (convert_time_outcome lib time_col fmt df)
    as [[e ->] | (i & parsed & Hi & ->)]; [done|].
  right. by exists i, parsed.
Qed.

Lemma convert_reparsed lib time_col fmt df :
  col_dtype df time_col <> Some DtDatetime ->
  reparsed time_col df (snd (convert_time lib time_col fmt df)).
Proof.
  intros Hdt.
  destruct (convert_time_outcome lib time_col fmt df)
    as [[e ->] | (i & parsed & Hi & ->)]; [by left|].
  right. by exists i, parsed.
Qed.

Lemma parse_time_trend_reparsed lib time_col df :
  reparsed time_col df (snd (parse_time_trend lib time_col df)).
Proof.
  unfold parse_time_trend, bind, is_datetime.
  destruct (col_dtype df time_col) as [dt|] eqn:Hdt; [|by left].
  assert (Hother : dt <> DtDatetime ->
            reparsed time_col df
              (snd (try_except (convert_time lib time_col FmtSlash)
                (try_except (convert_time lib time_col FmtDash)
                  (try_except (convert_time lib time_col FmtISO8601)
                    (convert_time lib time_col FmtMixed))) df))).
  { intros Hne. assert (col_dtype df time_col <> Some DtDatetime)
      by (rewrite Hdt; congruence).
    repeat apply try_convert_reparsed; try done. by apply convert_reparsed. }
  destruct dt; try (apply Hother; discriminate). by left.
Qed.

Lemma parse_time_seasonality_reparsed lib time_col df :
  reparsed time_col df (snd (parse_time_seasonality lib time_col df)).
Proof.
  unfold parse_time_seasonality, bind, is_datetime.
  destruct (col_dtype df time_col) as [dt|] eqn:Hdt; [|by left].
  assert (Hother : dt <> DtDatetime ->
            reparsed time_col df
              (snd (try_except (convert_time lib time_col FmtSlash)
                (try_except (convert_time lib time_col FmtDash)
                  (try_except (convert_time lib time_col FmtInfer)
                    (raise (ValueError (MsgDateFormat time_col))))) df))).
  { intros Hne. assert (col_dtype df time_col <> Some DtDatetime)
      by (rewrite Hdt; congruence).
    repeat apply try_convert_reparsed; try done. by left. }
  destruct dt; try (apply Hother; discriminate). by left.
Qed.

(** Running a computation that only reads after [m] leaves the state [m]
    left. *)
Lemma snd_bind_pure {A B} (m : T A) (k : A -> T B) df :
  (forall a df1, snd (k a df1) = df1) ->
  snd (bind m k df) = snd (m df).
Proof.
  intros Hk. unfold bind. destruct (m df) as [[a|e] df1]; simpl; [|done].
  apply Hk.
Qed.

Lemma snd_lift {A} (r : result A) (df : DataFrame) : snd (lift r df) = df.
Proof. done. Qed.

Lemma snd_getitem c df : snd (getitem c df) = df.
Proof. unfold getitem. by destruct (get_col df c). Qed.

Lemma analyze_trend_body_state lib time_col value_cols method df :
  snd (analyze_trend_body lib time_col value_cols method df)
  = snd (parse_time_trend lib time_col df).
Proof.
  unfold analyze_trend_body. apply snd_bind_pure. intros _ df1.
  unfold bind, get_state, lift. by destruct (trend_loop _ _ _ _ _ _).
Qed.

Lemma period_data_state lib time_col value_col range df :
  snd (period_data lib time_col value_col range df) = df.
Proof.
  unfold period_data, bind, getitem, lift.
  destruct (get_col df time_col); [|done].
  destruct (timestamp_of_string lib (fst range)); [|done].
  destruct (timestamp_of_string lib (snd range)); [|done].
  by destruct (get_col df value_col).
Qed.

Lemma compare_periods_body_state lib time_col value_col period1 period2 df :
  reparsed time_col df
           (snd (compare_periods_body lib time_col value_col period1 period2 df)).
Proof.
  unfold compare_periods_body, bind at 1, is_datetime.
  destruct (col_dtype df time_col) as [dt|] eqn:Hdt; [|by left].
  assert (Hrest : forall df1,
    snd ((do data1 <- period_data lib time_col value_col period1;
          do data2 <- period_data lib time_col value_col period2;
          if ((len data1 =? 0)%Z || (len data2 =? 0)%Z)%bool
          then ret (error_payload MsgNoDataInPeriods)
          else
            do xs1 <- lift (Series.as_floats data1);
            do xs2 <- lift (Series.as_floats data2);
            ret (PDict [
              field "period1" (PDict [field "range" (range_tuple period1);
                                      field "stats" (period_stats xs1)]);
              field "period2" (PDict [field "range" (range_tuple period2);
                                      field "stats" (period_stats xs2)]);
              field "mean_change_rate"
                (if negb (PrimFloat.eqb (Series.mean xs1) 0)
                 then PFloat ((Series.mean xs2 - Series.mean xs1)
                              / Series.mean xs1)%float
                 else PInt 0);
              field "t_test"
                (if ((2 <? len data1)%Z && (2 <? len data2)%Z)%bool then
                   let '(t_stat, p_value) := ttest_ind lib xs1 xs2 in
                   PDict [field "t_statistic" (PFloat t_stat);
                          field "p_value" (PFloat p_value);
                          field "significant_difference"
                                (PBool (PrimFloat.ltb p_value 0.05))]
                 else PNone)])) df1) = df1).
  { intros df1. unfold bind at 1.
    pose proof (period_data_state lib time_col value_col period1 df1) as H1.
    destruct (period_data lib time_col value_col period1 df1) as [[d1|e] s1];
      simpl in H1; subst s1; [|done].
    unfold bind at 1.
    pose proof (period_data_state lib time_col value_col period2 df1) as H2.
    destruct (period_data lib time_col value_col period2 df1) as [[d2|e] s2];
      simpl in H2; subst s2; [|done].
    destruct ((len d1 =? 0)%Z || (len d2 =? 0)%Z)%bool; [done|].
    unfold bind, lift.
    destruct (Series.as_floats d1); [|done].
    by destruct (Series.as_floats d2). }
  assert (Hne : dt <> DtDatetime ->
                col_dtype df time_col <> Some DtDatetime)
    by (rewrite Hdt; congruence).
  destruct dt; cbv beta iota.
  1-3: unfold bind at 1;
       destruct (convert_time_outcome lib time_col FmtInfer df)
         as [[e ->] | (i & parsed & Hi & ->)]; [by left|];
       rewrite Hrest; right; exists i, parsed;
       (split; [done|]); (split; [apply Hne; discriminate | done]).
  unfold bind at 1, ret. rewrite Hrest. by left.
Qed.

Lemma extract_period_outcome time_col period df :
  (exists e, extract_period time_col period df = (Raise e, df)) \/
  (exists dt values,
      extract_period time_col period df
      = (Return tt, set_col df "period" dt values)).
Proof.
  assert (Hset : forall fld,
    (exists e, set_period time_col fld df = (Raise e, df)) \/
    (exists dt values,
        set_period time_col fld df = (Return tt, set_col df "period" dt values))).
  { intros fld. unfold set_period, bind, getitem, setitem.
    destruct (get_col df time_col) as [s|]; [|left; by eexists].
    right. by eexists _, _. }
  unfold extract_period.
  destruct (String.eqb period "year"); [apply Hset|].
  destruct (String.eqb period "quarter"); [apply Hset|].
  destruct (String.eqb period "month"); [apply Hset|].
  left. by eexists.
Qed.

Lemma analyze_seasonality_body_state lib time_col value_col period df :
  exists df1,
    reparsed time_col df df1 /\
    (snd (analyze_seasonality_body lib time_col value_col period df) = df1 \/
     exists dt values,
       snd (analyze_seasonality_body lib time_col value_col period df)
       = set_col df1 "period" dt values).
Proof.
  exists (snd (parse_time_seasonality lib time_col df)).
  split; [apply parse_time_seasonality_reparsed|].
  remember (snd (analyze_seasonality_body lib time_col value_col period df))
    as final eqn:Hfinal.
  unfold analyze_seasonality_body, bind at 1 in Hfinal.
  destruct (parse_time_seasonality lib time_col df) as [[[]|e] df1];
    simpl in *; [|by left].
  assert (Hrest : forall df2 (k : list cell -> list cell -> T pyval),
    (forall keys values, snd (k keys values df2) = df2) ->
    snd ((do keys <- getitem "period";
          do values <- getitem value_col;
          k keys values) df2) = df2).
  { intros df2 k Hk. unfold bind, getitem.
    destruct (get_col df2 "period"); [|done].
    destruct (get_col df2 value_col); [|done]. apply Hk. }
  unfold bind at 1 in Hfinal.
  destruct (extract_period_outcome time_col period df1)
    as [[e He] | (dt & values & Hset)]; rewrite ?He, ?Hset in Hfinal;
    [by left|].
  right. exists dt, values. rewrite Hfinal. apply Hrest. intros keys vals.
  unfold bind, lift. by destruct (map_result _ _).
Qed.

Lemma analyze_distribution_body_state lib column df :
  snd (analyze_distribution_body lib column df) = df.
Proof.
  unfold analyze_distribution_body, bind, get_state, getitem, lift, ret.
  destruct (mem column (columns df)); simpl; [|done].
  destruct (get_col df column) as [s|]; [|done].
  destruct (len (dropna s) =? 0)%Z; [done|].
  by destruct (Series.as_floats (dropna s)).
Qed.

Lemma generate_correlation_matrix_body_state lib cols df :
  snd (generate_correlation_matrix_body lib cols df) = df.
Proof.
  unfold generate_correlation_matrix_body, bind, get_state, lift, ret.
  destruct (List.filter _ _); [|done].
  by destruct (map_result _ _).
Qed.

Lemma detect_outliers_body_state column method df :
  snd (detect_outliers_body column method df) = df.
Proof.
  unfold detect_outliers_body, bind, get_state, getitem, lift, ret.
  destruct (mem column (columns df)); simpl; [|done].
  destruct (get_col df column) as [s|]; [|done].
  destruct (String.eqb method "iqr").
  - destruct (Series.as_floats (dropna s)); [|done]. by destruct (truediv _ _).
  - destruct (String.eqb method "zscore"); [|done].
    destruct (Series.as_floats (dropna s)); [|done]. by destruct (truediv _ _).
Qed.

(** C9 (amended): [analyze_distribution], [generate_correlation_matrix]
    and [detect_outliers] leave the table they work on as it was.
    [analyze_trend] and [compare_periods] keep its columns and its number
    of rows and the cells of every column but the time column, which they
    overwrite with parsed timestamps unless it already is of a datetime
    type.  [analyze_seasonality] keeps the number of rows and the cells of
    the columns other than the time column and [period]; it may add a
    column [period]. *)
Theorem analyses_and_the_table lib df :
  (forall column, snd (analyze_distribution_body lib column df) = df) /\
  (forall cols, snd (generate_correlation_matrix_body lib cols df) = df) /\
  (forall column method, snd (detect_outliers_body column method df) = df) /\
  (forall time_col value_cols method df',
      df' = snd (analyze_trend_body lib time_col value_cols method df) ->
      same_but time_col df df' /\
      (col_dtype df time_col = Some DtDatetime -> df' = df)) /\
  (forall time_col value_col period1 period2 df',
      df' = snd (compare_periods_body lib time_col value_col period1 period2 df) ->
      same_but time_col df df' /\
      (col_dtype df time_col = Some DtDatetime -> df' = df)) /\
  (forall time_col value_col period df',
      df' = snd (analyze_seasonality_body lib time_col value_col period df) ->
      length (rows df') = length (rows df) /\
      (columns df' = columns df \/
       columns df' = (columns df ++ ["period"])%list) /\
      (well_formed df ->
       forall c, c <> time_col -> c <> "period" ->
                 get_col df' c = get_col df c)).
Proof.
  split; [intros; apply analyze_distribution_body_state|].
  split; [intros; apply generate_correlation_matrix_body_state|].
  split; [intros; apply detect_outliers_body_state|].
  split; [|split].
  - intros time_col value_cols method df' ->.
    rewrite analyze_trend_body_state.
    destruct (reparsed_same_but _ _ _ (parse_time_trend_reparsed lib time_col df))
      as (Hsame & Hdt & _). done.
  - intros time_col value_col period1 period2 df' ->.
    destruct (reparsed_same_but _ _ _
                (compare_periods_body_state lib time_col value_col
                   period1 period2 df)) as (Hsame & Hdt & _). done.
  - intros time_col value_col period df' ->.
    destruct (analyze_seasonality_body_state lib time_col value_col period df)
      as (df1 & Hre & Hfinal).
    destruct (reparsed_same_but _ _ _ Hre) as ((Hcols & Hrows & Hcells) & _ & Hwf).
    destruct Hfinal as [-> | (dt & values & ->)].
    + split; [done|]. split; [by left|]. intros _ c Hc _. by apply Hcells.
    + split; [by rewrite set_col_rows|]. split.
      * destruct (col_index "period" (columns df1)) as [i|] eqn:Hi.
        -- left. by rewrite (set_col_columns_present _ _ _ _ _ Hi).
        -- right. by rewrite (set_col_columns_absent _ _ _ _ Hi), Hcols.
      * intros Hdf c Hc Hp.
        rewrite set_col_other by auto. by apply Hcells.
Qed.

Lemma analyses_and_the_table_witness :
  get_col (snd (analyze_seasonality_body Plain.lib "date" "v" "month"
                  Fixtures.table_sales)) "v"
  = get_col Fixtures.table_sales "v".
Proof.
  destruct (analyses_and_the_table Plain.lib Fixtures.table_sales)
    as (_ & _ & _ & _ & _ & Hseason).
  destruct (Hseason "date" "v" "month" _ eq_refl) as (_ & _ & Hcells).
  apply Hcells; [repeat constructor | discriminate | discriminate].
Defined.

(** C9 as stated fails: after [analyze_seasonality] the table it worked on
    has a third column, and its dates are timestamps, no longer text. *)
Lemma analyze_seasonality_changes_table :
  let df' := snd (analyze_seasonality_body Plain.lib "date" "v" "month"
                    Fixtures.table_sales) in
  shape Fixtures.table_sales = (4, 2)%nat /\
  shape df' = (4, 3)%nat /\
  columns df' = ["date"; "v"; "period"] /\
  get_col Fixtures.table_sales "date"
  = Some [Str "2023-01-15"; Str "2023-02-15"; Str "2024-01-15"; Str "2024-02-15"] /\
  get_col df' "date"
  = Some [Ts 1673740800000000000; Ts 1676419200000000000;
          Ts 1705276800000000000; Ts 1707955200000000000].
Proof. vm_compute. repeat split. Qed.

(* ===================================================================== *)
(** * Further properties *)
(* ===================================================================== *)

(** ** Failing loads *)

Local Opaque read_csv_any.



Local Transparent read_csv_any.

(** The encoding loop when no encoding decodes the file. *)
Lemma read_csv_any_undecodable fs file_path kw encodings s :
  (forall enc, fs_read_csv fs file_path enc kw = Raise UnicodeDecodeError) ->
  read_csv_any fs file_path kw encodings s
  = (Return None, add_log (map (IoReadCsv file_path) encodings) s).
Proof.
  intros Hbad. revert s.
  induction encodings as [|enc rest IH]; intros s.
  - simpl. unfold ret, add_log.
    destruct s; simpl. by rewrite app_nil_r.
  - simpl. rewrite Hbad, IH. by rewrite add_log_add_log.
Qed.

Local Opaque read_csv_any.

(** X2: when a CSV file exists and none of the three encodings decodes
    it, the load raises [ValueError] for the file after having read it
    three times, as UTF-8, GBK and GB2312 in that order, and caches
    nothing. *)
Theorem load_data_undecodable fs file_name kw s :
  let actual := fst (resolved fs (file_mapping s) file_name) in
  data_cache s !! file_name = None ->
  fs_exists fs actual = true ->
  (endswith file_name ".csv" || endswith actual ".csv")%bool = true ->
  (forall enc, fs_read_csv fs actual enc kw = Raise UnicodeDecodeError) ->
  load_data fs file_name kw s
  = (Raise (ValueError (MsgNoEncoding actual)),
     add_log (snd (resolved fs (file_mapping s) file_name)
              ++ [IoExists actual; IoReadCsv actual UTF8;
                  IoReadCsv actual GBK; IoReadCsv actual GB2312]) s).
Proof.
  intros actual Hmiss Hthere Hcsv Hbad. unfold load_data, bind.
  rewrite resolve_runs. fold actual.
  unfold get_state; simpl. rewrite Hmiss. unfold path_exists; simpl.
  rewrite Hthere, Hcsv. simpl.
  rewrite (read_csv_any_undecodable _ _ _ _ _ Hbad). unfold raise.
  by rewrite !add_log_add_log.
Qed.

Lemma load_data_undecodable_witness :
  load_data Samples.fs_binary "blob.csv" [] Fixtures.fresh
  = (Raise (ValueError (MsgNoEncoding "blob.csv")),
     add_log [IoExists "blob.csv"; IoExists "blob.csv";
              IoReadCsv "blob.csv" UTF8; IoReadCsv "blob.csv" GBK;
              IoReadCsv "blob.csv" GB2312] Fixtures.fresh).
Proof.
  exact (load_data_undecodable Samples.fs_binary "blob.csv" [] Fixtures.fresh
           eq_refl eq_refl eq_refl (fun enc => eq_refl)).
Defined.

(** X3: an existing file whose logical and resolved names end in none of
    [.csv], [.xlsx], [.xls] is not read: the load raises [ValueError]
    naming the logical name and caches nothing. *)
Theorem load_data_unsupported_format fs file_name kw s :
  let actual := fst (resolved fs (file_mapping s) file_name) in
  data_cache s !! file_name = None ->
  fs_exists fs actual = true ->
  (endswith file_name ".csv" || endswith actual ".csv")%bool = false ->
  (endswith file_name ".xlsx" || endswith file_name ".xls"
   || endswith actual ".xlsx" || endswith actual ".xls")%bool = false ->
  exists evs,
    load_data fs file_name kw s
    = (Raise (ValueError (MsgUnsupportedFormat file_name)), add_log evs s) /\
    no_reads evs.
Proof.
  intros actual Hmiss Hthere Hcsv Hxls. unfold load_data, bind.
  rewrite resolve_runs. fold actual.
  unfold get_state; simpl. rewrite Hmiss. unfold path_exists; simpl.
  rewrite Hthere, Hcsv, Hxls. simpl. unfold raise.
  rewrite add_log_add_log. eexists. split; [reflexivity|].
  unfold no_reads. rewrite forallb_app, resolved_no_read. reflexivity.
Qed.

Lemma load_data_unsupported_format_witness :
  exists evs,
    load_data Fixtures.fs_sales "notes.txt" [] Fixtures.fresh
    = (Raise (ValueError (MsgUnsupportedFormat "notes.txt")),
       add_log evs Fixtures.fresh) /\
    no_reads evs.
Proof.
  exact (load_data_unsupported_format Fixtures.fs_sales "notes.txt" []
           Fixtures.fresh eq_refl eq_refl eq_refl eq_refl).
Defined.

(** ** What a load leaves in place *)

Lemma add_log_fields evs s :
  file_mapping (add_log evs s) = file_mapping s /\
  data_cache (add_log evs s) = data_cache s /\
  heap (add_log evs s) = heap s /\
  io_log (add_log evs s) = (io_log s ++ evs)%list.
Proof. done. Qed.

(** A load of a name that is not cached, when it raises, has changed the
    access log only. *)
Lemma load_data_miss_raise fs file_name kw s e s1 :
  data_cache s !! file_name = None ->
  load_data fs file_name kw s = (Raise e, s1) ->
  exists evs, s1 = add_log evs s.
Proof.
  intros Hmiss. unfold load_data, bind. rewrite resolve_runs.
  set (actual := fst (resolved fs (file_mapping s) file_name)).
  set (evs0 := snd (resolved fs (file_mapping s) file_name)).
  unfold get_state; simpl. rewrite Hmiss. unfold path_exists; simpl.
  rewrite add_log_add_log.
  destruct (fs_exists fs actual); simpl;
    [|unfold raise; intros [= <- <-]; by eexists].
  destruct (endswith file_name ".csv" || endswith actual ".csv").
  - destruct (read_csv_any fs actual kw [UTF8; GBK; GB2312] _)
      as [[[df|]|e'] s2] eqn:Hread; simpl.
    + unfold new_object, cache_store, ret; simpl. discriminate.
    + destruct (read_csv_any_log _ _ _ _ _ _ _ Hread) as (evs & -> & _).
      unfold raise. intros [= <- <-]. rewrite add_log_add_log. by eexists.
    + destruct (read_csv_any_log _ _ _ _ _ _ _ Hread) as (evs & -> & _).
      intros [= <- <-]. rewrite add_log_add_log. by eexists.
  - destruct (endswith file_name ".xlsx" || endswith file_name ".xls"
              || endswith actual ".xlsx" || endswith actual ".xls"); simpl.
    + unfold read_excel.
      destruct (fs_read_excel fs actual kw) as [df|e']; simpl.
      * unfold new_object, cache_store, ret; simpl. discriminate.
      * intros [= <- <-]. rewrite add_log_add_log. by eexists.
    + unfold raise. intros [= <- <-]. by eexists.
Qed.



Lemma load_data_keeps_valid fs file_name kw s o s1 :
  cache_valid s ->
  load_data fs file_name kw s = (o, s1) ->
  cache_valid s1.
Proof.
  intros Hvalid Hload.
  destruct (data_cache s !! file_name) as [r|] eqn:Hc.
  - rewrite (load_data_hit _ _ _ _ _ Hc) in Hload.
    injection Hload as <- <-. exact Hvalid.
  - destruct o as [r|e].
    + destruct (load_data_miss _ _ _ _ _ _ Hc Hload) as (df & evs & -> & -> & _).
      intros name r. simpl. rewrite length_app. simpl.
      destruct (decide (file_name = name)) as [->|Hne].
      * rewrite lookup_insert_eq. intros [= <-]. lia.
      * rewrite lookup_insert_ne by done. intros Hr.
        specialize (Hvalid name r Hr). lia.
    + destruct (load_data_miss_raise _ _ _ _ _ _ Hc Hload) as [evs ->].
      exact Hvalid.
Qed.

(** X5: the references of the cache stay valid: when every cached
    reference points to an object before a load, so does every one after
    it, whatever the outcome. *)
Theorem load_data_cache_valid fs file_name kw s o s1 :
  cache_valid s ->
  load_data fs file_name kw s = (o, s1) ->
  cache_valid s1.
Proof. apply load_data_keeps_valid. Qed.

Lemma load_data_cache_valid_witness :
  cache_valid (snd (load_data Fixtures.fs_gbk "a.csv" [] Fixtures.warm)).
Proof.
  apply (load_data_cache_valid Fixtures.fs_gbk "a.csv" [] Fixtures.warm
           (fst (load_data Fixtures.fs_gbk "a.csv" [] Fixtures.warm))).
  - intros name r. unfold Fixtures.warm; simpl.
    destruct (decide (name = "sales")) as [->|Hne].
    + rewrite lookup_singleton_eq. intros [= <-]. simpl. lia.
    + rewrite lookup_singleton_ne by done. discriminate.
  - apply surjective_pairing.
Defined.

(** X6: the cache is keyed by the logical name: two different logical
    names are cached as two objects, also when they resolve to the same
    file, which is then read again for the second name. *)
Theorem load_data_two_names fs name1 name2 kw1 kw2 s r1 s1 r2 s2 :
  cache_valid s ->
  name1 <> name2 ->
  data_cache s !! name2 = None ->
  load_data fs name1 kw1 s = (Return r1, s1) ->
  load_data fs name2 kw2 s1 = (Return r2, s2) ->
  r1 <> r2 /\
  data_cache s2 !! name1 = Some r1 /\
  data_cache s2 !! name2 = Some r2 /\
  heap s2 !! r1 = heap s1 !! r1 /\
  (exists evs, io_log s2 = (io_log s1 ++ evs)%list /\
               (1 <= count_reads evs)%nat).
Proof.
  intros Hvalid Hne Hmiss2 Hload1 Hload2.
  pose proof (load_data_keeps_valid _ _ _ _ _ _ Hvalid Hload1) as Hvalid1.
  assert (Hc1 : data_cache s1 !! name1 = Some r1 /\
                data_cache s1 !! name2 = None).
  { destruct (data_cache s !! name1) as [r|] eqn:Hc.
    - rewrite (load_data_hit _ _ _ _ _ Hc) in Hload1.
      by injection Hload1 as <- <-.
    - destruct (load_data_miss _ _ _ _ _ _ Hc Hload1) as (df & evs & -> & _).
      simpl. split; [apply lookup_insert_eq|]. by rewrite lookup_insert_ne. }
  destruct Hc1 as [Hc1 Hmiss].
  destruct (load_data_miss _ _ _ _ _ _ Hmiss Hload2)
    as (df & evs & -> & -> & Hreads).
  pose proof (Hvalid1 name1 r1 Hc1) as Hlt. simpl.
  repeat split.
  - lia.
  - by rewrite lookup_insert_ne.
  - by rewrite lookup_insert_eq.
  - by rewrite lookup_app_l.
  - exists evs. split; [done | lia].
Qed.

Lemma load_data_two_names_witness :
  let s1 := snd (load_data Fixtures.fs_gbk "sales" [] Samples.aliased) in
  let s2 := snd (load_data Fixtures.fs_gbk "a.csv" [] s1) in
  data_cache s2 !! "sales" = Some 0%nat /\
  data_cache s2 !! "a.csv" = Some 1%nat.
Proof.
  intros s1 s2.
  destruct (load_data_two_names Fixtures.fs_gbk "sales" "a.csv" [] []
              Samples.aliased 0%nat s1 1%nat s2) as (_ & H1 & H2 & _).
  - intros name r. unfold Samples.aliased; simpl.
    rewrite lookup_empty. discriminate.
  - discriminate.
  - reflexivity.
  - reflexivity.
  - reflexivity.
  - split; [exact H1 | exact H2].
Defined.

(** ** The encoding loop *)

Local Transparent read_csv_any.

(** X7: the table a CSV load yields is the reading under the first of
    the given encodings that does not fail with [UnicodeDecodeError]; the
    encodings before it have each been tried once, those after it not at
    all. *)
Theorem read_csv_any_first_decodable fs file_path kw encodings s df s1 :
  read_csv_any fs file_path kw encodings s = (Return (Some df), s1) ->
  exists before enc after,
    encodings = (before ++ enc :: after)%list /\
    Forall (fun e => fs_read_csv fs file_path e kw = Raise UnicodeDecodeError)
           before /\
    fs_read_csv fs file_path enc kw = Return df /\
    s1 = add_log (map (IoReadCsv file_path) (before ++ [enc])) s.
Proof.
  revert s. induction encodings as [|e rest IH]; intros s; simpl.
  - discriminate.
  - destruct (fs_read_csv fs file_path e kw) as [df'|ex] eqn:Hread.
    + intros [= <- <-]. exists [], e, rest. repeat split; auto.
    + destruct ex; try discriminate.
      intros Hrest. destruct (IH _ Hrest) as (before & enc & after & -> & Hall & Hok & ->).
      exists (e :: before), enc, after. repeat split; auto.
      rewrite add_log_add_log. reflexivity.
Qed.

Lemma read_csv_any_first_decodable_witness :
  exists before after,
    [UTF8; GBK; GB2312] = (before ++ GBK :: after)%list /\
    Forall (fun e => fs_read_csv Fixtures.fs_gbk "a.csv" e []
                     = Raise UnicodeDecodeError) before.
Proof.
  destruct (read_csv_any_first_decodable Fixtures.fs_gbk "a.csv" []
              [UTF8; GBK; GB2312] Fixtures.fresh Fixtures.table_xy
              _ eq_refl)
    as (before & enc & after & Hsplit & Hall & Hok & _).
  exists before, after. split; [|exact Hall].
  destruct before as [|b1 [|b2 [|b3 before]]]; simpl in Hsplit.
  - injection Hsplit as <- _. vm_compute in Hok. discriminate Hok.
  - by injection Hsplit as <- <- <-.
  - injection Hsplit as <- <- <- <-. inversion Hall as [|? ? _ Hgbk].
    inversion Hgbk as [|? ? Hbad _]. vm_compute in Hbad. discriminate Hbad.
  - destruct before; discriminate Hsplit.
Defined.

(** ** Listing the files *)

Lemma mem_filter x (p : string -> bool) l :
  mem x (List.filter p l) = (p x && mem x l)%bool.
Proof.
  unfold mem. induction l as [|y l IH]; simpl; [by rewrite andb_false_r|].
  destruct (p y) eqn:Hy; simpl; rewrite IH.
  - destruct (String.eqb x y) eqn:Heq; simpl; [|done].
    apply String.eqb_eq in Heq. subst y. by rewrite Hy.
  - destruct (String.eqb x y) eqn:Heq; simpl; [|done].
    apply String.eqb_eq in Heq. subst y. by rewrite Hy.
Qed.

(** X8: [list_available_files] reports an alias as existing exactly when
    its actual file is listed in the data root and its name ends in
    [.csv]; an alias for a workbook is reported as not existing even when
    the workbook is there.  The call scans the data root once and changes
    nothing. *)
Theorem list_available_files_exists fs s name entry :
  file_mapping s !! name = Some entry ->
  exists files mapped,
    list_available_files fs s
    = (Return (files, mapped), add_log [IoGlob "*.csv"] s) /\
    files = List.filter (fun f => endswith f ".csv") (fs_listdir fs) /\
    mapped !! name
    = Some {| mf_actual_file := actual_file entry;
              mf_exists := (endswith (actual_file entry) ".csv"
                            && mem (actual_file entry) (fs_listdir fs))%bool;
              mf_description := default "" (description entry) |}.
Proof.
  intros Hentry. eexists _, _. split; [reflexivity|]. split; [reflexivity|].
  simpl. rewrite lookup_fmap, Hentry. simpl. by rewrite mem_filter.
Qed.

Lemma list_available_files_exists_witness :
  exists files mapped,
    list_available_files Fixtures.fs_workbook Samples.workbook_alias
    = (Return (files, mapped),
       add_log [IoGlob "*.csv"] Samples.workbook_alias) /\
    mf_exists <$> mapped !! "sales" = Some false /\
    fs_exists Fixtures.fs_workbook "Sales_2020.xlsx" = true.
Proof.
  destruct (list_available_files_exists Fixtures.fs_workbook
              Samples.workbook_alias "sales"
              {| actual_file := "Sales_2020.xlsx"; description := None |}
              eq_refl) as (files & mapped & Hrun & _ & Hentry).
  exists files, mapped. split; [exact Hrun|]. split; [|reflexivity].
  rewrite Hentry. reflexivity.
Defined.

(** ** The loader without alias table *)

(** X9: for a name that is not an alias, exists in the data root and
    does not fail to decode as UTF-8, [DataLoader.load_data] and
    [MappedDataLoader.load_data] have the same outcome and leave the same
    cache and the same objects; and on a cache hit [DataLoader] touches
    nothing at all. *)
Theorem loaders_agree fs file_name kw s :
  file_mapping s !! file_name = None ->
  fs_exists fs file_name = true ->
  fs_read_csv fs file_name UTF8 kw <> Raise UnicodeDecodeError ->
  fst (DataLoader.load_data fs file_name kw s)
  = fst (load_data fs file_name kw s) /\
  data_cache (snd (DataLoader.load_data fs file_name kw s))
  = data_cache (snd (load_data fs file_name kw s)) /\
  heap (snd (DataLoader.load_data fs file_name kw s))
  = heap (snd (load_data fs file_name kw s)) /\
  (is_Some (data_cache s !! file_name) ->
   snd (DataLoader.load_data fs file_name kw s) = s).
Proof.
  intros Hplain Hthere Hutf8.
  unfold DataLoader.load_data, load_data, bind. rewrite resolve_runs.
  unfold resolved. rewrite Hplain, Hthere. unfold get_state; simpl.
  destruct (data_cache s !! file_name) as [r|] eqn:Hc; [done|].
  unfold path_exists; simpl. rewrite Hthere. simpl.
  rewrite orb_diag.
  destruct (endswith file_name ".csv").
  - unfold DataLoader.read_csv_utf8.
    simpl.
    destruct (fs_read_csv fs file_name UTF8 kw) as [df|e]; simpl.
    + unfold new_object, cache_store, ret; simpl. by repeat split.
    + destruct e; by repeat split.
  - replace (endswith file_name ".xlsx" || endswith file_name ".xls"
             || endswith file_name ".xlsx" || endswith file_name ".xls")%bool
      with (endswith file_name ".xlsx" || endswith file_name ".xls")%bool
      by (destruct (endswith file_name ".xlsx"),
                   (endswith file_name ".xls"); reflexivity).
    destruct (endswith file_name ".xlsx" || endswith file_name ".xls")%bool;
      simpl.
    + unfold read_excel. destruct (fs_read_excel fs file_name kw); simpl;
        unfold new_object, cache_store, ret; simpl; by repeat split.
    + by repeat split.
Qed.

Lemma loaders_agree_witness :
  fst (DataLoader.load_data Fixtures.fs_tables "xy.csv" [] Fixtures.fresh)
  = fst (load_data Fixtures.fs_tables "xy.csv" [] Fixtures.fresh).
Proof.
  exact (proj1 (loaders_agree Fixtures.fs_tables "xy.csv" [] Fixtures.fresh
                  eq_refl eq_refl ltac:(discriminate))).
Defined.

(** X10: a file saved in GBK separates the two loaders: [DataLoader]
    raises [UnicodeDecodeError] after one read and caches nothing, where
    the mapped loader goes on to the next encoding.  In general, whenever
    the UTF-8 reading of an existing, uncached CSV file raises, that is
    what [DataLoader.load_data] raises. *)
Theorem data_loader_utf8_only fs file_name kw s e :
  data_cache s !! file_name = None ->
  fs_exists fs file_name = true ->
  endswith file_name ".csv" = true ->
  fs_read_csv fs file_name UTF8 kw = Raise e ->
  DataLoader.load_data fs file_name kw s
  = (Raise e, add_log [IoExists file_name; IoReadCsv file_name UTF8] s).
Proof.
  intros Hmiss Hthere Hcsv Hread.
  unfold DataLoader.load_data, bind, get_state; simpl. rewrite Hmiss.
  unfold path_exists; simpl. rewrite Hthere, Hcsv. simpl.
  unfold DataLoader.read_csv_utf8. rewrite Hread.
  by rewrite add_log_add_log.
Qed.

Lemma data_loader_utf8_only_witness :
  DataLoader.load_data Fixtures.fs_gbk "a.csv" [] Fixtures.fresh
  = (Raise UnicodeDecodeError,
     add_log [IoExists "a.csv"; IoReadCsv "a.csv" UTF8] Fixtures.fresh) /\
  fst (load_data Fixtures.fs_gbk "a.csv" [] Fixtures.fresh) = Return 0%nat.
Proof.
  split; [|reflexivity].
  exact (data_loader_utf8_only Fixtures.fs_gbk "a.csv" [] Fixtures.fresh
           UnicodeDecodeError eq_refl eq_refl eq_refl eq_refl).
Defined.

(** ** Filters and limits *)

Lemma mask_rows_sublist rs mask : sublist (mask_rows rs mask) rs.
Proof.
  revert mask. induction rs as [|r rs IH]; intros [|b mask]; simpl;
    try apply sublist_nil_l.
  destruct b; [apply sublist_skip | apply sublist_cons]; apply IH.
Qed.

Lemma apply_filters_rows df filters df' :
  apply_filters df filters = Return df' ->
  schema df' = schema df /\ sublist (rows df') (rows df).
Proof.
  revert df. induction filters as [|[col cond] rest IH]; intros df; simpl.
  - intros [= <-]. done.
  - destruct (get_col df col) as [s|]; [|apply IH].
    destruct (col_dtype df col) as [dt|]; [|apply IH].
    destruct (condition_mask dt s cond) as [[mask|]|e]; simpl;
      [|apply IH|discriminate].
    intros Hrest. destruct (IH _ Hrest) as [Hschema Hsub].
    split; [done|]. etrans; [exact Hsub|]. apply mask_rows_sublist.
Qed.

Lemma apply_limit_rows df limit :
  schema (apply_limit df limit) = schema df /\
  sublist (rows (apply_limit df limit)) (rows df) /\
  (forall n, limit = Some n -> (0 < n)%Z ->
             length (rows (apply_limit df limit))
             = Nat.min (Z.to_nat n) (length (rows df))).
Proof.
  unfold apply_limit, head. destruct limit as [n|]; [|by repeat split].
  destruct (n =? 0)%Z eqn:Hzero.
  - repeat split; try done. intros m [= <-]. lia.
  - destruct (0 <=? n)%Z eqn:Hpos; simpl.
    + repeat split; try done.
      * apply sublist_take.
      * intros m [= <-] _. apply length_take.
    + repeat split; try done.
      * apply sublist_take.
      * intros m [= <-]. lia.
Qed.

(** X11: a query without projection never adds, changes or reorders
    rows and keeps the columns: the rows returned are a subsequence of the
    rows of the table, and with a limit [n > 0] there are at most [n]. *)
Theorem query_rows_subsequence df filters limit df' :
  query_table df filters None limit = Return df' ->
  schema df' = schema df /\
  sublist (rows df') (rows df) /\
  (forall n, limit = Some n -> (0 < n)%Z ->
             (length (rows df') <= Z.to_nat n)%nat).
Proof.
  unfold query_table. simpl.
  assert (Hfiltered : forall df1,
            match filters with
            | Some fl => apply_filters df fl
            | None => Return df
            end = Return df1 ->
            schema df1 = schema df /\ sublist (rows df1) (rows df)).
  { intros df1. destruct filters as [fl|]; [apply apply_filters_rows|].
    by intros [= <-]. }
  destruct (match filters with
            | Some fl => apply_filters df fl
            | None => Return df
            end) as [df1|e]; simpl; [|discriminate].
  intros [= <-]. destruct (Hfiltered df1 eq_refl) as [Hschema Hsub].
  destruct (apply_limit_rows df1 limit) as (Hs & Hl & Hn).
  split; [congruence|]. split; [by etrans|].
  intros n Hlimit Hpos. rewrite (Hn n Hlimit Hpos). lia.
Qed.

Lemma query_rows_subsequence_witness :
  sublist (rows (mkDF [("x", DtInt); ("y", DtFloat)]
                      [[Num 2; Num 1.5]]%float))
          (rows Fixtures.table_xy).
Proof.
  exact (proj1 (proj2
    (query_rows_subsequence Fixtures.table_xy
       (Some [("x", CondDict [("gt", PInt 1)])]) (Some 1)
       (mkDF [("x", DtInt); ("y", DtFloat)] [[Num 2; Num 1.5]]%float)
       eq_refl))).
Defined.

Lemma get_col_absent df col :
  mem col (columns df) = false -> get_col df col = None.
Proof.
  intros Hno. unfold get_col.
  destruct (col_index col (columns df)) as [i|] eqn:Hi; [|done].
  by rewrite (col_index_mem _ _ _ Hi) in Hno.
Qed.

Lemma condition_mask_unread dt s cond :
  DataLoader.reads_column cond = false ->
  condition_mask dt s cond = Return None.
Proof.
  destruct cond as [d|v]; [|discriminate]. simpl.
  destruct (dict_get "eq" d); [discriminate|].
  destruct (dict_get "ne" d); [discriminate|].
  destruct (dict_get "gt" d); [discriminate|].
  destruct (dict_get "lt" d); [discriminate|].
  destruct (dict_get "gte" d); [discriminate|].
  destruct (dict_get "lte" d); [discriminate|].
  destruct (dict_get "in" d); [discriminate|].
  destruct (dict_get "contains" d); [discriminate|]. done.
Qed.

Lemma apply_filters_skip df col cond rest :
  mem col (columns df) = false \/ DataLoader.reads_column cond = false ->
  apply_filters df ((col, cond) :: rest) = apply_filters df rest.
Proof.
  intros [Habsent | Hunread]; simpl.
  - by rewrite (get_col_absent _ _ Habsent).
  - destruct (get_col df col) as [s|]; [|done].
    destruct (col_dtype df col) as [dt|]; [|done].
    by rewrite (condition_mask_unread _ _ _ Hunread).
Qed.

(** X12: a filter clause on a column the table does not have, or whose
    dictionary holds none of the keys [eq], [ne], [gt], [lt], [gte],
    [lte], [in], [contains], is skipped: the query is the query without
    that clause, and it does not raise because of it. *)
Theorem filter_clause_skipped df col cond rest :
  mem col (columns df) = false \/ DataLoader.reads_column cond = false ->
  apply_filters df ((col, cond) :: rest) = apply_filters df rest.
Proof. apply apply_filters_skip. Qed.

Lemma filter_clause_skipped_witness :
  apply_filters Fixtures.table_xy
    [("x", CondDict [("between", PInt 1)]); ("z", CondValue (PInt 1))]
  = Return Fixtures.table_xy.
Proof.
  rewrite (filter_clause_skipped Fixtures.table_xy "x"
             (CondDict [("between", PInt 1)]) [("z", CondValue (PInt 1))]
             (or_intror eq_refl)).
  exact (filter_clause_skipped Fixtures.table_xy "z" (CondValue (PInt 1)) []
           (or_introl eq_refl)).
Defined.

(** X13: the filters are applied to the projected table, so a filter on
    a column that the projection has dropped is silently ignored. *)
Theorem filter_on_dropped_column df cols col cond filters limit :
  Exists (fun c => mem c (columns df) = true) cols ->
  mem col cols = false ->
  query_table df (Some ((col, cond) :: filters)) (Some cols) limit
  = query_table df (Some filters) (Some cols) limit.
Proof.
  intros Hsome Hdropped. unfold query_table.
  assert (Hproj : columns (project df (Some cols))
                  = List.filter (fun c => mem c (columns df)) cols).
  { unfold project. destruct cols as [|c rest]; [by inversion Hsome|].
    pose proof (filter_present_some _ _ Hsome) as Hne.
    destruct (List.filter _ (c :: rest)) as [|c' l] eqn:Hf; [done|].
    rewrite <- Hf. apply select_columns. apply filter_present_all. }
  rewrite (apply_filters_skip (project df (Some cols)) col cond filters);
    [done|].
  left. rewrite Hproj, mem_filter, Hdropped. apply andb_false_r.
Qed.

Lemma filter_on_dropped_column_witness :
  query_table Fixtures.table_xy (Some [("x", CondValue (PInt 1))])
              (Some ["y"]) None
  = Return (mkDF [("y", DtFloat)] [[Num 0.5]; [Num 1.5]; [Num 2.5]]%float).
Proof.
  rewrite (filter_on_dropped_column Fixtures.table_xy ["y"] "x"
             (CondValue (PInt 1)) [] None
             ltac:(apply Exists_cons_hd; reflexivity) eq_refl).
  reflexivity.
Defined.

(** ** The two [query_data] *)

Lemma filter_all {A} (p : A -> bool) l :
  Forall (fun x => p x = true) l -> List.filter p l = l.
Proof. induction 1 as [|x l Hx _ IH]; simpl; [done|]. by rewrite Hx, IH. Qed.

Lemma filter_none {A} (p : A -> bool) l :
  Forall (fun x => p x = true) l -> List.filter (fun x => negb (p x)) l = [].
Proof. induction 1 as [|x l Hx _ IH]; simpl; [done|]. by rewrite Hx. Qed.

Lemma present_column df col :
  mem col (columns df) = true ->
  exists s dt, get_col df col = Some s /\ col_dtype df col = Some dt.
Proof.
  intros Hin. destruct (mem_col_index _ _ Hin) as [i Hi].
  unfold get_col, col_dtype. rewrite Hi. by eexists _, _.
Qed.

Lemma apply_filters_agree df filters :
  Forall (fun f => mem (fst f) (columns df) = true) filters ->
  DataLoader.apply_filters df filters = apply_filters df filters.
Proof.
  revert df. induction filters as [|[col cond] rest IH]; intros df Hall;
    [done|].
  inversion Hall as [|? ? Hcol Hrest]; subst. simpl in *.
  destruct (present_column _ _ Hcol) as (s & dt & -> & ->).
  destruct (DataLoader.reads_column cond) eqn:Hreads.
  - destruct (condition_mask dt s cond) as [[mask|]|e]; simpl; auto.
  - rewrite (condition_mask_unread _ _ _ Hreads). simpl. auto.
Qed.

(** X14: the [query_data] of [data_loader.py] and the one of
    [mapped_data_loader.py] give the same result whenever every requested
    column and every filtered column is in the table. *)
Theorem query_tables_agree df filters cols limit :
  Forall (fun c => mem c (columns df) = true) (default [] cols) ->
  Forall (fun f => mem (fst f) (columns (project df cols)) = true)
         (default [] filters) ->
  DataLoader.query_table df filters cols limit
  = query_table df filters cols limit.
Proof.
  intros Hcols Hfilters. unfold DataLoader.query_table, query_table.
  assert (Hproj : match cols with
                  | None | Some [] => Return df
                  | Some cols => DataLoader.getitem_columns df cols
                  end = Return (project df cols)).
  { destruct cols as [[|c rest]|]; try done. simpl in Hcols.
    unfold DataLoader.getitem_columns, project.
    rewrite (filter_none (fun col => mem col (columns df)) _ Hcols).
    by rewrite (filter_all (fun col => mem col (columns df)) _ Hcols). }
  rewrite Hproj. simpl.
  destruct filters as [fl|]; [|done]. simpl in Hfilters.
  by rewrite (apply_filters_agree _ _ Hfilters).
Qed.

Lemma query_tables_agree_witness :
  DataLoader.query_table Fixtures.table_xy
    (Some [("x", CondDict [("gte", PInt 2)])]) (Some ["y"; "x"]) (Some 5)
  = Return (mkDF [("y", DtFloat); ("x", DtInt)]
                 [[Num 1.5; Num 2]; [Num 2.5; Num 3]]%float).
Proof.
  rewrite (query_tables_agree Fixtures.table_xy
             (Some [("x", CondDict [("gte", PInt 2)])]) (Some ["y"; "x"])
             (Some 5) ltac:(repeat constructor) ltac:(repeat constructor)).
  reflexivity.
Defined.

(** X15: they differ on a requested column the table does not have: the
    [query_data] of [data_loader.py] raises [KeyError] for such a column,
    whatever the filters and the limit. *)
Theorem strict_query_missing_column df filters cols limit :
  Exists (fun c => mem c (columns df) = false) cols ->
  exists missing,
    DataLoader.query_table df filters (Some cols) limit
    = Raise (KeyError missing) /\
    mem missing cols = true /\
    mem missing (columns df) = false.
Proof.
  intros Hmissing. unfold DataLoader.query_table.
  assert (Hfirst : exists missing rest,
            List.filter (fun col => negb (mem col (columns df))) cols
            = missing :: rest).
  { induction Hmissing as [c l Hc | c l _ IH]; simpl.
    - rewrite Hc. simpl. by eexists _, _.
    - destruct (negb (mem c (columns df))); [by eexists _, _ | apply IH]. }
  destruct Hfirst as (missing & rest & Hfilter).
  assert (Hin : In missing
                  (List.filter (fun col => negb (mem col (columns df))) cols))
    by (rewrite Hfilter; by left).
  apply filter_In in Hin as [Hin Habsent].
  exists missing. split.
  - destruct cols as [|c l]; [by inversion Hmissing|].
    unfold DataLoader.getitem_columns. by rewrite Hfilter.
  - split; [|by apply negb_true_iff].
    unfold mem. apply existsb_exists. exists missing.
    split; [done | apply String.eqb_refl].
Qed.

Lemma strict_query_missing_column_witness :
  exists missing,
    DataLoader.query_table Fixtures.table_xy None (Some ["y"; "z"]) None
    = Raise (KeyError missing) /\
    mem missing ["y"; "z"] = true /\
    mem missing (columns Fixtures.table_xy) = false.
Proof.
  exact (strict_query_missing_column Fixtures.table_xy None ["y"; "z"] None
           ltac:(apply Exists_cons_tl, Exists_cons_hd; reflexivity)).
Defined.

(** ** [get_data_info] *)

Local Opaque load_data.

(** X16: when [get_data_info] succeeds the table is in the cache, the
    result describes the cached table, and asking again gives the same
    result without any access to the disk: the second call changes
    nothing, not even the access log. *)
Theorem get_data_info_stable memory_usage fs file_name s info s1 :
  get_data_info memory_usage fs file_name s = (Return info, s1) ->
  (exists r df,
      data_cache s1 !! file_name = Some r /\
      heap s1 !! r = Some df /\
      info_shape info = shape df /\
      info_columns info = columns df /\
      info_null_counts info = null_counts df) /\
  get_data_info memory_usage fs file_name s1 = (Return info, s1).
Proof.
  unfold get_data_info at 1, bind at 1, get_state at 1.
  assert (Hhit : forall s2 r,
    data_cache s2 !! file_name = Some r ->
    get_data_info memory_usage fs file_name s2 = (Return info, s2) ->
    (exists r df,
        data_cache s2 !! file_name = Some r /\
        heap s2 !! r = Some df /\
        info_shape info = shape df /\
        info_columns info = columns df /\
        info_null_counts info = null_counts df) /\
    get_data_info memory_usage fs file_name s2 = (Return info, s2)).
  { intros s2 r Hc Hrun. split; [|done].
    unfold get_data_info, bind, get_state, ret, deref in Hrun.
    rewrite Hc in Hrun. simpl in Hrun. rewrite Hc in Hrun.
    destruct (heap s2 !! r) as [df|] eqn:Hdf; [|discriminate].
    injection Hrun as <-. by exists r, df. }
  assert (Hcached : forall s2 r,
    data_cache s2 !! file_name = Some r ->
    get_data_info memory_usage fs file_name s2
    = (do s <- get_state;
       match data_cache s !! file_name with
       | None => raise (KeyError file_name)
       | Some r =>
           do df <- deref r;
           ret {| info_shape := shape df;
                  info_columns := columns df;
                  info_dtypes := schema df;
                  info_null_counts := null_counts df;
                  info_memory_usage := memory_usage df |}
       end) s2).
  { intros s2 r Hc. unfold get_data_info, bind at 1, get_state at 1.
    rewrite Hc. reflexivity. }
  destruct (data_cache s !! file_name) as [r|] eqn:Hc.
  - unfold bind at 1, ret at 1. intros Hrun.
    assert (s1 = s) as ->.
    { unfold bind, get_state, deref, ret in Hrun. rewrite Hc in Hrun.
      destruct (heap s !! r); by injection Hrun. }
    apply (Hhit s r Hc). by rewrite (Hcached s r Hc).
  - unfold bind at 1, bind at 1.
    destruct (load_data fs file_name [] s) as [[r|e] s2] eqn:Hload;
      [|discriminate].
    unfold ret at 1. intros Hrun.
    assert (Hc2 : data_cache s2 !! file_name = Some r).
    { destruct (load_data_miss _ _ _ _ _ _ Hc Hload) as (df & evs & -> & _).
      apply lookup_insert_eq. }
    assert (s1 = s2) as ->.
    { unfold bind, get_state, deref, ret in Hrun. rewrite Hc2 in Hrun.
      destruct (heap s2 !! r); by injection Hrun. }
    apply (Hhit s2 r Hc2). by rewrite (Hcached s2 r Hc2).
Qed.

Local Transparent load_data.

Lemma get_data_info_stable_witness :
  let s1 := snd (get_data_info (fun _ => 0) Fixtures.fs_tables "blank.csv"
                   Fixtures.fresh) in
  fst (get_data_info (fun _ => 0) Fixtures.fs_tables "blank.csv" s1)
  = Return {| info_shape := (2, 2)%nat;
              info_columns := ["id"; "x"];
              info_dtypes := [("id", DtInt); ("x", DtFloat)];
              info_null_counts := [("id", 0%nat); ("x", 2%nat)];
              info_memory_usage := 0 |} /\
  io_log (snd (get_data_info (fun _ => 0) Fixtures.fs_tables "blank.csv" s1))
  = io_log s1.
Proof.
  intros s1.
  destruct (get_data_info_stable (fun _ => 0) Fixtures.fs_tables "blank.csv"
              Fixtures.fresh _ s1 eq_refl) as [_ Hagain].
  rewrite Hagain. split; reflexivity.
Defined.

(** ** Time slices and the cache *)

Local Opaque load_data.

(** X17: [get_time_series_data] writes the converted time column into
    the cached table itself: when the table loads and its time column is
    not of a datetime type, then after the call, whether it returns or
    raises on a bound, the cached object is the table with that column
    replaced by timestamps, and this is what later loads return. *)
Theorem time_slice_rewrites_cache lib fs file_name time_col value_cols
        start_date end_date s r s1 df dt col :
  load_data fs file_name [] s = (Return r, s1) ->
  heap s1 !! r = Some df ->
  get_col df time_col = Some col ->
  col_dtype df time_col = Some dt ->
  dt <> DtDatetime ->
  snd (get_time_series_data lib fs file_name time_col value_cols
         start_date end_date s)
  = set_heap (<[r := set_col df time_col DtDatetime
                        (to_datetime_coerce lib col)]> (heap s1)) s1.
Proof.
  intros Hload Hobj Hcol Hdt Hne.
  unfold get_time_series_data, bind at 1. rewrite Hload.
  unfold bind at 1, deref at 1. rewrite Hobj.
  rewrite (get_col_mem _ _ _ Hcol). simpl negb. cbv iota.
  unfold bind at 1, ret at 1. rewrite Hdt, Hcol.
  destruct dt; try done;
    (unfold bind at 1, update_object at 1;
     set (s2 := set_heap _ s1);
     unfold bind at 1, deref at 1;
     destruct (heap s2 !! r) as [df2|]; [|done];
     destruct (given start_date) as [b1|]; destruct (given end_date) as [b2|];
     unfold bind, lift, ret;
     repeat match goal with
            | |- context [timestamp_of_string lib ?b] =>
                destruct (timestamp_of_string lib b); simpl
            end;
     try done;
     by destruct (List.filter _ value_cols)).
Qed.

Local Transparent load_data.

Lemma time_slice_rewrites_cache_witness :
  let s2 := snd (get_time_series_data Plain.lib Fixtures.fs_tables
                   "sales.csv" "date" ["v"] (Some "not a date") None
                   Fixtures.fresh) in
  (heap s2 !! 0%nat) ≫= (fun df => get_col df "date")
  = Some [Ts 1673740800000000000; Ts 1676419200000000000;
          Ts 1705276800000000000; Ts 1707955200000000000].
Proof.
  intros s2. unfold s2.
  rewrite (time_slice_rewrites_cache Plain.lib Fixtures.fs_tables
             "sales.csv" "date" ["v"] (Some "not a date") None
             Fixtures.fresh 0%nat _ Fixtures.table_sales DtObject
             [Str "2023-01-15"; Str "2023-02-15";
              Str "2024-01-15"; Str "2024-02-15"]
             eq_refl eq_refl eq_refl eq_refl ltac:(discriminate)).
  reflexivity.
Defined.

Local Opaque load_data.

(** X18: when the table has no column of the requested name,
    [get_time_series_data] behaves exactly as if it had been asked for the
    first column whose lower-cased name contains [date], [时间], [日期] or
    [time]; when there is no such column either it raises [ValueError]
    and leaves the freshly loaded table untouched. *)
Theorem time_slice_fallback lib fs file_name time_col value_cols
        start_date end_date s r s1 df :
  load_data fs file_name [] s = (Return r, s1) ->
  heap s1 !! r = Some df ->
  mem time_col (columns df) = false ->
  (forall possible others,
      possible_time_cols df = possible :: others ->
      get_time_series_data lib fs file_name time_col value_cols
        start_date end_date s
      = get_time_series_data lib fs file_name possible value_cols
          start_date end_date s) /\
  (possible_time_cols df = [] ->
   get_time_series_data lib fs file_name time_col value_cols
     start_date end_date s
   = (Raise (ValueError (MsgNoTimeColumn time_col)), s1)).
Proof.
  intros Hload Hobj Habsent. split.
  - intros possible others Hpossible.
    assert (Hin : mem possible (columns df) = true).
    { assert (In possible (possible_time_cols df))
        by (rewrite Hpossible; by left).
      unfold possible_time_cols in H. apply filter_In in H as [Hin _].
      unfold mem. apply existsb_exists. exists possible.
      split; [done | apply String.eqb_refl]. }
    unfold get_time_series_data, bind at 1. rewrite Hload.
    unfold bind at 1, deref at 1. rewrite Hobj.
    unfold bind at 1. rewrite Habsent. simpl negb. cbv iota.
    unfold possible_time_cols in Hpossible. rewrite Hpossible.
    symmetry.
    unfold bind at 1. rewrite Hload.
    unfold bind at 1, deref at 1. rewrite Hobj.
    unfold bind at 1. rewrite Hin. simpl negb. cbv iota.
    reflexivity.
  - intros Hnone.
    unfold get_time_series_data, bind at 1. rewrite Hload.
    unfold bind at 1, deref at 1. rewrite Hobj.
    unfold bind at 1. rewrite Habsent. simpl negb. cbv iota.
    unfold possible_time_cols in Hnone. by rewrite Hnone.
Qed.

Local Transparent load_data.

Lemma time_slice_fallback_witness :
  get_time_series_data Plain.lib Fixtures.fs_tables "sales.csv" "month"
    ["v"] None None Fixtures.fresh
  = get_time_series_data Plain.lib Fixtures.fs_tables "sales.csv" "date"
      ["v"] None None Fixtures.fresh /\
  fst (get_time_series_data Plain.lib Fixtures.fs_tables "xy.csv" "month"
         ["y"] None None Fixtures.fresh)
  = Raise (ValueError (MsgNoTimeColumn "month")).
Proof.
  split.
  - apply (proj1 (time_slice_fallback Plain.lib Fixtures.fs_tables "sales.csv"
                    "month" ["v"] None None Fixtures.fresh 0%nat _
                    Fixtures.table_sales eq_refl eq_refl eq_refl) "date" []).
    reflexivity.
  - rewrite (proj2 (time_slice_fallback Plain.lib Fixtures.fs_tables "xy.csv"
                      "month" ["y"] None None Fixtures.fresh 0%nat _
                      Fixtures.table_xy eq_refl eq_refl eq_refl) eq_refl).
    reflexivity.
Defined.


Local Opaque load_data.


Local Transparent load_data.


(** ** More on the statistics engine *)

(** X20: on a column that exists and holds no value at all
    [analyze_distribution] returns the failure payload for "no valid
    data"; it does not raise. *)
Theorem analyze_distribution_no_values lib fs file_name df column s :
  get_data_summary fs file_name = StatusSuccess df ->
  get_col df column = Some s ->
  dropna s = [] ->
  analyze_distribution lib fs file_name column
  = Return (error_payload MsgNoValidData).
Proof.
  intros Hload Hcol Hempty. unfold analyze_distribution, with_table.
  rewrite Hload. unfold analyze_distribution_body, bind, get_state, getitem.
  cbv beta iota. rewrite (get_col_mem _ _ _ Hcol). cbv beta iota delta [negb].
  by rewrite Hcol, Hempty.
Qed.

Lemma analyze_distribution_no_values_witness :
  analyze_distribution Plain.lib Fixtures.fs_tables "blank.csv" "x"
  = Return (error_payload MsgNoValidData).
Proof.
  exact (analyze_distribution_no_values Plain.lib Fixtures.fs_tables
           "blank.csv" Fixtures.table_blank "x" [Num nan; Num nan]
           eq_refl eq_refl eq_refl).
Defined.

Lemma col_dtype_absent df col :
  mem col (columns df) = false -> col_dtype df col = None.
Proof.
  intros Hno. unfold col_dtype.
  destruct (col_index col (columns df)) as [i|] eqn:Hi; [|done].
  by rewrite (col_index_mem _ _ _ Hi) in Hno.
Qed.

(** X21: a time column the table does not have is not reported in a
    payload: [analyze_trend], [analyze_seasonality] and [compare_periods]
    all raise [KeyError] for it, and leave the table as it was. *)
Theorem missing_time_column_raises lib df time_col :
  mem time_col (columns df) = false ->
  (forall value_cols method,
      analyze_trend_body lib time_col value_cols method df
      = (Raise (KeyError time_col), df)) /\
  (forall value_col period,
      analyze_seasonality_body lib time_col value_col period df
      = (Raise (KeyError time_col), df)) /\
  (forall value_col period1 period2,
      compare_periods_body lib time_col value_col period1 period2 df
      = (Raise (KeyError time_col), df)).
Proof.
  intros Habsent. pose proof (col_dtype_absent _ _ Habsent) as Hdt.
  repeat split; intros.
  - unfold analyze_trend_body, bind, parse_time_trend, bind, is_datetime.
    by rewrite Hdt.
  - unfold analyze_seasonality_body, bind, parse_time_seasonality, bind,
      is_datetime. by rewrite Hdt.
  - unfold compare_periods_body, bind, is_datetime. by rewrite Hdt.
Qed.

Lemma missing_time_column_raises_witness :
  analyze_trend_body Plain.lib "date" ["x"] "linear" Fixtures.table_xy
  = (Raise (KeyError "date"), Fixtures.table_xy).
Proof.
  exact (proj1 (missing_time_column_raises Plain.lib Fixtures.table_xy "date"
                  eq_refl) ["x"] "linear").
Defined.

Lemma dict_set_errors col results :
  Forall (fun kv => snd kv = error_payload MsgTooFewPoints) results ->
  Forall (fun kv => snd kv = error_payload MsgTooFewPoints)
         (dict_set col (error_payload MsgTooFewPoints) results).
Proof.
  induction 1 as [|[k v] rest Hkv Hrest IH]; simpl.
  - by repeat constructor.
  - destruct k; try (by constructor).
    destruct (String.eqb col s); by constructor.
Qed.

(** X22: a method other than [linear] and [moving_average] is not
    reported by [analyze_trend]: once the time column is parsed the call
    returns, and its result holds nothing but the "too few points"
    entries of the columns with fewer than two valid points; the other
    columns are silently left out. *)
Theorem analyze_trend_unknown_method lib df df1 time_col value_cols method :
  method <> "linear" -> method <> "moving_average" ->
  parse_time_trend lib time_col df = (Return tt, df1) ->
  exists results,
    analyze_trend_body lib time_col value_cols method df
    = (Return (PDict results), df1) /\
    Forall (fun kv => snd kv = error_payload MsgTooFewPoints) results.
Proof.
  intros Hlin Hma Hparse.
  assert (Hloop : forall sorted results,
    Forall (fun kv => snd kv = error_payload MsgTooFewPoints) results ->
    exists results',
      trend_loop lib sorted time_col value_cols method results
      = Return results' /\
      Forall (fun kv => snd kv = error_payload MsgTooFewPoints) results').
  { intros sorted.
    induction value_cols as [|col rest IH]; intros results Hres; simpl.
    - by exists results.
    - destruct (mem col (columns sorted)); simpl; [|by apply IH].
      destruct (len (valid_values sorted time_col col) <? 2)%Z.
      + apply IH. by apply dict_set_errors.
      + unfold trend_of.
        rewrite (eqb_differs _ _ Hlin), (eqb_differs _ _ Hma). simpl.
        by apply IH. }
  destruct (Hloop (sort_values lib time_col df1) [] ltac:(constructor))
    as (results & Hrun & Hall).
  exists results. split; [|done].
  unfold analyze_trend_body, bind. rewrite Hparse.
  unfold get_state, lift, ret. by rewrite Hrun.
Qed.

Lemma analyze_trend_unknown_method_witness :
  exists results,
    analyze_trend_body Plain.lib "date" ["v"; "price"] "spline"
      Fixtures.table_sales
    = (Return (PDict results),
       snd (parse_time_trend Plain.lib "date" Fixtures.table_sales)) /\
    Forall (fun kv => snd kv = error_payload MsgTooFewPoints) results.
Proof.
  exact (analyze_trend_unknown_method Plain.lib Fixtures.table_sales _ "date"
           ["v"; "price"] "spline" ltac:(discriminate) ltac:(discriminate)
           eq_refl).
Defined.

(** ** Correlations *)

Lemma numeric_columns_present df :
  Forall (fun col => mem col (columns df) = true) (numeric_columns df).
Proof.
  unfold numeric_columns, columns. apply List.Forall_forall. intros col Hin.
  apply in_map_iff in Hin as ([c dt] & <- & Hin). apply filter_In in Hin as [Hin _].
  unfold mem. apply existsb_exists. exists c. split; [|apply String.eqb_refl].
  apply in_map_iff. by exists (c, dt).
Qed.

(** X23: [generate_correlation_matrix] reports the requested columns the
    table does not have, all of them and in the order requested, in a
    failure payload, without computing any correlation; with no column
    list it takes the numeric columns and never reports a missing
    column. *)
Theorem correlation_missing_columns lib df :
  (forall cols,
      Exists (fun col => mem col (columns df) = false) cols ->
      generate_correlation_matrix_body lib (Some cols) df
      = (Return (error_payload
                   (MsgColumnsMissing
                      (List.filter (fun col => negb (mem col (columns df)))
                                   cols))), df)) /\
  (forall missing,
      fst (generate_correlation_matrix_body lib None df)
      <> Return (error_payload (MsgColumnsMissing missing))).
Proof.
  split.
  - intros cols Hmissing.
    unfold generate_correlation_matrix_body, bind, get_state.
    destruct (List.filter _ cols) as [|c l] eqn:Hf; [|done].
    exfalso. induction Hmissing as [c l Hc | c l _ IH]; simpl in Hf.
    + by rewrite Hc in Hf.
    + destruct (negb (mem c (columns df))); [done | by apply IH].
  - intros missing.
    unfold generate_correlation_matrix_body, bind, get_state.
    rewrite (filter_none (fun col => mem col (columns df)) _
               (numeric_columns_present df)).
    unfold lift. destruct (map_result _ _); simpl; discriminate.
Qed.

Lemma correlation_missing_columns_witness :
  generate_correlation_matrix_body Plain.lib (Some ["z"; "x"; "w"])
    Fixtures.table_xy
  = (Return (error_payload (MsgColumnsMissing ["z"; "w"])), Fixtures.table_xy).
Proof.
  exact (proj1 (correlation_missing_columns Plain.lib Fixtures.table_xy)
           ["z"; "x"; "w"] ltac:(apply Exists_cons_hd; reflexivity)).
Defined.

Lemma ltb_leb (a b : float) :
  PrimFloat.ltb a b = true -> PrimFloat.leb a b = true.
Proof.
  rewrite FloatAxioms.ltb_spec, FloatAxioms.leb_spec. unfold SpecFloat.SFltb, SpecFloat.SFleb.
  by destruct (SpecFloat.SFcompare _ _) as [[]|].
Qed.

(** X24: both correlation reports walk the same pairs, but
    [strong_correlations] of the analyzer keeps a pair when its absolute
    correlation is above 0.7 and [high_correlations] of the query keeps it
    from 0.7 on: every strong pair, its ["strength"] left aside, is among
    the high pairs of the same matrix, in the same order. *)
Theorem strong_pairs_are_high labels matrix :
  sublist (map without_strength (strong_pairs labels matrix))
          (_find_high_correlations labels matrix 0.7).
Proof.
  unfold strong_pairs, _find_high_correlations. cbv zeta.
  set (n := length labels).
  generalize (seq 0 n) as rows_. intros rows_.
  induction rows_ as [|i rows_ IH]; simpl; [constructor|].
  rewrite map_app. apply sublist_app; [|exact IH].
  generalize (seq (S i) (n - S i)) as cols_. intros cols_.
  induction cols_ as [|j cols_ IHj]; simpl; [constructor|].
  destruct (PrimFloat.ltb 0.7 (fabs (nth j (nth i matrix []) nan))) eqn:Hlt.
  - rewrite (ltb_leb _ _ Hlt). simpl. constructor. exact IHj.
  - destruct (PrimFloat.leb 0.7 (fabs (nth j (nth i matrix []) nan))); simpl;
      [apply sublist_cons|]; exact IHj.
Qed.

(** ** Financial ratios *)

Lemma lookup_key_outcome {V} k (d : list (string * V)) :
  (exists v, lookup_key k d = Return v) \/ lookup_key k d = Raise (KeyError k).
Proof. unfold lookup_key. destruct (dict_get k d); [left; by eexists | by right]. Qed.

Lemma divide_guarded a b :
  is_zero b = false ->
  (exists v, divide a b = Return v) \/ divide a b = Raise TypeError.
Proof.
  destruct a as [x| | |], b as [y| | |]; simpl; try (by right);
    try (left; by eexists).
  intros ->. left. by eexists.
Qed.

Lemma ratio_of_outcome row definition :
  (exists v, ratio_of row definition = Return v) \/
  ratio_of row definition = Raise TypeError.
Proof.
  unfold ratio_of, lookup_key.
  destruct (dict_get "numerator" definition) as [nc|]; simpl;
    [|left; by eexists].
  destruct (dict_get nc row) as [n|]; simpl; [|left; by eexists].
  destruct (dict_get "denominator" definition) as [dc|]; simpl;
    [|left; by eexists].
  destruct (dict_get dc row) as [d|]; simpl; [|left; by eexists].
  destruct (is_zero d) eqn:Hz; [left; by eexists|].
  destruct (divide_guarded n d Hz) as [[v ->] | ->];
    [left; by eexists | by right].
Qed.

(** X25: one ratio, on a row with distinct labels, never fails on a
    zero or a missing operand: a denominator equal to zero, and a column
    the row does not have, give NaN; the computation returns a value or
    raises [TypeError] for operands that cannot be divided, and never
    raises [ZeroDivisionError] or [KeyError]. *)
Theorem ratio_of_guarded row definition :
  NoDup (map fst row) ->
  ((exists v, ratio_of row definition = Return v) \/
   ratio_of row definition = Raise TypeError) /\
  (forall numerator_col denominator_col numerator denominator,
      dict_get "numerator" definition = Some numerator_col ->
      dict_get "denominator" definition = Some denominator_col ->
      dict_get numerator_col row = Some numerator ->
      dict_get denominator_col row = Some denominator ->
      is_zero denominator = true ->
      ratio_of row definition = Return (Num nan)) /\
  (forall numerator_col denominator_col,
      dict_get "numerator" definition = Some numerator_col ->
      dict_get "denominator" definition = Some denominator_col ->
      dict_get numerator_col row = None \/ dict_get denominator_col row = None ->
      ratio_of row definition = Return (Num nan)).
Proof.
  intros _. split; [apply ratio_of_outcome|]. unfold ratio_of, lookup_key. split.
  - intros nc dc n d -> -> Hn Hd Hz. simpl. rewrite Hn. simpl.
    rewrite Hd. simpl. by rewrite Hz.
  - intros nc dc -> -> [Hn | Hd]; simpl.
    + by rewrite Hn.
    + destruct (dict_get nc row); simpl; by rewrite ?Hd.
Qed.

Lemma ratio_of_guarded_witness :
  ratio_of [("profit", Num 5); ("sales", Num 0)]%float
           [("numerator", "profit"); ("denominator", "sales")]
  = Return (Num nan).
Proof.
  exact (proj1 (proj2 (ratio_of_guarded
                         [("profit", Num 5); ("sales", Num 0)]%float
                         [("numerator", "profit"); ("denominator", "sales")]
                         ltac:(compute_done)))
           "profit" "sales" (Num 5) (Num 0) eq_refl eq_refl eq_refl eq_refl
           eq_refl).
Defined.

Lemma ratios_of_outcome row defs ratios :
  match ratios_of row defs ratios with
  | Return _ => True
  | Raise e => e = TypeError
  end.
Proof.
  revert ratios. induction defs as [|[name definition] rest IH];
    intros ratios; simpl; [done|].
  destruct (ratio_of_outcome row definition) as [[v ->] | ->];
    simpl; [apply IH | done].
Qed.

(** X26: the records of [compute_financial_ratios], on a table with
    distinct column labels: whatever the groups, the loops either return
    one record per row of the groups, or raise [TypeError] (a ratio over
    values that cannot be divided) or [KeyError] for the period column;
    they never raise [ZeroDivisionError]. *)
Theorem records_of_groups_outcome cols company_col period_col defs groups :
  NoDup cols ->
  match records_of_groups cols company_col period_col defs groups with
  | Return records =>
      length records = length (concat (map snd groups))
  | Raise e => e = TypeError \/ e = KeyError period_col
  end.
Proof.
  intros _.
  assert (Hgroup : forall company group,
    match rows_of_group cols company_col period_col defs company group with
    | Return records => length records = length group
    | Raise e => e = TypeError \/ e = KeyError period_col
    end).
  { intros company group. induction group as [|r rest IH]; simpl; [done|].
    pose proof (ratios_of_outcome (row_of cols r) defs []) as Hr.
    destruct (ratios_of (row_of cols r) defs []) as [ratios|e]; simpl;
      [|by left].
    unfold result_row.
    destruct (lookup_key_outcome period_col (row_of cols r)) as [[v ->] | ->];
      simpl; [|by right].
    destruct (rows_of_group _ _ _ _ _ rest); simpl; [by f_equal | done]. }
  induction groups as [|[company group] rest IH]; simpl; [done|].
  specialize (Hgroup company group).
  destruct (rows_of_group cols company_col period_col defs company group)
    as [records|e]; simpl; [|done].
  destruct (records_of_groups cols company_col period_col defs rest)
    as [others|e]; simpl; [|done].
  rewrite !length_app. by rewrite Hgroup, IH.
Qed.

Lemma records_of_groups_outcome_witness :
  match
    records_of_groups ["firm"; "year"; "profit"; "sales"] "firm" "year"
      [("margin", [("numerator", "profit"); ("denominator", "sales")])]
      [(Str "A", [[Str "A"; Num 2023; Num 5; Num 0];
                  [Str "A"; Num 2024; Num 6; Num 12]]%float);
       (Str "B", [[Str "B"; Num 2024; Num 1; Num 4]]%float)]
  with
  | Return records => length records = 3%nat
  | Raise e => e = TypeError \/ e = KeyError "year"
  end.
Proof.
  exact (records_of_groups_outcome
           ["firm"; "year"; "profit"; "sales"] "firm" "year"
           [("margin", [("numerator", "profit"); ("denominator", "sales")])]
           [(Str "A", [[Str "A"; Num 2023; Num 5; Num 0];
                       [Str "A"; Num 2024; Num 6; Num 12]]%float);
            (Str "B", [[Str "B"; Num 2024; Num 1; Num 4]]%float)]
           ltac:(compute_done)).
Defined.

(** ** Environment files *)

Import Env.

Lemma read_lines_environ lines st :
  match read_lines lines st with
  | (Some st', env) => env = environ st' /\
                       (env_vars st ⊆ environ st -> env_vars st' ⊆ environ st')
  | (None, env) => True
  end.
Proof.
  revert st. induction lines as [|line rest IH]; intros st; simpl; [done|].
  destruct (negb (String.eqb (strip line) "") && negb (is_comment (strip line)));
    [|apply IH].
  destruct (split_once (strip line)) as [[key value]|]; [|done].
  destruct (legal_assignment (strip key) (strip value)); [|done].
  specialize (IH (mkEnv (<[strip key := strip value]> (environ st))
                        (<[strip key := strip value]> (env_vars st)))).
  destruct (read_lines rest _) as [[st'|] env]; [|done].
  destruct IH as [-> Hsub]. split; [done|].
  intros Hst. apply Hsub. simpl. by apply insert_mono.
Qed.

(** X27: what [load_env_variables] returns has been exported: every
    variable of the returned dictionary is a variable of the process
    afterwards, with the same value. *)
Theorem load_env_variables_exported file os_environ vars env :
  load_env_variables file os_environ = (vars, env) ->
  vars ⊆ env.
Proof.
  unfold load_env_variables. destruct file as [lines|].
  - pose proof (read_lines_environ lines (mkEnv os_environ ∅)) as Hread.
    destruct (read_lines lines _) as [[st|] env'].
    + destruct Hread as [-> Hsub]. intros [= <- <-]. apply Hsub. simpl.
      apply map_empty_subseteq.
    + intros [= <- <-]. apply map_empty_subseteq.
  - intros [= <- <-]. apply map_empty_subseteq.
Qed.

Lemma load_env_variables_exported_witness :
  fst (load_env_variables
         (Some ["# keys"; ""; "API_KEY = abc=123 "; "DATA_ROOT_PATH=data"]) ∅)
  ⊆ snd (load_env_variables
           (Some ["# keys"; ""; "API_KEY = abc=123 "; "DATA_ROOT_PATH=data"]) ∅).
Proof.
  exact (load_env_variables_exported _ _ _ _ (surjective_pairing _)).
Defined.




(** A line of white space beyond ASCII is a blank line, not a malformed
    one: it is skipped and the lines after it are read. *)
Lemma load_env_variables_wide_blank :
  strip Samples.ideographic_space = "" /\
  load_env_variables (Some ["A=1"; Samples.ideographic_space; "B=2"]) ∅
  = ({["A" := "1"; "B" := "2"]}, {["A" := "1"; "B" := "2"]}).
Proof. split; vm_compute; reflexivity. Qed.

(** ** The coordinator's batch load *)

Lemma load_data_outcome fs file_name kw s o s1 :
  load_data fs file_name kw s = (o, s1) ->
  data_cache s ⊆ data_cache s1 /\
  starts_with (heap s) (heap s1) /\
  (forall r, o = Return r -> data_cache s1 !! file_name = Some r).
Proof.
  intros Hload.
  destruct (data_cache s !! file_name) as [r|] eqn:Hc.
  - rewrite (load_data_hit _ _ _ _ _ Hc) in Hload.
    injection Hload as <- <-. simpl.
    split; [done|]. split; [exists []; by rewrite app_nil_r|].
    by intros r' [= <-].
  - destruct o as [r|e].
    + destruct (load_data_miss _ _ _ _ _ _ Hc Hload) as (df & evs & -> & _ & _).
      simpl. split; [by apply insert_subseteq|]. split; [by exists [df]|].
      intros r' [= <-]. by rewrite lookup_insert_eq.
    + destruct (load_data_miss_raise _ _ _ _ _ _ Hc Hload) as [evs ->].
      simpl. split; [done|]. split; [exists []; by rewrite app_nil_r | done].
Qed.

Lemma loaded_as_grows s s1 file_name status :
  data_cache s ⊆ data_cache s1 ->
  starts_with (heap s) (heap s1) ->
  loaded_as s file_name status ->
  loaded_as s1 file_name status.
Proof.
  intros Hcache [rest Hheap]. destruct status as [sh cols|e]; [|done].
  intros (r & df & Hr & Hdf & Hsh & Hcols). exists r, df.
  split; [by eapply lookup_weaken|]. split; [|done].
  rewrite Hheap. by apply lookup_app_l_Some.
Qed.

Lemma load_one_effect fs file_name s o s1 :
  Coordinator.load_one fs file_name s = (o, s1) ->
  data_cache s ⊆ data_cache s1 /\
  starts_with (heap s) (heap s1) /\
  (forall status, o = Return status -> loaded_as s1 file_name status).
Proof.
  unfold Coordinator.load_one, bind.
  destruct (load_data fs file_name [] s) as [[r|e] s2] eqn:Hload;
    destruct (load_data_outcome _ _ _ _ _ _ Hload) as (Hcache & Hheap & Hr).
  - unfold deref. destruct (heap s2 !! r) as [df|] eqn:Hdf.
    + rewrite resolve_runs. unfold ret. intros [= <- <-]. simpl.
      split; [done|]. split; [done|].
      intros status [= <-]. exists r, df.
      split; [exact (Hr r eq_refl)|]. split; [exact Hdf | done].
    + intros [= <- <-]. split; [done|]. split; [done | discriminate].
  - intros [= <- <-]. split; [done|]. split; [done | discriminate].
Qed.

Lemma load_each_effect fs data_files :
  forall load_results s,
    (forall name status, load_results !! name = Some status ->
                         loaded_as s name status) ->
    exists final s1,
      Coordinator.load_each fs data_files load_results s = (Return final, s1) /\
      (forall name, is_Some (final !! name) <->
                    name ∈ data_files \/ is_Some (load_results !! name)) /\
      (forall name status, final !! name = Some status ->
                           loaded_as s1 name status).
Proof.
  induction data_files as [|file_name rest IH]; intros load_results s Hinv.
  - exists load_results, s. split; [done|]. split; [|done].
    intros name. split; [by right | intros [Hin|]; [by inversion Hin | done]].
  - simpl.
    destruct (Coordinator.load_one fs file_name s) as [o s2] eqn:Hone.
    destruct (load_one_effect _ _ _ _ _ Hone) as (Hcache & Hheap & Hok).
    assert (Hstep : forall status,
              (forall st, o = Return st -> st = status) ->
              (forall e, o = Raise e -> status = Coordinator.LoadError e) ->
              exists final s1,
                Coordinator.load_each fs rest
                  (<[file_name := status]> load_results) s2
                = (Return final, s1) /\
                (forall name, is_Some (final !! name) <->
                   name ∈ file_name :: rest \/ is_Some (load_results !! name)) /\
                (forall name st, final !! name = Some st ->
                                 loaded_as s1 name st)).
    { intros status Hret Herr.
      destruct (IH (<[file_name := status]> load_results) s2)
        as (final & s1 & Hrun & Hdom & Hall).
      - intros name st.
        destruct (decide (file_name = name)) as [<-|Hne].
        + rewrite lookup_insert_eq. intros [= <-].
          destruct o as [st|e].
          * rewrite <- (Hret st eq_refl). by apply Hok.
          * by rewrite (Herr e eq_refl).
        + rewrite lookup_insert_ne by done. intros Hst.
          eapply loaded_as_grows; [done | done | by apply Hinv].
      - exists final, s1. split; [done|]. split; [|done].
        intros name. rewrite Hdom, elem_of_cons.
        destruct (decide (file_name = name)) as [<-|Hne].
        + rewrite lookup_insert_eq. split; [by left; left | by right].
        + rewrite lookup_insert_ne by done.
          split; [intros [?|?]; [by left; right | by right]
                 |intros [[?|?]|?]; [done | by left | by right]]. }
    destruct o as [status|e].
    + apply Hstep; [by intros st [= <-] | discriminate].
    + apply Hstep; [discriminate | by intros e' [= <-]].
Qed.

(** X29: the coordinator's batch load never raises: it returns a
    dictionary with an entry for exactly the names it was asked to load
    (the six default names when none are given), and every entry marked
    as a success gives the shape and the columns of the table that the
    loader's cache holds under that name afterwards. *)
Theorem coordinator_load_data_total fs data_files s :
  exists load_results s1,
    Coordinator.load_data fs data_files s = (Return load_results, s1) /\
    (forall name, is_Some (load_results !! name) <->
                  name ∈ default Coordinator.default_data_files data_files) /\
    (forall name status, load_results !! name = Some status ->
                         loaded_as s1 name status).
Proof.
  unfold Coordinator.load_data.
  destruct (load_each_effect fs
              (default Coordinator.default_data_files data_files) ∅ s)
    as (final & s1 & Hrun & Hdom & Hall).
  - intros name status. by rewrite lookup_empty.
  - exists final, s1. split; [done|]. split; [|done].
    intros name. rewrite Hdom. split; [|by left].
    intros [?|Hsome]; [done|]. rewrite lookup_empty in Hsome.
    by destruct Hsome.
Qed.
